(** * micro-clock: a shallow embedding of [mini-project-clock.c]

    The firmware runs on a PIC18F8722 and is built with XC8 (the interrupt
    routines use XC8's [interrupt] / [low_priority] qualifiers).  On that
    target a plain [char] is an unsigned 8-bit integer and an [unsigned int]
    is 16 bits wide; the program relies on it ([dp_mask = 0xFF],
    [case(ALARM1)] with [ALARM1 = 0x80], [(Switches() >> 7) == 1]).  Integer
    variables are modelled as [Z] and every store writes the wrapped value.

    The global variables of the program are the fields of [State].  Functions
    that only compute on the globals are functions on [State]; functions that
    read a table, sample an input pin or wait for the millisecond interrupt
    live in the monad [M], which threads the state and reports a table index
    out of range or an exhausted loop budget.

    Time is counted in periods of the millisecond interrupt.  The inputs are
    a trace with one sample of the pins per period; a period passes in the
    busy-wait of the debounce routines, in the library delays, and between
    two loop heads of the settings menu. *)

From Stdlib Require Import ZArith List Bool Lia.
Import ListNotations.
Open Scope Z_scope.

(** ** Integer types *)

Definition wrap8 (x : Z) : Z := x mod 256.
Definition wrap16 (x : Z) : Z := x mod 65536.

Definition is_char (x : Z) : Prop := 0 <= x <= 255.

(** A C truth value: anything but zero. *)
Definition truthy (x : Z) : bool := negb (x =? 0).

(** ** Pre-processor constants *)

Definition SET_MENU_FLASH : Z := 100.
Definition ALARM_TOGGLE : Z := 150.
Definition DEBOUNCE_DELAY : Z := 25.
Definition KEY_REPEAT_DELAY : Z := 25.
Definition DISPLAY_CYCLE_DELAY : Z := 3000.
Definition ALARM_POLL_RATE : Z := 50.

Definition TIMER0_VALUE : Z := 63036.

Definition HRS : Z := 0x04.
Definition MINS : Z := 0x02.
Definition SECS : Z := 0x01.
Definition DAY : Z := 0x20.
Definition MONTH : Z := 0x10.
Definition YEAR : Z := 0x08.
Definition ALARM1 : Z := 0x80.
Definition ALARM2 : Z := 0x40.

(** ** Constant tables *)

Definition DispNums : list Z :=
  [0x84; 0xF5; 0x4C; 0x64; 0x35; 0x26; 0x06; 0xF4; 0x04; 0x34].

Module DispChars.
Definition A : Z := 0x14.
Definition b : Z := 0x07.
Definition C : Z := 0x8E.
Definition c : Z := 0x4F.
Definition d : Z := 0x45.
Definition E : Z := 0x0E.
Definition F : Z := 0x1E.
Definition g : Z := 0x24.
Definition H : Z := 0x15.
Definition h : Z := 0x17.
Definition I : Z := 0x9F.
Definition i : Z := 0xDF.
Definition J : Z := 0xC5.
Definition L : Z := 0x8F.
Definition M : Z := 0xD6.
Definition n : Z := 0x57.
Definition o : Z := 0x47.
Definition P : Z := 0x1C.
Definition r : Z := 0x5F.
Definition S : Z := 0x26.
Definition t : Z := 0x0F.
Definition U : Z := 0x85.
Definition u : Z := 0xC7.
Definition y : Z := 0x25.
Definition uo : Z := 0x3C.
End DispChars.

Definition DaysInMonth : list Z :=
  [0; 31; 28; 31; 30; 31; 30; 31; 31; 30; 31; 30; 31].

Definition DaysInMonthLeap : list Z :=
  [0; 31; 29; 31; 30; 31; 30; 31; 31; 30; 31; 30; 31].

(** ** Data model *)

Record TIME : Type := mkTIME { hrs : Z; mins : Z; secs : Z }.

Record DATE : Type := mkDATE
  { day : Z; month : Z; year_short : Z; year_long : Z }.

(** The globals of the program, the special function register bits it
    touches, and [now], the number of millisecond periods elapsed, which
    indexes the input trace. *)
Record State : Type := mkState
  { disp_index : Z;
    Alarm1On : Z;
    Alarm2On : Z;
    multiplex_index : Z;
    ms_count0 : Z;
    ms_count1 : Z;
    ms_count2 : Z;
    ms_count3 : Z;
    disp_U1 : Z;
    disp_U2 : Z;
    disp_LEDS : Z;
    dp_mask : Z;
    day_rollover : Z;
    mins_rollover : Z;
    MainTime : TIME;
    Alarm1Time : TIME;
    Alarm2Time : TIME;
    MainDate : DATE;
    Alarm1Date : DATE;
    Alarm2Date : DATE;
    TMR1IE : bool;
    TMR1IF : bool;
    LATF : Z;
    LH0 : bool;
    LH1 : bool;
    LA4 : bool;
    now : nat }.

(** Field updates. *)

Definition set_hrs (v : Z) (t : TIME) : TIME :=
  {| hrs := v; mins := mins t; secs := secs t |}.

Definition set_mins (v : Z) (t : TIME) : TIME :=
  {| hrs := hrs t; mins := v; secs := secs t |}.

Definition set_secs (v : Z) (t : TIME) : TIME :=
  {| hrs := hrs t; mins := mins t; secs := v |}.

Definition set_day (v : Z) (d : DATE) : DATE :=
  {| day := v; month := month d; year_short := year_short d; year_long := year_long d
     |}.

Definition set_month (v : Z) (d : DATE) : DATE :=
  {| day := day d; month := v; year_short := year_short d; year_long := year_long d |}.

Definition set_year_short (v : Z) (d : DATE) : DATE :=
  {| day := day d; month := month d; year_short := v; year_long := year_long d |}.

Definition set_year_long (v : Z) (d : DATE) : DATE :=
  {| day := day d; month := month d; year_short := year_short d; year_long := v |}.

Definition set_disp_index (v : Z) (s : State) : State :=
  {| disp_index := v; Alarm1On := Alarm1On s; Alarm2On := Alarm2On s; multiplex_index :=
     multiplex_index s; ms_count0 := ms_count0 s; ms_count1 := ms_count1 s; ms_count2 :=
     ms_count2 s; ms_count3 := ms_count3 s; disp_U1 := disp_U1 s; disp_U2 := disp_U2 s;
     disp_LEDS := disp_LEDS s; dp_mask := dp_mask s; day_rollover := day_rollover s;
     mins_rollover := mins_rollover s; MainTime := MainTime s; Alarm1Time := Alarm1Time
     s; Alarm2Time := Alarm2Time s; MainDate := MainDate s; Alarm1Date := Alarm1Date s;
     Alarm2Date := Alarm2Date s; TMR1IE := TMR1IE s; TMR1IF := TMR1IF s; LATF := LATF s;
     LH0 := LH0 s; LH1 := LH1 s; LA4 := LA4 s; now := now s |}.

Definition set_Alarm1On (v : Z) (s : State) : State :=
  {| disp_index := disp_index s; Alarm1On := v; Alarm2On := Alarm2On s; multiplex_index
     := multiplex_index s; ms_count0 := ms_count0 s; ms_count1 := ms_count1 s; ms_count2
     := ms_count2 s; ms_count3 := ms_count3 s; disp_U1 := disp_U1 s; disp_U2 := disp_U2
     s; disp_LEDS := disp_LEDS s; dp_mask := dp_mask s; day_rollover := day_rollover s;
     mins_rollover := mins_rollover s; MainTime := MainTime s; Alarm1Time := Alarm1Time
     s; Alarm2Time := Alarm2Time s; MainDate := MainDate s; Alarm1Date := Alarm1Date s;
     Alarm2Date := Alarm2Date s; TMR1IE := TMR1IE s; TMR1IF := TMR1IF s; LATF := LATF s;
     LH0 := LH0 s; LH1 := LH1 s; LA4 := LA4 s; now := now s |}.

Definition set_Alarm2On (v : Z) (s : State) : State :=
  {| disp_index := disp_index s; Alarm1On := Alarm1On s; Alarm2On := v; multiplex_index
     := multiplex_index s; ms_count0 := ms_count0 s; ms_count1 := ms_count1 s; ms_count2
     := ms_count2 s; ms_count3 := ms_count3 s; disp_U1 := disp_U1 s; disp_U2 := disp_U2
     s; disp_LEDS := disp_LEDS s; dp_mask := dp_mask s; day_rollover := day_rollover s;
     mins_rollover := mins_rollover s; MainTime := MainTime s; Alarm1Time := Alarm1Time
     s; Alarm2Time := Alarm2Time s; MainDate := MainDate s; Alarm1Date := Alarm1Date s;
     Alarm2Date := Alarm2Date s; TMR1IE := TMR1IE s; TMR1IF := TMR1IF s; LATF := LATF s;
     LH0 := LH0 s; LH1 := LH1 s; LA4 := LA4 s; now := now s |}.

Definition set_multiplex_index (v : Z) (s : State) : State :=
  {| disp_index := disp_index s; Alarm1On := Alarm1On s; Alarm2On := Alarm2On s;
     multiplex_index := v; ms_count0 := ms_count0 s; ms_count1 := ms_count1 s; ms_count2
     := ms_count2 s; ms_count3 := ms_count3 s; disp_U1 := disp_U1 s; disp_U2 := disp_U2
     s; disp_LEDS := disp_LEDS s; dp_mask := dp_mask s; day_rollover := day_rollover s;
     mins_rollover := mins_rollover s; MainTime := MainTime s; Alarm1Time := Alarm1Time
     s; Alarm2Time := Alarm2Time s; MainDate := MainDate s; Alarm1Date := Alarm1Date s;
     Alarm2Date := Alarm2Date s; TMR1IE := TMR1IE s; TMR1IF := TMR1IF s; LATF := LATF s;
     LH0 := LH0 s; LH1 := LH1 s; LA4 := LA4 s; now := now s |}.

Definition set_ms_count0 (v : Z) (s : State) : State :=
  {| disp_index := disp_index s; Alarm1On := Alarm1On s; Alarm2On := Alarm2On s;
     multiplex_index := multiplex_index s; ms_count0 := v; ms_count1 := ms_count1 s;
     ms_count2 := ms_count2 s; ms_count3 := ms_count3 s; disp_U1 := disp_U1 s; disp_U2
     := disp_U2 s; disp_LEDS := disp_LEDS s; dp_mask := dp_mask s; day_rollover :=
     day_rollover s; mins_rollover := mins_rollover s; MainTime := MainTime s;
     Alarm1Time := Alarm1Time s; Alarm2Time := Alarm2Time s; MainDate := MainDate s;
     Alarm1Date := Alarm1Date s; Alarm2Date := Alarm2Date s; TMR1IE := TMR1IE s; TMR1IF
     := TMR1IF s; LATF := LATF s; LH0 := LH0 s; LH1 := LH1 s; LA4 := LA4 s; now := now s
     |}.

Definition set_ms_count1 (v : Z) (s : State) : State :=
  {| disp_index := disp_index s; Alarm1On := Alarm1On s; Alarm2On := Alarm2On s;
     multiplex_index := multiplex_index s; ms_count0 := ms_count0 s; ms_count1 := v;
     ms_count2 := ms_count2 s; ms_count3 := ms_count3 s; disp_U1 := disp_U1 s; disp_U2
     := disp_U2 s; disp_LEDS := disp_LEDS s; dp_mask := dp_mask s; day_rollover :=
     day_rollover s; mins_rollover := mins_rollover s; MainTime := MainTime s;
     Alarm1Time := Alarm1Time s; Alarm2Time := Alarm2Time s; MainDate := MainDate s;
     Alarm1Date := Alarm1Date s; Alarm2Date := Alarm2Date s; TMR1IE := TMR1IE s; TMR1IF
     := TMR1IF s; LATF := LATF s; LH0 := LH0 s; LH1 := LH1 s; LA4 := LA4 s; now := now s
     |}.

Definition set_ms_count2 (v : Z) (s : State) : State :=
  {| disp_index := disp_index s; Alarm1On := Alarm1On s; Alarm2On := Alarm2On s;
     multiplex_index := multiplex_index s; ms_count0 := ms_count0 s; ms_count1 :=
     ms_count1 s; ms_count2 := v; ms_count3 := ms_count3 s; disp_U1 := disp_U1 s;
     disp_U2 := disp_U2 s; disp_LEDS := disp_LEDS s; dp_mask := dp_mask s; day_rollover
     := day_rollover s; mins_rollover := mins_rollover s; MainTime := MainTime s;
     Alarm1Time := Alarm1Time s; Alarm2Time := Alarm2Time s; MainDate := MainDate s;
     Alarm1Date := Alarm1Date s; Alarm2Date := Alarm2Date s; TMR1IE := TMR1IE s; TMR1IF
     := TMR1IF s; LATF := LATF s; LH0 := LH0 s; LH1 := LH1 s; LA4 := LA4 s; now := now s
     |}.

Definition set_ms_count3 (v : Z) (s : State) : State :=
  {| disp_index := disp_index s; Alarm1On := Alarm1On s; Alarm2On := Alarm2On s;
     multiplex_index := multiplex_index s; ms_count0 := ms_count0 s; ms_count1 :=
     ms_count1 s; ms_count2 := ms_count2 s; ms_count3 := v; disp_U1 := disp_U1 s;
     disp_U2 := disp_U2 s; disp_LEDS := disp_LEDS s; dp_mask := dp_mask s; day_rollover
     := day_rollover s; mins_rollover := mins_rollover s; MainTime := MainTime s;
     Alarm1Time := Alarm1Time s; Alarm2Time := Alarm2Time s; MainDate := MainDate s;
     Alarm1Date := Alarm1Date s; Alarm2Date := Alarm2Date s; TMR1IE := TMR1IE s; TMR1IF
     := TMR1IF s; LATF := LATF s; LH0 := LH0 s; LH1 := LH1 s; LA4 := LA4 s; now := now s
     |}.

Definition set_disp_U1 (v : Z) (s : State) : State :=
  {| disp_index := disp_index s; Alarm1On := Alarm1On s; Alarm2On := Alarm2On s;
     multiplex_index := multiplex_index s; ms_count0 := ms_count0 s; ms_count1 :=
     ms_count1 s; ms_count2 := ms_count2 s; ms_count3 := ms_count3 s; disp_U1 := v;
     disp_U2 := disp_U2 s; disp_LEDS := disp_LEDS s; dp_mask := dp_mask s; day_rollover
     := day_rollover s; mins_rollover := mins_rollover s; MainTime := MainTime s;
     Alarm1Time := Alarm1Time s; Alarm2Time := Alarm2Time s; MainDate := MainDate s;
     Alarm1Date := Alarm1Date s; Alarm2Date := Alarm2Date s; TMR1IE := TMR1IE s; TMR1IF
     := TMR1IF s; LATF := LATF s; LH0 := LH0 s; LH1 := LH1 s; LA4 := LA4 s; now := now s
     |}.

Definition set_disp_U2 (v : Z) (s : State) : State :=
  {| disp_index := disp_index s; Alarm1On := Alarm1On s; Alarm2On := Alarm2On s;
     multiplex_index := multiplex_index s; ms_count0 := ms_count0 s; ms_count1 :=
     ms_count1 s; ms_count2 := ms_count2 s; ms_count3 := ms_count3 s; disp_U1 := disp_U1
     s; disp_U2 := v; disp_LEDS := disp_LEDS s; dp_mask := dp_mask s; day_rollover :=
     day_rollover s; mins_rollover := mins_rollover s; MainTime := MainTime s;
     Alarm1Time := Alarm1Time s; Alarm2Time := Alarm2Time s; MainDate := MainDate s;
     Alarm1Date := Alarm1Date s; Alarm2Date := Alarm2Date s; TMR1IE := TMR1IE s; TMR1IF
     := TMR1IF s; LATF := LATF s; LH0 := LH0 s; LH1 := LH1 s; LA4 := LA4 s; now := now s
     |}.

Definition set_disp_LEDS (v : Z) (s : State) : State :=
  {| disp_index := disp_index s; Alarm1On := Alarm1On s; Alarm2On := Alarm2On s;
     multiplex_index := multiplex_index s; ms_count0 := ms_count0 s; ms_count1 :=
     ms_count1 s; ms_count2 := ms_count2 s; ms_count3 := ms_count3 s; disp_U1 := disp_U1
     s; disp_U2 := disp_U2 s; disp_LEDS := v; dp_mask := dp_mask s; day_rollover :=
     day_rollover s; mins_rollover := mins_rollover s; MainTime := MainTime s;
     Alarm1Time := Alarm1Time s; Alarm2Time := Alarm2Time s; MainDate := MainDate s;
     Alarm1Date := Alarm1Date s; Alarm2Date := Alarm2Date s; TMR1IE := TMR1IE s; TMR1IF
     := TMR1IF s; LATF := LATF s; LH0 := LH0 s; LH1 := LH1 s; LA4 := LA4 s; now := now s
     |}.

Definition set_dp_mask (v : Z) (s : State) : State :=
  {| disp_index := disp_index s; Alarm1On := Alarm1On s; Alarm2On := Alarm2On s;
     multiplex_index := multiplex_index s; ms_count0 := ms_count0 s; ms_count1 :=
     ms_count1 s; ms_count2 := ms_count2 s; ms_count3 := ms_count3 s; disp_U1 := disp_U1
     s; disp_U2 := disp_U2 s; disp_LEDS := disp_LEDS s; dp_mask := v; day_rollover :=
     day_rollover s; mins_rollover := mins_rollover s; MainTime := MainTime s;
     Alarm1Time := Alarm1Time s; Alarm2Time := Alarm2Time s; MainDate := MainDate s;
     Alarm1Date := Alarm1Date s; Alarm2Date := Alarm2Date s; TMR1IE := TMR1IE s; TMR1IF
     := TMR1IF s; LATF := LATF s; LH0 := LH0 s; LH1 := LH1 s; LA4 := LA4 s; now := now s
     |}.

Definition set_day_rollover (v : Z) (s : State) : State :=
  {| disp_index := disp_index s; Alarm1On := Alarm1On s; Alarm2On := Alarm2On s;
     multiplex_index := multiplex_index s; ms_count0 := ms_count0 s; ms_count1 :=
     ms_count1 s; ms_count2 := ms_count2 s; ms_count3 := ms_count3 s; disp_U1 := disp_U1
     s; disp_U2 := disp_U2 s; disp_LEDS := disp_LEDS s; dp_mask := dp_mask s;
     day_rollover := v; mins_rollover := mins_rollover s; MainTime := MainTime s;
     Alarm1Time := Alarm1Time s; Alarm2Time := Alarm2Time s; MainDate := MainDate s;
     Alarm1Date := Alarm1Date s; Alarm2Date := Alarm2Date s; TMR1IE := TMR1IE s; TMR1IF
     := TMR1IF s; LATF := LATF s; LH0 := LH0 s; LH1 := LH1 s; LA4 := LA4 s; now := now s
     |}.

Definition set_mins_rollover (v : Z) (s : State) : State :=
  {| disp_index := disp_index s; Alarm1On := Alarm1On s; Alarm2On := Alarm2On s;
     multiplex_index := multiplex_index s; ms_count0 := ms_count0 s; ms_count1 :=
     ms_count1 s; ms_count2 := ms_count2 s; ms_count3 := ms_count3 s; disp_U1 := disp_U1
     s; disp_U2 := disp_U2 s; disp_LEDS := disp_LEDS s; dp_mask := dp_mask s;
     day_rollover := day_rollover s; mins_rollover := v; MainTime := MainTime s;
     Alarm1Time := Alarm1Time s; Alarm2Time := Alarm2Time s; MainDate := MainDate s;
     Alarm1Date := Alarm1Date s; Alarm2Date := Alarm2Date s; TMR1IE := TMR1IE s; TMR1IF
     := TMR1IF s; LATF := LATF s; LH0 := LH0 s; LH1 := LH1 s; LA4 := LA4 s; now := now s
     |}.

Definition set_MainTime (v : TIME) (s : State) : State :=
  {| disp_index := disp_index s; Alarm1On := Alarm1On s; Alarm2On := Alarm2On s;
     multiplex_index := multiplex_index s; ms_count0 := ms_count0 s; ms_count1 :=
     ms_count1 s; ms_count2 := ms_count2 s; ms_count3 := ms_count3 s; disp_U1 := disp_U1
     s; disp_U2 := disp_U2 s; disp_LEDS := disp_LEDS s; dp_mask := dp_mask s;
     day_rollover := day_rollover s; mins_rollover := mins_rollover s; MainTime := v;
     Alarm1Time := Alarm1Time s; Alarm2Time := Alarm2Time s; MainDate := MainDate s;
     Alarm1Date := Alarm1Date s; Alarm2Date := Alarm2Date s; TMR1IE := TMR1IE s; TMR1IF
     := TMR1IF s; LATF := LATF s; LH0 := LH0 s; LH1 := LH1 s; LA4 := LA4 s; now := now s
     |}.

Definition set_Alarm1Time (v : TIME) (s : State) : State :=
  {| disp_index := disp_index s; Alarm1On := Alarm1On s; Alarm2On := Alarm2On s;
     multiplex_index := multiplex_index s; ms_count0 := ms_count0 s; ms_count1 :=
     ms_count1 s; ms_count2 := ms_count2 s; ms_count3 := ms_count3 s; disp_U1 := disp_U1
     s; disp_U2 := disp_U2 s; disp_LEDS := disp_LEDS s; dp_mask := dp_mask s;
     day_rollover := day_rollover s; mins_rollover := mins_rollover s; MainTime :=
     MainTime s; Alarm1Time := v; Alarm2Time := Alarm2Time s; MainDate := MainDate s;
     Alarm1Date := Alarm1Date s; Alarm2Date := Alarm2Date s; TMR1IE := TMR1IE s; TMR1IF
     := TMR1IF s; LATF := LATF s; LH0 := LH0 s; LH1 := LH1 s; LA4 := LA4 s; now := now s
     |}.

Definition set_Alarm2Time (v : TIME) (s : State) : State :=
  {| disp_index := disp_index s; Alarm1On := Alarm1On s; Alarm2On := Alarm2On s;
     multiplex_index := multiplex_index s; ms_count0 := ms_count0 s; ms_count1 :=
     ms_count1 s; ms_count2 := ms_count2 s; ms_count3 := ms_count3 s; disp_U1 := disp_U1
     s; disp_U2 := disp_U2 s; disp_LEDS := disp_LEDS s; dp_mask := dp_mask s;
     day_rollover := day_rollover s; mins_rollover := mins_rollover s; MainTime :=
     MainTime s; Alarm1Time := Alarm1Time s; Alarm2Time := v; MainDate := MainDate s;
     Alarm1Date := Alarm1Date s; Alarm2Date := Alarm2Date s; TMR1IE := TMR1IE s; TMR1IF
     := TMR1IF s; LATF := LATF s; LH0 := LH0 s; LH1 := LH1 s; LA4 := LA4 s; now := now s
     |}.

Definition set_MainDate (v : DATE) (s : State) : State :=
  {| disp_index := disp_index s; Alarm1On := Alarm1On s; Alarm2On := Alarm2On s;
     multiplex_index := multiplex_index s; ms_count0 := ms_count0 s; ms_count1 :=
     ms_count1 s; ms_count2 := ms_count2 s; ms_count3 := ms_count3 s; disp_U1 := disp_U1
     s; disp_U2 := disp_U2 s; disp_LEDS := disp_LEDS s; dp_mask := dp_mask s;
     day_rollover := day_rollover s; mins_rollover := mins_rollover s; MainTime :=
     MainTime s; Alarm1Time := Alarm1Time s; Alarm2Time := Alarm2Time s; MainDate := v;
     Alarm1Date := Alarm1Date s; Alarm2Date := Alarm2Date s; TMR1IE := TMR1IE s; TMR1IF
     := TMR1IF s; LATF := LATF s; LH0 := LH0 s; LH1 := LH1 s; LA4 := LA4 s; now := now s
     |}.

Definition set_Alarm1Date (v : DATE) (s : State) : State :=
  {| disp_index := disp_index s; Alarm1On := Alarm1On s; Alarm2On := Alarm2On s;
     multiplex_index := multiplex_index s; ms_count0 := ms_count0 s; ms_count1 :=
     ms_count1 s; ms_count2 := ms_count2 s; ms_count3 := ms_count3 s; disp_U1 := disp_U1
     s; disp_U2 := disp_U2 s; disp_LEDS := disp_LEDS s; dp_mask := dp_mask s;
     day_rollover := day_rollover s; mins_rollover := mins_rollover s; MainTime :=
     MainTime s; Alarm1Time := Alarm1Time s; Alarm2Time := Alarm2Time s; MainDate :=
     MainDate s; Alarm1Date := v; Alarm2Date := Alarm2Date s; TMR1IE := TMR1IE s; TMR1IF
     := TMR1IF s; LATF := LATF s; LH0 := LH0 s; LH1 := LH1 s; LA4 := LA4 s; now := now s
     |}.

Definition set_Alarm2Date (v : DATE) (s : State) : State :=
  {| disp_index := disp_index s; Alarm1On := Alarm1On s; Alarm2On := Alarm2On s;
     multiplex_index := multiplex_index s; ms_count0 := ms_count0 s; ms_count1 :=
     ms_count1 s; ms_count2 := ms_count2 s; ms_count3 := ms_count3 s; disp_U1 := disp_U1
     s; disp_U2 := disp_U2 s; disp_LEDS := disp_LEDS s; dp_mask := dp_mask s;
     day_rollover := day_rollover s; mins_rollover := mins_rollover s; MainTime :=
     MainTime s; Alarm1Time := Alarm1Time s; Alarm2Time := Alarm2Time s; MainDate :=
     MainDate s; Alarm1Date := Alarm1Date s; Alarm2Date := v; TMR1IE := TMR1IE s; TMR1IF
     := TMR1IF s; LATF := LATF s; LH0 := LH0 s; LH1 := LH1 s; LA4 := LA4 s; now := now s
     |}.

Definition set_TMR1IE (v : bool) (s : State) : State :=
  {| disp_index := disp_index s; Alarm1On := Alarm1On s; Alarm2On := Alarm2On s;
     multiplex_index := multiplex_index s; ms_count0 := ms_count0 s; ms_count1 :=
     ms_count1 s; ms_count2 := ms_count2 s; ms_count3 := ms_count3 s; disp_U1 := disp_U1
     s; disp_U2 := disp_U2 s; disp_LEDS := disp_LEDS s; dp_mask := dp_mask s;
     day_rollover := day_rollover s; mins_rollover := mins_rollover s; MainTime :=
     MainTime s; Alarm1Time := Alarm1Time s; Alarm2Time := Alarm2Time s; MainDate :=
     MainDate s; Alarm1Date := Alarm1Date s; Alarm2Date := Alarm2Date s; TMR1IE := v;
     TMR1IF := TMR1IF s; LATF := LATF s; LH0 := LH0 s; LH1 := LH1 s; LA4 := LA4 s; now
     := now s |}.

Definition set_TMR1IF (v : bool) (s : State) : State :=
  {| disp_index := disp_index s; Alarm1On := Alarm1On s; Alarm2On := Alarm2On s;
     multiplex_index := multiplex_index s; ms_count0 := ms_count0 s; ms_count1 :=
     ms_count1 s; ms_count2 := ms_count2 s; ms_count3 := ms_count3 s; disp_U1 := disp_U1
     s; disp_U2 := disp_U2 s; disp_LEDS := disp_LEDS s; dp_mask := dp_mask s;
     day_rollover := day_rollover s; mins_rollover := mins_rollover s; MainTime :=
     MainTime s; Alarm1Time := Alarm1Time s; Alarm2Time := Alarm2Time s; MainDate :=
     MainDate s; Alarm1Date := Alarm1Date s; Alarm2Date := Alarm2Date s; TMR1IE :=
     TMR1IE s; TMR1IF := v; LATF := LATF s; LH0 := LH0 s; LH1 := LH1 s; LA4 := LA4 s;
     now := now s |}.

Definition set_LATF (v : Z) (s : State) : State :=
  {| disp_index := disp_index s; Alarm1On := Alarm1On s; Alarm2On := Alarm2On s;
     multiplex_index := multiplex_index s; ms_count0 := ms_count0 s; ms_count1 :=
     ms_count1 s; ms_count2 := ms_count2 s; ms_count3 := ms_count3 s; disp_U1 := disp_U1
     s; disp_U2 := disp_U2 s; disp_LEDS := disp_LEDS s; dp_mask := dp_mask s;
     day_rollover := day_rollover s; mins_rollover := mins_rollover s; MainTime :=
     MainTime s; Alarm1Time := Alarm1Time s; Alarm2Time := Alarm2Time s; MainDate :=
     MainDate s; Alarm1Date := Alarm1Date s; Alarm2Date := Alarm2Date s; TMR1IE :=
     TMR1IE s; TMR1IF := TMR1IF s; LATF := v; LH0 := LH0 s; LH1 := LH1 s; LA4 := LA4 s;
     now := now s |}.

Definition set_LH0 (v : bool) (s : State) : State :=
  {| disp_index := disp_index s; Alarm1On := Alarm1On s; Alarm2On := Alarm2On s;
     multiplex_index := multiplex_index s; ms_count0 := ms_count0 s; ms_count1 :=
     ms_count1 s; ms_count2 := ms_count2 s; ms_count3 := ms_count3 s; disp_U1 := disp_U1
     s; disp_U2 := disp_U2 s; disp_LEDS := disp_LEDS s; dp_mask := dp_mask s;
     day_rollover := day_rollover s; mins_rollover := mins_rollover s; MainTime :=
     MainTime s; Alarm1Time := Alarm1Time s; Alarm2Time := Alarm2Time s; MainDate :=
     MainDate s; Alarm1Date := Alarm1Date s; Alarm2Date := Alarm2Date s; TMR1IE :=
     TMR1IE s; TMR1IF := TMR1IF s; LATF := LATF s; LH0 := v; LH1 := LH1 s; LA4 := LA4 s;
     now := now s |}.

Definition set_LH1 (v : bool) (s : State) : State :=
  {| disp_index := disp_index s; Alarm1On := Alarm1On s; Alarm2On := Alarm2On s;
     multiplex_index := multiplex_index s; ms_count0 := ms_count0 s; ms_count1 :=
     ms_count1 s; ms_count2 := ms_count2 s; ms_count3 := ms_count3 s; disp_U1 := disp_U1
     s; disp_U2 := disp_U2 s; disp_LEDS := disp_LEDS s; dp_mask := dp_mask s;
     day_rollover := day_rollover s; mins_rollover := mins_rollover s; MainTime :=
     MainTime s; Alarm1Time := Alarm1Time s; Alarm2Time := Alarm2Time s; MainDate :=
     MainDate s; Alarm1Date := Alarm1Date s; Alarm2Date := Alarm2Date s; TMR1IE :=
     TMR1IE s; TMR1IF := TMR1IF s; LATF := LATF s; LH0 := LH0 s; LH1 := v; LA4 := LA4 s;
     now := now s |}.

Definition set_LA4 (v : bool) (s : State) : State :=
  {| disp_index := disp_index s; Alarm1On := Alarm1On s; Alarm2On := Alarm2On s;
     multiplex_index := multiplex_index s; ms_count0 := ms_count0 s; ms_count1 :=
     ms_count1 s; ms_count2 := ms_count2 s; ms_count3 := ms_count3 s; disp_U1 := disp_U1
     s; disp_U2 := disp_U2 s; disp_LEDS := disp_LEDS s; dp_mask := dp_mask s;
     day_rollover := day_rollover s; mins_rollover := mins_rollover s; MainTime :=
     MainTime s; Alarm1Time := Alarm1Time s; Alarm2Time := Alarm2Time s; MainDate :=
     MainDate s; Alarm1Date := Alarm1Date s; Alarm2Date := Alarm2Date s; TMR1IE :=
     TMR1IE s; TMR1IF := TMR1IF s; LATF := LATF s; LH0 := LH0 s; LH1 := LH1 s; LA4 := v;
     now := now s |}.

Definition set_now (v : nat) (s : State) : State :=
  {| disp_index := disp_index s; Alarm1On := Alarm1On s; Alarm2On := Alarm2On s;
     multiplex_index := multiplex_index s; ms_count0 := ms_count0 s; ms_count1 :=
     ms_count1 s; ms_count2 := ms_count2 s; ms_count3 := ms_count3 s; disp_U1 := disp_U1
     s; disp_U2 := disp_U2 s; disp_LEDS := disp_LEDS s; dp_mask := dp_mask s;
     day_rollover := day_rollover s; mins_rollover := mins_rollover s; MainTime :=
     MainTime s; Alarm1Time := Alarm1Time s; Alarm2Time := Alarm2Time s; MainDate :=
     MainDate s; Alarm1Date := Alarm1Date s; Alarm2Date := Alarm2Date s; TMR1IE :=
     TMR1IE s; TMR1IF := TMR1IF s; LATF := LATF s; LH0 := LH0 s; LH1 := LH1 s; LA4 :=
     LA4 s; now := v |}.

(** Pointers to the [TIME] and [DATE] globals, as passed to the editors and
    to [CompareTimes]. *)
Inductive TimeRef : Type := ref_MainTime | ref_Alarm1Time | ref_Alarm2Time.
Inductive DateRef : Type := ref_MainDate | ref_Alarm1Date | ref_Alarm2Date.

Definition load_time (p : TimeRef) (s : State) : TIME :=
  match p with
  | ref_MainTime => MainTime s
  | ref_Alarm1Time => Alarm1Time s
  | ref_Alarm2Time => Alarm2Time s
  end.

Definition store_time (p : TimeRef) (t : TIME) (s : State) : State :=
  match p with
  | ref_MainTime => set_MainTime t s
  | ref_Alarm1Time => set_Alarm1Time t s
  | ref_Alarm2Time => set_Alarm2Time t s
  end.

Definition load_date (p : DateRef) (s : State) : DATE :=
  match p with
  | ref_MainDate => MainDate s
  | ref_Alarm1Date => Alarm1Date s
  | ref_Alarm2Date => Alarm2Date s
  end.

Definition store_date (p : DateRef) (d : DATE) (s : State) : State :=
  match p with
  | ref_MainDate => set_MainDate d s
  | ref_Alarm1Date => set_Alarm1Date d s
  | ref_Alarm2Date => set_Alarm2Date d s
  end.

(** ** The monad of the program *)

Inductive result (A : Type) : Type :=
| Ok (a : A)
| OutOfBounds
| OutOfFuel.
Arguments Ok {A} a.
Arguments OutOfBounds {A}.
Arguments OutOfFuel {A}.

Definition M (A : Type) : Type := State -> result (A * State).

Definition ret {A} (a : A) : M A := fun s => Ok (a, s).

Definition bind {A B} (m : M A) (k : A -> M B) : M B :=
  fun s =>
    match m s with
    | Ok (a, s') => k a s'
    | OutOfBounds => OutOfBounds
    | OutOfFuel => OutOfFuel
    end.

Notation "x <- m ;; k" := (bind m (fun x => k))
  (at level 61, m at next level, right associativity).
Notation "m ;; k" := (bind m (fun _ => k))
  (at level 61, right associativity).

Definition modify (f : State -> State) : M unit := fun s => Ok (tt, f s).
Definition rd {A} (f : State -> A) : M A := fun s => Ok (f s, s).
Definition when (c : bool) (m : M unit) : M unit := if c then m else ret tt.

(** [tbl[i]]: reading past the end of an array is undefined in C. *)
Definition index (tbl : list Z) (i : Z) : M Z :=
  fun s =>
    if (0 <=? i) && (i <? Z.of_nat (length tbl))
    then Ok (nth (Z.to_nat i) tbl 0, s)
    else OutOfBounds.

(** [a && b] with a call on the left: [b] is evaluated only when [a]
    returned non-zero. *)
Definition and_then (a : M Z) (b : M bool) : M bool :=
  x <- a ;; if truthy x then b else ret false.

(** ** Seconds clock *)

Definition Timer1_isr (s : State) : State :=
  let s1 :=
    if secs (MainTime s) <? 59
    then set_MainTime (set_secs (wrap8 (secs (MainTime s) + 1)) (MainTime s)) s
    else
      let s0 := set_MainTime (set_secs 0 (MainTime s)) s in
      set_mins_rollover (wrap8 (mins_rollover s0 + 1)) s0 in
  set_dp_mask (Z.lxor (dp_mask s1) (Z.shiftl 1 2)) s1.

Definition hp_secs_count_isr (s : State) : State :=
  if TMR1IF s then Timer1_isr (set_TMR1IF false s) else s.

(** ** Tick scheduler *)

Definition Timer0_isr (s : State) : State :=
  let s1 :=
    if multiplex_index s =? 1 then
      set_LATF (disp_LEDS s) (set_LA4 true (set_LH1 true (set_LH0 true s)))
    else if multiplex_index s =? 2 then
      set_LATF (Z.land (disp_U1 s) (dp_mask s))
        (set_LA4 false (set_LH1 true (set_LH0 false s)))
    else if multiplex_index s =? 3 then
      set_multiplex_index 0
        (set_LATF (disp_U2 s) (set_LA4 false (set_LH1 false (set_LH0 true s))))
    else set_multiplex_index 0 s in
  let s2 := set_multiplex_index (wrap8 (multiplex_index s1 + 1)) s1 in
  let s3 := set_ms_count0 (wrap16 (ms_count0 s2 + 1)) s2 in
  let s4 := set_ms_count1 (wrap16 (ms_count1 s3 + 1)) s3 in
  let s5 := set_ms_count2 (wrap16 (ms_count2 s4 + 1)) s4 in
  set_ms_count3 (wrap16 (ms_count3 s5 + 1)) s5.

(** ** Calendar engine *)

Definition CalcTime (s : State) : State :=
  let mins_temp := wrap8 (mins (MainTime s) + mins_rollover s) in
  let s1 :=
    if mins_temp <? 59 then set_MainTime (set_mins mins_temp (MainTime s)) s
    else
      let s0 := set_MainTime (set_mins (wrap8 (mins_temp - 60)) (MainTime s)) s in
      if hrs (MainTime s0) <? 23
      then set_MainTime (set_hrs (wrap8 (hrs (MainTime s0) + 1)) (MainTime s0)) s0
      else set_day_rollover 1 (set_MainTime (set_hrs 0 (MainTime s0)) s0) in
  set_mins_rollover 0 s1.

Definition CalcLeapYear (year : Z) : Z :=
  if year mod 4 =? 0 then
    if year mod 100 =? 0 then
      if year mod 400 =? 0 then 1 else 0
    else 1
  else 0.

(** [MainDate.year_long++; MainDate.year_short++;] *)
Definition next_year (d : DATE) : DATE :=
  let d1 := set_year_long (wrap16 (year_long d + 1)) d in
  set_year_short (wrap8 (year_short d1 + 1)) d1.

Definition CalcDate : M unit :=
  modify (set_day_rollover 0) ;;
  d <- rd MainDate ;;
  if CalcLeapYear (year_long d) =? 0 then
    dim <- index DaysInMonth (month d) ;;
    if day d <? dim then
      modify (set_MainDate (set_day (wrap8 (day d + 1)) d))
    else
      let d1 := set_day 1 d in
      if month d1 <? 12 then
        modify (set_MainDate (set_month (wrap8 (month d1 + 1)) d1))
      else
        let d2 := set_month 1 d1 in
        if year_long d2 <? 99 then
          modify (set_MainDate (next_year d2))
        else
          modify (set_MainDate (set_year_short 0 (set_year_long 2000 d2)))
  else
    dim <- index DaysInMonthLeap (month d) ;;
    if day d <? dim then
      modify (set_MainDate (set_day (wrap8 (day d + 1)) d))
    else
      let d1 := set_day 1 d in
      if month d1 <? 12 then
        modify (set_MainDate (set_month (wrap8 (month d1 + 1)) d1))
      else
        modify (set_MainDate (next_year (set_month 1 d1))).

(** The head of the main loop: the two rollover signals are consumed,
    minutes first. *)
Definition drain_rollovers : M unit :=
  r <- rd mins_rollover ;;
  when (1 <=? r) (modify CalcTime) ;;
  dr <- rd day_rollover ;;
  when (dr =? 1) CalcDate.

(** ** Display multiplexer

    [Num2Disp] and [CurrentDisplay] only read through the pointer they are
    given; the model passes the value read. *)

Definition Num2Disp (time : Z) : M unit :=
  if 99 <? time then
    modify (set_disp_U1 DispChars.r) ;;
    modify (set_disp_U2 DispChars.E) ;;
    modify (set_disp_LEDS 0x01)
  else
    let tens := time / 10 in
    let units := time mod 10 in
    g2 <- index DispNums tens ;;
    modify (set_disp_U2 g2) ;;
    g1 <- index DispNums units ;;
    modify (set_disp_U1 g1).

Definition CurrentDisplay (i : Z) : M unit :=
  if i =? 0 then
    v <- rd (fun s => day (MainDate s)) ;; Num2Disp v ;; modify (set_disp_LEDS DAY)
  else if i =? 1 then
    v <- rd (fun s => month (MainDate s)) ;; Num2Disp v ;; modify (set_disp_LEDS MONTH)
  else if i =? 2 then
    v <- rd (fun s => year_short (MainDate s)) ;; Num2Disp v ;;
    modify (set_disp_LEDS YEAR)
  else if i =? 3 then
    v <- rd (fun s => hrs (MainTime s)) ;; Num2Disp v ;; modify (set_disp_LEDS HRS)
  else if i =? 4 then
    v <- rd (fun s => mins (MainTime s)) ;; Num2Disp v ;; modify (set_disp_LEDS MINS)
  else if i =? 5 then
    v <- rd (fun s => secs (MainTime s)) ;; Num2Disp v ;; modify (set_disp_LEDS SECS)
  else
    modify (set_disp_U2 DispChars.E) ;;
    modify (set_disp_U1 DispChars.r) ;;
    modify (set_disp_LEDS 0x03).

(** ** Alarm comparison

    [CompareTimes] only reads the structures it is pointed to; the model
    passes them by value. *)

Definition CompareTimes (mainTime : TIME) (mainDate : DATE)
    (alarmTime : TIME) (alarmDate : DATE) (args : Z) : Z :=
  if args =? 1 then
    if (hrs mainTime =? hrs alarmTime) && (mins mainTime =? mins alarmTime)
       && (secs mainTime =? secs alarmTime)
    then 1 else 0
  else if args =? 2 then
    if (hrs mainTime =? hrs alarmTime) && (mins mainTime =? mins alarmTime)
       && (secs mainTime =? secs alarmTime) && (day mainDate =? day alarmDate)
       && (month mainDate =? month alarmDate)
       && (year_short mainDate =? year_short alarmDate)
    then 1 else 0
  else 0.

(** The two guards of the alarm poll in [main]:
    [(CompareTimes(...) && AlarmNOn) == 1] decides whether [SoundAlarmN] is
    called. *)
Definition c_and (a b : Z) : Z := if truthy a && truthy b then 1 else 0.

Definition Alarm1_fires (s : State) : bool :=
  c_and (CompareTimes (MainTime s) (MainDate s) (Alarm1Time s) (Alarm1Date s) 1)
        (Alarm1On s) =? 1.

Definition Alarm2_fires (s : State) : bool :=
  c_and (CompareTimes (MainTime s) (MainDate s) (Alarm2Time s) (Alarm2Date s) 2)
        (Alarm2On s) =? 1.

(** ** Inputs

    One sample of the input pins per millisecond period: the two push
    buttons (active low; [PB1pressed] also reads RJ0), the two ports behind
    the switch bank, and whether Timer1 overflows in that period. *)
Record Pins : Type := mkPins
  { RJ5 : bool; RJ0 : bool; RB0 : bool; PORTC : Z; PORTH : Z;
    TMR1_overflow : bool }.

(** Timer0 counts instruction cycles from [TIMER0_VALUE] up to its 16-bit
    overflow. *)
Definition TCY_PER_TICK : Z := 65536 - TIMER0_VALUE.

Section Firmware.

(** The input trace, and the budget of the busy-wait loop. *)
Variable env : nat -> Pins.
Variable fuel : nat.

(** One millisecond period.  A Timer1 overflow raises TMR1IF; the high
    priority vector runs while TMR1IE and TMR1IF are both set; Timer0
    overflows and [lp_isr] calls [Timer0_isr]. *)
Definition tick (s : State) : State :=
  let s1 := if TMR1_overflow (env (now s)) then set_TMR1IF true s else s in
  let s2 := if TMR1IE s1 && TMR1IF s1 then hp_secs_count_isr s1 else s1 in
  set_now (S (now s)) (Timer0_isr s2).

(** The library delay of [n] times 10,000 instruction cycles; the
    millisecond interrupt keeps firing while it spins. *)
Definition Delay10KTCYx (n : Z) : M unit :=
  modify (Nat.iter (Z.to_nat (n * 10000 / TCY_PER_TICK)) tick).

Definition pin (f : Pins -> bool) : M bool :=
  fun s => Ok (f (env (now s)), s).

Definition Switches : M Z :=
  fun s =>
    let temp1 := PORTC (env (now s)) in
    let temp1 := Z.shiftr temp1 2 in
    let temp1 := Z.land temp1 0x0F in
    let temp2 := PORTH (env (now s)) in
    let temp2 := Z.land temp2 0xF0 in
    Ok (Z.lor temp1 temp2, s).

(** ** Debounce primitive *)

(** [while (ms_count1 < DEBOUNCE_DELAY) { }]: only the millisecond interrupt
    makes progress. *)
Fixpoint wait_debounce (n : nat) (s : State) : result (unit * State) :=
  if ms_count1 s <? DEBOUNCE_DELAY then
    match n with
    | O => OutOfFuel
    | S n' => wait_debounce n' (tick s)
    end
  else Ok (tt, s).

Definition PB1pressed : M Z :=
  j5 <- pin RJ5 ;;
  if negb j5 then
    modify (set_ms_count1 0) ;;
    wait_debounce fuel ;;
    j0 <- pin RJ0 ;;
    if negb j0 then ret 1 else ret 0
  else ret 0.

Definition PB2pressed : M Z :=
  b0 <- pin RB0 ;;
  if negb b0 then
    modify (set_ms_count1 0) ;;
    wait_debounce fuel ;;
    b0' <- pin RB0 ;;
    if negb b0' then ret 1 else ret 0
  else ret 0.

(** ** Field editors *)

Definition upd_time (p : TimeRef) (f : TIME -> TIME) : M unit :=
  modify (fun s => store_time p (f (load_time p s)) s).

Definition upd_date (p : DateRef) (f : DATE -> DATE) : M unit :=
  modify (fun s => store_date p (f (load_date p s)) s).

Definition SetSecs (ts : TimeRef) : M unit :=
  c <- and_then PB2pressed (rd (fun s => secs (load_time ts s) <? 59)) ;;
  when c (upd_time ts (fun t => set_secs (wrap8 (secs t + 1)) t) ;;
          Delay10KTCYx KEY_REPEAT_DELAY) ;;
  c <- and_then PB2pressed (rd (fun s => secs (load_time ts s) =? 59)) ;;
  when c (upd_time ts (set_secs 0) ;; Delay10KTCYx KEY_REPEAT_DELAY) ;;
  c <- and_then PB1pressed (rd (fun s => 0 <? secs (load_time ts s))) ;;
  when c (upd_time ts (fun t => set_secs (wrap8 (secs t - 1)) t) ;;
          Delay10KTCYx KEY_REPEAT_DELAY) ;;
  c <- and_then PB1pressed (rd (fun s => secs (load_time ts s) =? 0)) ;;
  when c (upd_time ts (set_secs 59) ;; Delay10KTCYx KEY_REPEAT_DELAY).

Definition SetMins (tm : TimeRef) : M unit :=
  c <- and_then PB2pressed (rd (fun s => mins (load_time tm s) <? 59)) ;;
  when c (upd_time tm (fun t => set_mins (wrap8 (mins t + 1)) t) ;;
          Delay10KTCYx KEY_REPEAT_DELAY) ;;
  c <- and_then PB2pressed (rd (fun s => mins (load_time tm s) =? 59)) ;;
  when c (upd_time tm (set_mins 0) ;; Delay10KTCYx KEY_REPEAT_DELAY) ;;
  c <- and_then PB1pressed (rd (fun s => 0 <? mins (load_time tm s))) ;;
  when c (upd_time tm (fun t => set_mins (wrap8 (mins t - 1)) t) ;;
          Delay10KTCYx KEY_REPEAT_DELAY) ;;
  c <- and_then PB1pressed (rd (fun s => mins (load_time tm s) =? 0)) ;;
  when c (upd_time tm (set_mins 59) ;; Delay10KTCYx KEY_REPEAT_DELAY).

Definition SetHrs (th : TimeRef) : M unit :=
  c <- and_then PB2pressed (rd (fun s => hrs (load_time th s) <? 23)) ;;
  when c (upd_time th (fun t => set_hrs (wrap8 (hrs t + 1)) t) ;;
          Delay10KTCYx KEY_REPEAT_DELAY) ;;
  c <- and_then PB2pressed (rd (fun s => hrs (load_time th s) =? 23)) ;;
  when c (upd_time th (set_hrs 0) ;; Delay10KTCYx KEY_REPEAT_DELAY) ;;
  c <- and_then PB1pressed (rd (fun s => 0 <? hrs (load_time th s))) ;;
  when c (upd_time th (fun t => set_hrs (wrap8 (hrs t - 1)) t) ;;
          Delay10KTCYx KEY_REPEAT_DELAY) ;;
  c <- and_then PB1pressed (rd (fun s => hrs (load_time th s) =? 0)) ;;
  when c (upd_time th (set_hrs 23) ;; Delay10KTCYx KEY_REPEAT_DELAY).

(** [dd->day < tbl[dd->month]] and [dd->day == tbl[dd->month]] *)
Definition day_below (dd : DateRef) (tbl : list Z) : M bool :=
  d <- rd (load_date dd) ;; n <- index tbl (month d) ;; ret (day d <? n).

Definition day_equals (dd : DateRef) (tbl : list Z) : M bool :=
  d <- rd (load_date dd) ;; n <- index tbl (month d) ;; ret (day d =? n).

(** [dd->day = DaysInMonth[MainDate.month]] *)
Definition day_wrap_back (dd : DateRef) : M unit :=
  m <- rd (fun s => month (MainDate s)) ;;
  n <- index DaysInMonth m ;;
  upd_date dd (set_day n).

Definition SetDay (dd : DateRef) : M unit :=
  y <- rd (fun s => year_long (load_date dd s)) ;;
  if CalcLeapYear y =? 1 then
    c <- and_then PB2pressed (day_below dd DaysInMonthLeap) ;;
    when c (upd_date dd (fun d => set_day (wrap8 (day d + 1)) d) ;;
            Delay10KTCYx KEY_REPEAT_DELAY) ;;
    c <- and_then PB2pressed (day_equals dd DaysInMonthLeap) ;;
    when c (upd_date dd (set_day 1) ;; Delay10KTCYx KEY_REPEAT_DELAY) ;;
    c <- and_then PB1pressed (rd (fun s => 1 <? day (load_date dd s))) ;;
    when c (upd_date dd (fun d => set_day (wrap8 (day d - 1)) d) ;;
            Delay10KTCYx KEY_REPEAT_DELAY) ;;
    c <- and_then PB1pressed (rd (fun s => day (load_date dd s) =? 1)) ;;
    when c (day_wrap_back dd ;; Delay10KTCYx KEY_REPEAT_DELAY)
  else
    c <- and_then PB2pressed (day_below dd DaysInMonthLeap) ;;
    when c (upd_date dd (fun d => set_day (wrap8 (day d + 1)) d) ;;
            Delay10KTCYx KEY_REPEAT_DELAY) ;;
    c <- and_then PB2pressed (day_equals dd DaysInMonth) ;;
    when c (upd_date dd (set_day 1) ;; Delay10KTCYx KEY_REPEAT_DELAY) ;;
    c <- and_then PB1pressed (rd (fun s => 1 <? day (load_date dd s))) ;;
    when c (upd_date dd (fun d => set_day (wrap8 (day d - 1)) d) ;;
            Delay10KTCYx KEY_REPEAT_DELAY) ;;
    c <- and_then PB1pressed (rd (fun s => day (load_date dd s) =? 1)) ;;
    when c (day_wrap_back dd ;; Delay10KTCYx KEY_REPEAT_DELAY).

Definition SetMonth (dm : DateRef) : M unit :=
  c <- and_then PB2pressed (rd (fun s => month (load_date dm s) <? 12)) ;;
  when c (upd_date dm (fun d => set_month (wrap8 (month d + 1)) d) ;;
          Delay10KTCYx KEY_REPEAT_DELAY) ;;
  c <- and_then PB2pressed (rd (fun s => month (load_date dm s) =? 12)) ;;
  when c (upd_date dm (set_month 1) ;; Delay10KTCYx KEY_REPEAT_DELAY) ;;
  c <- and_then PB1pressed (rd (fun s => 1 <? month (load_date dm s))) ;;
  when c (upd_date dm (fun d => set_month (wrap8 (month d - 1)) d) ;;
          Delay10KTCYx KEY_REPEAT_DELAY) ;;
  c <- and_then PB1pressed (rd (fun s => month (load_date dm s) =? 1)) ;;
  when c (upd_date dm (set_month 12) ;; Delay10KTCYx KEY_REPEAT_DELAY).

(** [dy->year_long--; dy->year_short--;] *)
Definition prev_year (d : DATE) : DATE :=
  let d1 := set_year_long (wrap16 (year_long d - 1)) d in
  set_year_short (wrap8 (year_short d1 - 1)) d1.

Definition SetYear (dy : DateRef) : M unit :=
  c <- and_then PB2pressed (rd (fun s => year_long (load_date dy s) <? 2099)) ;;
  when c (upd_date dy next_year ;; Delay10KTCYx KEY_REPEAT_DELAY) ;;
  c <- and_then PB2pressed (rd (fun s => year_long (load_date dy s) =? 2099)) ;;
  when c (upd_date dy (fun d => set_year_short 0 (set_year_long 2000 d)) ;;
          Delay10KTCYx KEY_REPEAT_DELAY) ;;
  c <- and_then PB1pressed (rd (fun s => 2000 <? year_long (load_date dy s))) ;;
  when c (upd_date dy prev_year ;; Delay10KTCYx KEY_REPEAT_DELAY) ;;
  c <- and_then PB1pressed (rd (fun s => year_long (load_date dy s) =? 2000)) ;;
  when c (upd_date dy (fun d => set_year_short 99 (set_year_long 2099 d)) ;;
          Delay10KTCYx KEY_REPEAT_DELAY).

(** ** Mode mnemonics *)

(** The part the eight flash routines share: the mnemonic is shown twice,
    each time followed by a blank display. *)
Definition blink (u2 u1 : Z) : M unit :=
  modify (set_disp_U2 u2) ;; modify (set_disp_U1 u1) ;;
  Delay10KTCYx SET_MENU_FLASH ;;
  modify (set_disp_U2 0xFF) ;; modify (set_disp_U1 0xFF) ;;
  Delay10KTCYx SET_MENU_FLASH ;;
  modify (set_disp_U2 u2) ;; modify (set_disp_U1 u1) ;;
  Delay10KTCYx SET_MENU_FLASH ;;
  modify (set_disp_U2 0xFF) ;; modify (set_disp_U1 0xFF) ;;
  Delay10KTCYx SET_MENU_FLASH.

Definition leds_and (m : Z) : M unit :=
  modify (fun s => set_disp_LEDS (Z.land (disp_LEDS s) m) s).
Definition leds_or (m : Z) : M unit :=
  modify (fun s => set_disp_LEDS (Z.lor (disp_LEDS s) m) s).
Definition dp_on : M unit :=
  modify (fun s => set_dp_mask (Z.lor (dp_mask s) (Z.shiftl 1 2)) s).

Definition SecsFlash : M unit :=
  leds_and 0xC0 ;; leds_or SECS ;; dp_on ;; blink DispChars.S DispChars.S.
Definition MinsFlash : M unit :=
  leds_and 0xC0 ;; leds_or MINS ;; dp_on ;; blink DispChars.M DispChars.i.
Definition HrsFlash : M unit :=
  leds_and 0xC0 ;; leds_or HRS ;; dp_on ;; blink DispChars.h DispChars.h.
Definition DayFlash : M unit :=
  leds_and 0xC0 ;; leds_or DAY ;; dp_on ;; blink DispChars.d DispChars.d.
Definition MonthFlash : M unit :=
  leds_and 0xC0 ;; leds_and MONTH ;; dp_on ;; blink DispChars.M DispChars.o.
Definition YearFlash : M unit :=
  leds_and 0xC0 ;; leds_or YEAR ;; dp_on ;; blink DispChars.y DispChars.y.
Definition Alarm1Flash : M unit :=
  leds_and 0xC0 ;; leds_or ALARM1 ;; dp_on ;;
  n1 <- index DispNums 1 ;; blink DispChars.A n1.
Definition Alarm2Flash : M unit :=
  leds_and 0xC0 ;; leds_or ALARM2 ;; dp_on ;;
  n2 <- index DispNums 2 ;; blink DispChars.A n2.

(** ** Settings state machine

    [SetMenu], [SetAlarm1] and [SetAlarm2] are nests of [while] loops whose
    conditions re-sample the switch bank.  A location names the loop whose
    head the program is at; [step] runs the program from one loop head to
    the next. *)

Inductive TimeField : Type := f_secs | f_mins | f_hrs.
Inductive DateField : Type := f_day | f_month | f_year.

Inductive Loc : Type :=
| AtMain                        (* SetMenu has returned to main *)
| AtSetMenu                     (* while (Switches() != 0x00) *)
| AtSetTime (f : TimeField)     (* while (Switches() == SECS / MINS / HRS) *)
| AtSetDate (f : DateField)     (* while (Switches() == DAY / MONTH / YEAR) *)
| AtAlarm1                      (* while ((Switches() >> 7) == 1) *)
| AtAlarm1Time (f : TimeField)  (* while (Switches() == 0x81 / 0x82 / 0x84) *)
| AtAlarm1OnOff                 (* while (Switches() == 0x80) *)
| AtAlarm2                      (* while ((Switches() >> 6) == 1) *)
| AtAlarm2Time (f : TimeField)  (* while (Switches() == 0x41 / 0x42 / 0x44) *)
| AtAlarm2Date (f : DateField)  (* while (Switches() == 0x60 / 0x50 / 0x48) *)
| AtAlarm2OnOff.                (* while (Switches() == 0x40) *)

Definition SetTime (f : TimeField) (p : TimeRef) : M unit :=
  match f with
  | f_secs => SetSecs p
  | f_mins => SetMins p
  | f_hrs => SetHrs p
  end.

Definition SetDate (f : DateField) (p : DateRef) : M unit :=
  match f with
  | f_day => SetDay p
  | f_month => SetMonth p
  | f_year => SetYear p
  end.

(** [Num2Disp(&p->field)] *)
Definition ShowTime (f : TimeField) (p : TimeRef) : M unit :=
  v <- rd (fun s => match f with
                    | f_secs => secs (load_time p s)
                    | f_mins => mins (load_time p s)
                    | f_hrs => hrs (load_time p s)
                    end) ;;
  Num2Disp v.

Definition ShowDate (f : DateField) (p : DateRef) : M unit :=
  v <- rd (fun s => match f with
                    | f_day => day (load_date p s)
                    | f_month => month (load_date p s)
                    | f_year => year_short (load_date p s)
                    end) ;;
  Num2Disp v.

Definition menu_time_code (f : TimeField) : Z :=
  match f with f_secs => SECS | f_mins => MINS | f_hrs => HRS end.
Definition menu_date_code (f : DateField) : Z :=
  match f with f_day => DAY | f_month => MONTH | f_year => YEAR end.
Definition alarm1_time_code (f : TimeField) : Z :=
  match f with f_secs => 0x81 | f_mins => 0x82 | f_hrs => 0x84 end.
Definition alarm2_time_code (f : TimeField) : Z :=
  match f with f_secs => 0x41 | f_mins => 0x42 | f_hrs => 0x44 end.
Definition alarm2_date_code (f : DateField) : Z :=
  match f with f_day => 0x60 | f_month => 0x50 | f_year => 0x48 end.

Definition show_Er (code : Z) : M unit :=
  modify (set_disp_U2 DispChars.E) ;;
  modify (set_disp_U1 DispChars.r) ;;
  modify (set_disp_LEDS code).

(** The [switch] of [SetMenu], up to the head of the loop it enters. *)
Definition SetMenu_dispatch : M Loc :=
  sw <- Switches ;;
  if sw =? SECS then
    modify (set_TMR1IE false) ;; SecsFlash ;; ShowTime f_secs ref_MainTime ;;
    ret (AtSetTime f_secs)
  else if sw =? MINS then
    modify (set_TMR1IE false) ;; MinsFlash ;; ShowTime f_mins ref_MainTime ;;
    ret (AtSetTime f_mins)
  else if sw =? HRS then
    modify (set_TMR1IE false) ;; HrsFlash ;; ShowTime f_hrs ref_MainTime ;;
    ret (AtSetTime f_hrs)
  else if sw =? DAY then
    modify (set_TMR1IE false) ;; DayFlash ;; ShowDate f_day ref_MainDate ;;
    ret (AtSetDate f_day)
  else if sw =? MONTH then
    modify (set_TMR1IE false) ;; MonthFlash ;; ShowDate f_month ref_MainDate ;;
    ret (AtSetDate f_month)
  else if sw =? YEAR then
    modify (set_TMR1IE false) ;; YearFlash ;; ShowDate f_year ref_MainDate ;;
    ret (AtSetDate f_year)
  else if sw =? ALARM1 then
    Alarm1Flash ;; ret AtAlarm1
  else if sw =? ALARM2 then
    Alarm2Flash ;; ret AtAlarm2
  else
    show_Er 0x02 ;; ret AtSetMenu.

(** The [switch] of [SetAlarm1] and of [SetAlarm2]. *)
Definition SetAlarm1_dispatch : M Loc :=
  sw <- Switches ;;
  if sw =? 0x81 then SecsFlash ;; ret (AtAlarm1Time f_secs)
  else if sw =? 0x82 then MinsFlash ;; ret (AtAlarm1Time f_mins)
  else if sw =? 0x84 then HrsFlash ;; ret (AtAlarm1Time f_hrs)
  else if sw =? 0x80 then modify (set_disp_LEDS 0x80) ;; ret AtAlarm1OnOff
  else show_Er 0x04 ;; ret AtAlarm1.

Definition SetAlarm2_dispatch : M Loc :=
  sw <- Switches ;;
  if sw =? 0x41 then SecsFlash ;; ret (AtAlarm2Time f_secs)
  else if sw =? 0x42 then MinsFlash ;; ret (AtAlarm2Time f_mins)
  else if sw =? 0x44 then HrsFlash ;; ret (AtAlarm2Time f_hrs)
  else if sw =? 0x48 then YearFlash ;; ret (AtAlarm2Date f_year)
  else if sw =? 0x50 then MonthFlash ;; ret (AtAlarm2Date f_month)
  else if sw =? 0x60 then DayFlash ;; ret (AtAlarm2Date f_day)
  else if sw =? 0x40 then modify (set_disp_LEDS 0x40) ;; ret AtAlarm2OnOff
  else show_Er 0x04 ;; ret AtAlarm2.

(** The bodies of the two on/off loops. *)
Definition Alarm1_toggle : M unit :=
  modify (set_disp_U2 DispChars.A) ;;
  n1 <- index DispNums 1 ;; modify (set_disp_U1 n1) ;;
  Delay10KTCYx ALARM_TOGGLE ;;
  p2 <- PB2pressed ;; when (p2 =? 1) (modify (set_Alarm1On 1)) ;;
  p1 <- PB1pressed ;; when (p1 =? 1) (modify (set_Alarm1On 0)) ;;
  on <- rd Alarm1On ;;
  (if on =? 1
   then modify (set_disp_U2 DispChars.o) ;; modify (set_disp_U1 DispChars.n)
   else modify (set_disp_U2 DispChars.o) ;; modify (set_disp_U1 DispChars.F)) ;;
  Delay10KTCYx ALARM_TOGGLE.

Definition Alarm2_toggle : M unit :=
  modify (set_disp_U2 DispChars.A) ;;
  n2 <- index DispNums 2 ;; modify (set_disp_U1 n2) ;;
  Delay10KTCYx ALARM_TOGGLE ;;
  p2 <- PB2pressed ;; when (p2 =? 1) (modify (set_Alarm2On 1)) ;;
  p1 <- PB1pressed ;; when (p1 =? 1) (modify (set_Alarm2On 0)) ;;
  on <- rd Alarm2On ;;
  (if on =? 1
   then modify (set_disp_U2 DispChars.o) ;; modify (set_disp_U1 DispChars.n)
   else modify (set_disp_U2 DispChars.o) ;; modify (set_disp_U1 DispChars.F)) ;;
  Delay10KTCYx ALARM_TOGGLE.

Definition step (l : Loc) : M Loc :=
  match l with
  | AtMain => ret AtMain
  | AtSetMenu =>
      sw <- Switches ;;
      if negb (sw =? 0x00) then SetMenu_dispatch else ret AtMain
  | AtSetTime f =>
      sw <- Switches ;;
      if sw =? menu_time_code f then
        SetTime f ref_MainTime ;; ShowTime f ref_MainTime ;; ret (AtSetTime f)
      else
        modify (set_TMR1IE true) ;; ret AtSetMenu
  | AtSetDate f =>
      sw <- Switches ;;
      if sw =? menu_date_code f then
        SetDate f ref_MainDate ;; ShowDate f ref_MainDate ;; ret (AtSetDate f)
      else
        modify (set_TMR1IE true) ;; ret AtSetMenu
  | AtAlarm1 =>
      sw <- Switches ;;
      if Z.shiftr sw 7 =? 1 then SetAlarm1_dispatch else ret AtSetMenu
  | AtAlarm1Time f =>
      sw <- Switches ;;
      if sw =? alarm1_time_code f then
        SetTime f ref_Alarm1Time ;; ShowTime f ref_Alarm1Time ;;
        ret (AtAlarm1Time f)
      else ret AtAlarm1
  | AtAlarm1OnOff =>
      sw <- Switches ;;
      if sw =? 0x80 then Alarm1_toggle ;; ret AtAlarm1OnOff else ret AtAlarm1
  | AtAlarm2 =>
      sw <- Switches ;;
      if Z.shiftr sw 6 =? 1 then SetAlarm2_dispatch else ret AtSetMenu
  | AtAlarm2Time f =>
      sw <- Switches ;;
      if sw =? alarm2_time_code f then
        SetTime f ref_Alarm2Time ;; ShowTime f ref_Alarm2Time ;;
        ret (AtAlarm2Time f)
      else ret AtAlarm2
  | AtAlarm2Date f =>
      sw <- Switches ;;
      if sw =? alarm2_date_code f then
        SetDate f ref_Alarm2Date ;; ShowDate f ref_Alarm2Date ;;
        ret (AtAlarm2Date f)
      else ret AtAlarm2
  | AtAlarm2OnOff =>
      sw <- Switches ;;
      if sw =? 0x40 then Alarm2_toggle ;; ret AtAlarm2OnOff else ret AtAlarm2
  end.

(** A run of the machine: at a loop head either a millisecond period
    elapses or the program moves on to the next loop head. *)
Inductive event : Type := Elapse | Advance.

Fixpoint run (es : list event) (l : Loc) (s : State) : result (Loc * State) :=
  match es with
  | [] => Ok (l, s)
  | Elapse :: es' => run es' l (tick s)
  | Advance :: es' =>
      match step l s with
      | Ok (l', s') => run es' l' s'
      | OutOfBounds => OutOfBounds
      | OutOfFuel => OutOfFuel
      end
  end.

(** ** States the proofs name *)

(** The state after the debounce wait: the counter is cleared and
    [DEBOUNCE_DELAY] periods go by. *)
Definition debounced (s : State) : State :=
  Nat.iter (Z.to_nat DEBOUNCE_DELAY) tick (set_ms_count1 0 s).

(** The state after [Delay10KTCYx(KEY_REPEAT_DELAY)]. *)
Definition repeat_delayed (s : State) : State :=
  Nat.iter (Z.to_nat (KEY_REPEAT_DELAY * 10000 / TCY_PER_TICK)) tick s.

(** The state after [dd->day = v; Delay10KTCYx(KEY_REPEAT_DELAY);]. *)
Definition day_stored (dd : DateRef) (v : Z) (s : State) : State :=
  repeat_delayed (store_date dd (set_day v (load_date dd s)) s).

End Firmware.

(** ** The display part of the main loop *)

Section MainLoop.

Variable env : nat -> Pins.
Variable fuel : nat.

(** [if (disp_index < 5) disp_index++; else disp_index = 0;] and its
    mirror image. *)
Definition next_field : M unit :=
  i <- rd disp_index ;;
  if i <? 5 then modify (set_disp_index (wrap8 (i + 1)))
  else modify (set_disp_index 0).

Definition prev_field : M unit :=
  i <- rd disp_index ;;
  if 0 <? i then modify (set_disp_index (wrap8 (i - 1)))
  else modify (set_disp_index 5).

(** The body of the main loop between the rollover tests and the test of
    the switch bank: the display cycles on its timer, PB1 steps it forward,
    PB2 steps it back, and the selected field is rendered. *)
Definition main_display : M unit :=
  c0 <- rd ms_count0 ;;
  when (DISPLAY_CYCLE_DELAY <=? c0) (modify (set_ms_count0 0) ;; next_field) ;;
  p <- PB1pressed env fuel ;;
  when (p =? 1)
    (Delay10KTCYx env KEY_REPEAT_DELAY ;;
     p' <- PB1pressed env fuel ;;
     when (p' =? 1) (modify (set_ms_count0 0) ;; next_field)) ;;
  p <- PB2pressed env fuel ;;
  when (p =? 1)
    (Delay10KTCYx env KEY_REPEAT_DELAY ;;
     p' <- PB2pressed env fuel ;;
     when (p' =? 1) (modify (set_ms_count0 0) ;; prev_field)) ;;
  i <- rd disp_index ;;
  CurrentDisplay i.

End MainLoop.

(** ** Concrete states and inputs *)

(** The globals as their initialisers and the start of [main] leave them,
    with Timer1 started. *)
Definition power_on : State :=
  {| disp_index := 0; Alarm1On := 0; Alarm2On := 0; multiplex_index := 1;
     ms_count0 := 0; ms_count1 := 0; ms_count2 := 0; ms_count3 := 0;
     disp_U1 := 0xFF; disp_U2 := 0xFF; disp_LEDS := 0x00; dp_mask := 0xFF;
     day_rollover := 0; mins_rollover := 0;
     MainTime := mkTIME 0 0 0; Alarm1Time := mkTIME 0 0 0;
     Alarm2Time := mkTIME 0 0 0;
     MainDate := mkDATE 1 1 16 2016; Alarm1Date := mkDATE 0 0 0 0;
     Alarm2Date := mkDATE 1 1 16 2016;
     TMR1IE := true; TMR1IF := false; LATF := 0;
     LH0 := false; LH1 := false; LA4 := false; now := 0 |}.

Definition at_clock (t : TIME) (d : DATE) : State :=
  set_MainDate d (set_MainTime t power_on).

(** 10:58 with one minute rollover pending. *)
Definition two_to_eleven : State :=
  set_mins_rollover 1 (at_clock (mkTIME 10 58 0) (mkDATE 14 3 17 2017)).

(** The last day of 2017 (not a leap year) and of 2016 (a leap year). *)
Definition new_years_eve_2017 : State :=
  at_clock (mkTIME 0 0 0) (mkDATE 31 12 17 2017).

Definition new_years_eve_2016 : State :=
  at_clock (mkTIME 23 59 59) (mkDATE 31 12 16 2016).

(** 28 February 2017. *)
Definition end_of_feb_2017 : State :=
  at_clock (mkTIME 0 0 0) (mkDATE 28 2 17 2017).

(** Constant inputs: PB1 reported down (RJ5 and RJ0 both low) with PB2 up,
    and PB2 down with PB1 up. *)
Definition PB1_down : nat -> Pins :=
  fun _ => {| RJ5 := false; RJ0 := false; RB0 := true; PORTC := 0; PORTH := 0;
              TMR1_overflow := false |}.

Definition PB2_down : nat -> Pins :=
  fun _ => {| RJ5 := true; RJ0 := true; RB0 := false; PORTC := 0; PORTH := 0;
              TMR1_overflow := false |}.

(** RJ5 is low during the first period only, while RJ0 is low; the same
    short pulse on RB0; and RJ5 held low while RJ0 is high. *)
Definition PB1_glitch : nat -> Pins :=
  fun t => {| RJ5 := negb (Nat.eqb t 0); RJ0 := false; RB0 := true;
              PORTC := 0; PORTH := 0; TMR1_overflow := false |}.

Definition PB2_glitch : nat -> Pins :=
  fun t => {| RJ5 := true; RJ0 := true; RB0 := negb (Nat.eqb t 0);
              PORTC := 0; PORTH := 0; TMR1_overflow := false |}.

Definition PB1_held_RJ0_high : nat -> Pins :=
  fun _ => {| RJ5 := false; RJ0 := true; RB0 := true; PORTC := 0; PORTH := 0;
              TMR1_overflow := false |}.

(** The switch bank reads [SECS] throughout. *)
Definition seconds_switch : nat -> Pins :=
  fun _ => {| RJ5 := true; RJ0 := true; RB0 := true; PORTC := 0x04; PORTH := 0;
              TMR1_overflow := false |}.

(** The switch bank reads 0x80 in the first period and 0x81 from then on. *)
Definition alarm1_then_seconds : nat -> Pins :=
  fun t => {| RJ5 := true; RJ0 := true; RB0 := true;
              PORTC := if Nat.eqb t 0 then 0 else 0x04; PORTH := 0x80;
              TMR1_overflow := false |}.

(** The clock is in January 2016 and Alarm2 is being set to 1 February. *)
Definition alarm2_on_1_feb : State :=
  set_Alarm2Date (mkDATE 1 2 16 2016)
    (at_clock (mkTIME 0 0 0) (mkDATE 10 1 16 2016)).

(** ** Vocabulary of the statements *)

(** The locations in which the clock of record is being edited, and those
    in which any field, of the clock or of an alarm, is being edited. *)
Definition clock_edit (l : Loc) : bool :=
  match l with
  | AtSetTime _ | AtSetDate _ => true
  | _ => false
  end.

Definition field_edit (l : Loc) : bool :=
  match l with
  | AtSetTime _ | AtSetDate _ | AtAlarm1Time _ | AtAlarm2Time _
  | AtAlarm2Date _ => true
  | _ => false
  end.

(** Claim C6 as stated: in a run of the settings menu entered with the
    seconds interrupt enabled, the interrupt is disabled in every edit
    state, those of the alarms included. *)
Definition frozen_in_every_edit_state : Prop :=
  forall (env : nat -> Pins) (fuel : nat) (es : list event) (s0 s : State)
         (l : Loc),
    TMR1IE s0 = true ->
    run env fuel es AtSetMenu s0 = Ok (l, s) ->
    field_edit l = true -> TMR1IE s = false.

(** The [CalcDate] half of claim C9 as stated: in a year that is not a leap
    year the day can still advance while it is below the leap-year length of
    the month. *)
Definition CalcDate_tests_leap_length : Prop :=
  forall s s' : State,
    CalcLeapYear (year_long (MainDate s)) = 0 ->
    0 <= month (MainDate s) <= 12 ->
    day (MainDate s) < nth (Z.to_nat (month (MainDate s))) DaysInMonthLeap 0 ->
    CalcDate s = Ok (tt, s') ->
    day (MainDate s') = wrap8 (day (MainDate s) + 1).

(** The states the firmware lives in: every char field of a time or a date
    holds a char, and every month indexes the two day tables. *)
Definition wf_time (t : TIME) : Prop :=
  is_char (hrs t) /\ is_char (mins t) /\ is_char (secs t).

Definition wf_date (d : DATE) : Prop :=
  is_char (day d) /\ 0 <= month d <= 12 /\ is_char (year_short d).

Definition wf (s : State) : Prop :=
  (forall p, wf_time (load_time p s)) /\ (forall p, wf_date (load_date p s)).

(** A computation that returns from every such state, in such a state. *)
Definition safe {A} (m : M A) : Prop :=
  forall s : State, wf s -> exists (a : A) (s' : State), m s = Ok (a, s') /\ wf s'.

(** A computation that, when it returns, has left TMR1IE as it was. *)
Definition leaves_TMR1IE {A} (m : M A) : Prop :=
  forall (s s' : State) (a : A), m s = Ok (a, s') -> TMR1IE s' = TMR1IE s.

(** A computation that, started with TMR1IE equal to [b], arrives at a loop
    head with TMR1IE clear exactly if that loop edits the clock of record. *)
Definition lands (b : bool) (m : M Loc) : Prop :=
  forall (s s' : State) (l' : Loc),
    m s = Ok (l', s') -> TMR1IE s = b -> TMR1IE s' = negb (clock_edit l').

(** ** Vocabulary for the seconds clock during a move of the machine *)

(** Two input traces that agree on the buttons and on the switch bank;
    they may differ in the periods in which Timer1 overflows. *)
Definition same_inputs (env env' : nat -> Pins) : Prop :=
  forall t,
    RJ5 (env' t) = RJ5 (env t) /\ RJ0 (env' t) = RJ0 (env t)
    /\ RB0 (env' t) = RB0 (env t) /\ PORTC (env' t) = PORTC (env t)
    /\ PORTH (env' t) = PORTH (env t).

(** Two states that differ at most in the pending flag TMR1IF. *)
Definition up_to_TMR1IF (s s' : State) : Prop :=
  exists b, s' = set_TMR1IF b s.

(** How often the seconds routine is due in the [n] periods from period
    [t] on while its interrupt is enabled: once in every period in which
    Timer1 overflows, and once in the first period if the flag was
    [pending] at the start (an overflow in that same period is then served
    together with it). *)
Fixpoint seconds_due (env : nat -> Pins) (pending : bool) (t n : nat) : nat :=
  match n with
  | O => O
  | S m =>
      (seconds_due env pending t m
       + (if (match m with O => pending | S _ => false end)
             || TMR1_overflow (env (t + m)%nat)
          then 1 else 0))%nat
  end.

(** The clock has been running from [s0] to [x]: TMR1IE is set, the seconds
    routine has run on the clock of record exactly as often as it was due
    in the periods gone by, nothing else has written the clock of record or
    the minute-rollover count, and no request is left pending once a period
    has gone by. *)
Definition credited (env : nat -> Pins) (s0 x : State) : Prop :=
  (now s0 <= now x)%nat
  /\ TMR1IE x = true
  /\ MainTime x =
     MainTime (Nat.iter (seconds_due env (TMR1IF s0) (now s0) (now x - now s0))
                 Timer1_isr s0)
  /\ mins_rollover x =
     mins_rollover
       (Nat.iter (seconds_due env (TMR1IF s0) (now s0) (now x - now s0))
          Timer1_isr s0)
  /\ TMR1IF x = (if (now s0 <? now x)%nat then false else TMR1IF s0).

(** One move of the machine from loop head [l] in state [s], a period
    going by or a pass of the program to its next loop head, accounted for.
    A move that starts or ends in a loop that edits the clock of record is
    made with the seconds clock frozen: with any other behaviour of Timer1
    and the same buttons and switches it arrives at the same loop head in
    the same state, up to the pending flag.  Every other move is made with
    the seconds clock running. *)
Definition accounted (env : nat -> Pins) (fuel : nat) (e : event) (l : Loc)
    (s : State) : Prop :=
  exists (l1 : Loc) (s1 : State),
    run env fuel [e] l s = Ok (l1, s1)
    /\ (if clock_edit l || clock_edit l1
        then forall env', same_inputs env env' ->
               exists s1', run env' fuel [e] l s = Ok (l1, s1')
                           /\ up_to_TMR1IF s1 s1'
        else credited env s s1).

(** A computation on which Timer1 has no influence while TMR1IE is clear:
    run beside [m'], which sees the same inputs, from states that differ
    only in the pending flag, it returns the same value and states that
    differ only in the pending flag, with TMR1IE still clear. *)
Definition blind {A} (m m' : M A) : Prop :=
  forall (x x' : State) (a : A) (b : bool),
    TMR1IE x = false -> m x = Ok (a, x') ->
    TMR1IE x' = false
    /\ exists b', m' (set_TMR1IF b x) = Ok (a, set_TMR1IF b' x').

(** A computation that, when it returns, has kept [C]. *)
Definition keeps {A} (C : State -> Prop) (m : M A) : Prop :=
  forall (s s' : State) (a : A), m s = Ok (a, s') -> C s -> C s'.

(** What an update must leave alone to go unnoticed by the clock account. *)
Definition clock_frame (x x' : State) : Prop :=
  MainTime x' = MainTime x /\ mins_rollover x' = mins_rollover x
  /\ TMR1IE x' = TMR1IE x /\ TMR1IF x' = TMR1IF x /\ now x' = now x.

(** Timer1 overflows in every period while switch 0 selects the seconds
    of the clock. *)
Definition seconds_switch_overflowing : nat -> Pins :=
  fun _ => {| RJ5 := true; RJ0 := true; RB0 := true; PORTC := 0x04; PORTH := 0;
              TMR1_overflow := true |}.

(** The field [CurrentDisplay] renders for an index, and the LED marker it
    lights. *)
Definition shown_field (i : Z) (s : State) : Z :=
  if i =? 0 then day (MainDate s)
  else if i =? 1 then month (MainDate s)
  else if i =? 2 then year_short (MainDate s)
  else if i =? 3 then hrs (MainTime s)
  else if i =? 4 then mins (MainTime s)
  else secs (MainTime s).

Definition field_marker (i : Z) : Z :=
  if i =? 0 then DAY
  else if i =? 1 then MONTH
  else if i =? 2 then YEAR
  else if i =? 3 then HRS
  else if i =? 4 then MINS
  else SECS.

(** The length of a month as the calendar engine looks it up. *)
Definition days_in (year month : Z) : Z :=
  if CalcLeapYear year =? 0
  then nth (Z.to_nat month) DaysInMonth 0
  else nth (Z.to_nat month) DaysInMonthLeap 0.

(** A date of the calendar within the century of the clock, with the two
    year fields in step. *)
Definition calendar_date (d : DATE) : Prop :=
  1 <= month d <= 12
  /\ 1 <= day d <= days_in (year_long d) (month d)
  /\ 2000 <= year_long d <= 2099
  /\ year_short d = year_long d - 2000.

(** The common shape of [SetSecs], [SetMins], [SetHrs] and [SetMonth]: a
    field [get]/[set] of a structure reached through [load]/[store], stepped
    up by PB2 and down by PB1 between [lo] and [hi]. *)
Definition edit_shape {T : Type} (env : nat -> Pins) (fuel : nat)
    (load : State -> T) (store : T -> State -> State)
    (get : T -> Z) (set : Z -> T -> T) (lo hi : Z) : M unit :=
  c <- and_then (PB2pressed env fuel) (rd (fun s => get (load s) <? hi)) ;;
  when c (modify (fun s => store (set (wrap8 (get (load s) + 1)) (load s)) s) ;;
          Delay10KTCYx env KEY_REPEAT_DELAY) ;;
  c <- and_then (PB2pressed env fuel) (rd (fun s => get (load s) =? hi)) ;;
  when c (modify (fun s => store (set lo (load s)) s) ;;
          Delay10KTCYx env KEY_REPEAT_DELAY) ;;
  c <- and_then (PB1pressed env fuel) (rd (fun s => lo <? get (load s))) ;;
  when c (modify (fun s => store (set (wrap8 (get (load s) - 1)) (load s)) s) ;;
          Delay10KTCYx env KEY_REPEAT_DELAY) ;;
  c <- and_then (PB1pressed env fuel) (rd (fun s => get (load s) =? lo)) ;;
  when c (modify (fun s => store (set hi (load s)) s) ;;
          Delay10KTCYx env KEY_REPEAT_DELAY).

(** Timer1 overflows in every period. *)
Definition overflowing : nat -> Pins :=
  fun _ => {| RJ5 := true; RJ0 := true; RB0 := true; PORTC := 0; PORTH := 0;
              TMR1_overflow := true |}.

(** The field a time editor works on, and its largest value. *)
Definition time_get (f : TimeField) (t : TIME) : Z :=
  match f with f_secs => secs t | f_mins => mins t | f_hrs => hrs t end.

Definition time_set (f : TimeField) (v : Z) (t : TIME) : TIME :=
  match f with
  | f_secs => set_secs v t
  | f_mins => set_mins v t
  | f_hrs => set_hrs v t
  end.

Definition time_top (f : TimeField) : Z :=
  match f with f_secs => 59 | f_mins => 59 | f_hrs => 23 end.

(** The seconds interrupt cannot write through this pointer: it points to
    an alarm, or TMR1IE is clear. *)
Definition undisturbed (p : TimeRef) (s : State) : Prop :=
  p = ref_MainTime -> TMR1IE s = false.

(** 23:59:58 on Alarm1. *)
Definition alarm1_at_235958 : State :=
  set_Alarm1Time (mkTIME 23 59 58) power_on.

(** The value [Switches] returns in a state. *)
Definition switch_value (env : nat -> Pins) (s : State) : Z :=
  Z.lor (Z.land (Z.shiftr (PORTC (env (now s))) 2) 0x0F)
        (Z.land (PORTH (env (now s))) 0xF0).

(** The state after 'Er' and an error code have been put on the display. *)
Definition showing_Er (code : Z) (s : State) : State :=
  set_disp_LEDS code (set_disp_U1 DispChars.r (set_disp_U2 DispChars.E s)).

(** Switches 0 and 7 set together, from the start. *)
Definition switches_0x81 : nat -> Pins :=
  fun _ => {| RJ5 := true; RJ0 := true; RB0 := true; PORTC := 0x04;
              PORTH := 0x80; TMR1_overflow := false |}.

(** What a flash routine of the menu does: it returns, leaves LED pattern
    [leds old] where [old] was there before, both displays blank, and has
    taken four delays of [SET_MENU_FLASH] (1600 timer periods). *)
Definition flashes (env : nat -> Pins) (flash : M unit) (leds : Z -> Z) : Prop :=
  forall s, exists s',
    flash s = Ok (tt, s')
    /\ disp_LEDS s' = leds (disp_LEDS s)
    /\ disp_U2 s' = 0xFF /\ disp_U1 s' = 0xFF
    /\ now s' = (now s + 1600)%nat.

(** The usual LED update of a flash routine: the two alarm LEDs are kept,
    the field's LED is lit, the others are put out. *)
Definition field_led (code : Z) (old : Z) : Z := Z.lor (Z.land old 0xC0) code.

(** The state after two characters have been put in the display buffers
    and left there for one [Delay10KTCYx(SET_MENU_FLASH)]. *)
Definition shown_for (env : nat -> Pins) (u2 u1 : Z) (s : State) : State :=
  Nat.iter (Z.to_nat (SET_MENU_FLASH * 10000 / TCY_PER_TICK)) (tick env)
    (set_disp_U1 u1 (set_disp_U2 u2 s)).

(** The common shape of the two alarm on/off editors: alarm number [digit],
    flag read by [flag] and written by [set_flag]. *)
Definition toggle_shape (env : nat -> Pins) (fuel : nat)
    (flag : State -> Z) (set_flag : Z -> State -> State) (digit : Z) : M unit :=
  modify (set_disp_U2 DispChars.A) ;;
  n <- index DispNums digit ;; modify (set_disp_U1 n) ;;
  Delay10KTCYx env ALARM_TOGGLE ;;
  p2 <- PB2pressed env fuel ;; when (p2 =? 1) (modify (set_flag 1)) ;;
  p1 <- PB1pressed env fuel ;; when (p1 =? 1) (modify (set_flag 0)) ;;
  on <- rd flag ;;
  (if on =? 1
   then modify (set_disp_U2 DispChars.o) ;; modify (set_disp_U1 DispChars.n)
   else modify (set_disp_U2 DispChars.o) ;; modify (set_disp_U1 DispChars.F)) ;;
  Delay10KTCYx env ALARM_TOGGLE.

(** What an alarm on/off editor does when PB2 is reported as [pb2] and PB1
    as [pb1]: it returns, PB1 switches the alarm off, otherwise PB2
    switches it on, otherwise the flag is kept; the display ends on 'on'
    when the flag is 1 and on 'oF' otherwise. *)
Definition toggles (toggle : M unit) (flag : State -> Z) (pb2 pb1 : bool)
    (s : State) : Prop :=
  exists s',
    toggle s = Ok (tt, s')
    /\ flag s' = (if pb1 then 0 else if pb2 then 1 else flag s)
    /\ disp_U2 s' = DispChars.o
    /\ disp_U1 s' = (if flag s' =? 1 then DispChars.n else DispChars.F).

(** Both buttons are down, from the start. *)
Definition both_down : nat -> Pins :=
  fun _ => {| RJ5 := false; RJ0 := false; RB0 := false; PORTC := 0;
              PORTH := 0; TMR1_overflow := false |}.

(** A date with both year fields set from the four-digit year [y]. *)
Definition with_year (y : Z) (d : DATE) : DATE :=
  set_year_short (y - 2000) (set_year_long y d).

(** A computation that returns from every state satisfying [P], in a
    state satisfying [P] again. *)
Definition preserves {A} (P : State -> Prop) (m : M A) : Prop :=
  forall s, P s -> exists (a : A) (s' : State), m s = Ok (a, s') /\ P s'.

(** What the display block of [main] relies on: char fields, and a display
    index that selects one of the six fields. *)
Definition display_ready (s : State) : Prop :=
  wf s /\ 0 <= disp_index s <= 5.

(** The display is due to move to the next field. *)
Definition cycle_due : State := set_ms_count0 DISPLAY_CYCLE_DELAY power_on.

(** Times of day and dates of the clock's century, as the editors are
    meant to keep them; the day is only bounded by the longest month. *)
Definition valid_time (t : TIME) : Prop :=
  0 <= hrs t <= 23 /\ 0 <= mins t <= 59 /\ 0 <= secs t <= 59.

Definition valid_date (d : DATE) : Prop :=
  1 <= day d <= 31 /\ 1 <= month d <= 12
  /\ 2000 <= year_long d <= 2099 /\ year_short d = year_long d - 2000.

(** The three times are times of day and the two dates that can be edited
    are dates; [Alarm1Date], which is only ever initialised, holds chars. *)
Definition in_range (s : State) : Prop :=
  wf s
  /\ (forall p, valid_time (load_time p s))
  /\ (forall p, p <> ref_Alarm1Date -> valid_date (load_date p s)).

(** ** Properties of the seconds clock and the calendar engine *)

Ltac ltb_cases :=
  repeat match goal with
  | |- context [ ?a <? ?b ] => destruct (Z.ltb_spec a b); try lia
  | |- context [ ?a =? ?b ] => destruct (Z.eqb_spec a b); try lia
  | |- context [ ?a <=? ?b ] => destruct (Z.leb_spec a b); try lia
  end.

Lemma wrap8_small x : 0 <= x <= 255 -> wrap8 x = x.
Proof. intros; unfold wrap8; apply Z.mod_small; lia. Qed.

Lemma wrap16_small x : 0 <= x <= 65535 -> wrap16 x = x.
Proof. intros; unfold wrap16; apply Z.mod_small; lia. Qed.

(** C3. One firing of the seconds interrupt: below 59 the seconds advance by
    one and the minute-rollover count is untouched; at 59 the seconds return
    to 0 and the (8-bit) rollover count advances by one; hours, minutes and
    the date are never written. *)
Theorem Timer1_isr_fires (s : State) :
  (0 <= secs (MainTime s) <= 58 ->
     secs (MainTime (Timer1_isr s)) = secs (MainTime s) + 1
     /\ mins_rollover (Timer1_isr s) = mins_rollover s)
  /\ (secs (MainTime s) = 59 ->
        secs (MainTime (Timer1_isr s)) = 0
        /\ mins_rollover (Timer1_isr s) = wrap8 (mins_rollover s + 1)
        /\ (0 <= mins_rollover s < 255 ->
              mins_rollover (Timer1_isr s) = mins_rollover s + 1))
  /\ hrs (MainTime (Timer1_isr s)) = hrs (MainTime s)
  /\ mins (MainTime (Timer1_isr s)) = mins (MainTime s)
  /\ MainDate (Timer1_isr s) = MainDate s.
Proof.
  unfold Timer1_isr.
  repeat split; intros; ltb_cases; cbn;
    rewrite ?wrap8_small by lia; reflexivity.
Qed.

Lemma Timer1_isr_fires_witness :
  (secs (MainTime (Timer1_isr power_on)) = 0 + 1
   /\ mins_rollover (Timer1_isr power_on) = 0)
  /\ (secs (MainTime (Timer1_isr new_years_eve_2016)) = 0
      /\ mins_rollover (Timer1_isr new_years_eve_2016) = 0 + 1).
Proof.
  split.
  - apply (proj1 (Timer1_isr_fires power_on)). cbn. lia.
  - destruct (proj1 (proj2 (Timer1_isr_fires new_years_eve_2016)) eq_refl)
      as (H0 & _ & H1).
    split; [exact H0 | apply H1; cbn; lia].
Defined.

(** What [CalcTime] does when the sum of minutes and pending rollovers is
    not 59. *)
Lemma CalcTime_no_carry (s : State) :
  0 <= mins (MainTime s) -> 0 <= mins_rollover s ->
  mins (MainTime s) + mins_rollover s < 59 ->
  mins (MainTime (CalcTime s)) = mins (MainTime s) + mins_rollover s
  /\ hrs (MainTime (CalcTime s)) = hrs (MainTime s)
  /\ day_rollover (CalcTime s) = day_rollover s
  /\ mins_rollover (CalcTime s) = 0.
Proof.
  intros. unfold CalcTime.
  rewrite wrap8_small by lia. ltb_cases. cbn. auto.
Qed.

Lemma CalcTime_carry (s : State) :
  60 <= mins (MainTime s) + mins_rollover s <= 255 ->
  0 <= hrs (MainTime s) <= 23 ->
  mins (MainTime (CalcTime s)) = mins (MainTime s) + mins_rollover s - 60
  /\ (hrs (MainTime s) < 23 ->
        hrs (MainTime (CalcTime s)) = hrs (MainTime s) + 1
        /\ day_rollover (CalcTime s) = day_rollover s)
  /\ (hrs (MainTime s) = 23 ->
        hrs (MainTime (CalcTime s)) = 0 /\ day_rollover (CalcTime s) = 1)
  /\ mins_rollover (CalcTime s) = 0.
Proof.
  intros. unfold CalcTime.
  rewrite (wrap8_small (_ + _)) by lia. ltb_cases; cbn in *; ltb_cases; cbn;
    rewrite ?wrap8_small by lia; repeat split; intros; try lia; reflexivity.
Qed.

Lemma CalcTime_at_59 (s : State) :
  mins (MainTime s) + mins_rollover s = 59 ->
  0 <= hrs (MainTime s) < 23 ->
  mins (MainTime (CalcTime s)) = 255
  /\ hrs (MainTime (CalcTime s)) = hrs (MainTime s) + 1.
Proof.
  intros E ?. unfold CalcTime. rewrite E.
  change (wrap8 59 <? 59) with false. cbn. ltb_cases. cbn.
  rewrite wrap8_small by lia. split; reflexivity.
Qed.

(** C1. At 10:58 with one rollover pending the sum is 59, which is below 60,
    yet [CalcTime] takes the carry branch: minutes become 59 - 60 stored in
    an unsigned char, and the hour advances. *)
Theorem CalcTime_58_plus_1 :
  mins (MainTime two_to_eleven) + mins_rollover two_to_eleven = 59
  /\ mins (MainTime (CalcTime two_to_eleven)) = 255
  /\ hrs (MainTime two_to_eleven) = 10
  /\ hrs (MainTime (CalcTime two_to_eleven)) = 11
  /\ mins_rollover (CalcTime two_to_eleven) = 0.
Proof. repeat split. Qed.

(** [CalcDate] never faults on a month that indexes the tables, and always
    clears the day-rollover signal. *)
Lemma index_in_range (tbl : list Z) (i : Z) (s : State) :
  0 <= i < Z.of_nat (length tbl) ->
  index tbl i s = Ok (nth (Z.to_nat i) tbl 0, s).
Proof.
  intros. unfold index.
  destruct (Z.leb_spec 0 i); try lia. destruct (Z.ltb_spec i (Z.of_nat (length tbl)));
    try lia. reflexivity.
Qed.

(** In a year that is not a leap year one comparison with [DaysInMonth]
    decides between the next day and the first of the next month. *)
Lemma CalcDate_common_year (s : State) :
  CalcLeapYear (year_long (MainDate s)) = 0 ->
  0 <= month (MainDate s) <= 12 ->
  exists s',
    CalcDate s = Ok (tt, s')
    /\ day (MainDate s') =
         (if day (MainDate s) <? nth (Z.to_nat (month (MainDate s))) DaysInMonth 0
          then wrap8 (day (MainDate s) + 1) else 1)
    /\ day_rollover s' = 0.
Proof.
  intros L Hm. unfold CalcDate, bind, modify, rd.
  change (MainDate (set_day_rollover 0 s)) with (MainDate s).
  rewrite L. change (0 =? 0) with true. cbv beta iota.
  rewrite index_in_range by (cbn; lia).
  destruct (_ <? nth _ DaysInMonth 0).
  - eexists; split; [reflexivity | split; reflexivity].
  - destruct (_ <? 12); [| destruct (_ <? 99)];
      eexists; (split; [reflexivity | split; reflexivity]).
Qed.

(** The same in a leap year, with [DaysInMonthLeap]. *)
Lemma CalcDate_leap_year (s : State) :
  CalcLeapYear (year_long (MainDate s)) = 1 ->
  0 <= month (MainDate s) <= 12 ->
  exists s',
    CalcDate s = Ok (tt, s')
    /\ day (MainDate s') =
         (if day (MainDate s) <? nth (Z.to_nat (month (MainDate s))) DaysInMonthLeap 0
          then wrap8 (day (MainDate s) + 1) else 1)
    /\ day_rollover s' = 0.
Proof.
  intros L Hm. unfold CalcDate, bind, modify, rd.
  change (MainDate (set_day_rollover 0 s)) with (MainDate s).
  rewrite L. change (1 =? 0) with false. cbv beta iota.
  rewrite index_in_range by (cbn; lia).
  destruct (_ <? nth _ DaysInMonthLeap 0).
  - eexists; split; [reflexivity | split; reflexivity].
  - destruct (_ <? 12);
      eexists; (split; [reflexivity | split; reflexivity]).
Qed.

(** The year written when December ends.  In a leap year it is the next
    year; in any other year from 99 on it is 2000. *)
Lemma CalcDate_december_leap_year (s : State) :
  CalcLeapYear (year_long (MainDate s)) = 1 ->
  month (MainDate s) = 12 -> 31 <= day (MainDate s) ->
  exists s',
    CalcDate s = Ok (tt, s')
    /\ MainDate s' =
         mkDATE 1 1 (wrap8 (year_short (MainDate s) + 1))
                (wrap16 (year_long (MainDate s) + 1)).
Proof.
  intros L Hm Hd. unfold CalcDate, bind, modify, rd.
  change (MainDate (set_day_rollover 0 s)) with (MainDate s).
  rewrite L. change (1 =? 0) with false. cbv beta iota.
  rewrite index_in_range by (rewrite Hm; cbn; lia).
  rewrite Hm. change (nth (Z.to_nat 12) DaysInMonthLeap 0) with 31.
  destruct (Z.ltb_spec (day (MainDate s)) 31); try lia.
  cbn. rewrite Hm. cbn.
  eexists; split; reflexivity.
Qed.

Lemma CalcDate_december_common_year (s : State) :
  CalcLeapYear (year_long (MainDate s)) = 0 ->
  month (MainDate s) = 12 -> 31 <= day (MainDate s) ->
  99 <= year_long (MainDate s) ->
  exists s',
    CalcDate s = Ok (tt, s') /\ MainDate s' = mkDATE 1 1 0 2000.
Proof.
  intros L Hm Hd Hy. unfold CalcDate, bind, modify, rd.
  change (MainDate (set_day_rollover 0 s)) with (MainDate s).
  rewrite L. change (0 =? 0) with true. cbv beta iota.
  rewrite index_in_range by (rewrite Hm; cbn; lia).
  rewrite Hm. change (nth (Z.to_nat 12) DaysInMonth 0) with 31.
  destruct (Z.ltb_spec (day (MainDate s)) 31); try lia.
  cbn. rewrite Hm. cbn.
  destruct (Z.ltb_spec (year_long (MainDate s)) 99); try lia.
  eexists; split; reflexivity.
Qed.

(** C2. 2017 is not a leap year and is not the last year of the century, yet
    the day after 31/12/2017 is 01/01/2000: the year guard of the non-leap
    branch compares the four-digit year with 99. *)
Theorem CalcDate_after_2017 :
  CalcLeapYear 2017 = 0
  /\ MainDate new_years_eve_2017 = mkDATE 31 12 17 2017
  /\ exists s',
       CalcDate new_years_eve_2017 = Ok (tt, s')
       /\ MainDate s' = mkDATE 1 1 0 2000.
Proof.
  split; [reflexivity | split; [reflexivity |]].
  apply CalcDate_december_common_year; cbn; solve [reflexivity | lia].
Qed.

(** C4. From 23:59:59 on 31/12/2016 with no rollover pending, one firing of
    the seconds interrupt and one pass over the two rollover tests of the
    main loop give 00:00:00 on 01/01/2017, the short year being 17. *)
Theorem new_year_2017_end_to_end (s : State) :
  MainTime s = mkTIME 23 59 59 ->
  MainDate s = mkDATE 31 12 16 2016 ->
  mins_rollover s = 0 ->
  exists s',
    drain_rollovers (Timer1_isr s) = Ok (tt, s')
    /\ MainTime s' = mkTIME 0 0 0
    /\ MainDate s' = mkDATE 1 1 17 2017
    /\ mins_rollover s' = 0 /\ day_rollover s' = 0.
Proof.
  intros Ht Hd Hr.
  destruct s; cbn in Ht, Hd, Hr; subst.
  eexists; split; [vm_compute; reflexivity | repeat split].
Qed.

Lemma new_year_2017_end_to_end_witness :
  exists s',
    drain_rollovers (Timer1_isr new_years_eve_2016) = Ok (tt, s')
    /\ MainTime s' = mkTIME 0 0 0
    /\ MainDate s' = mkDATE 1 1 17 2017
    /\ mins_rollover s' = 0 /\ day_rollover s' = 0.
Proof.
  apply (new_year_2017_end_to_end new_years_eve_2016); reflexivity.
Defined.

(** ** Properties of the alarm comparison *)

Lemma c_and_true (a b : Z) : (c_and a b =? 1) = true <-> a <> 0 /\ b <> 0.
Proof.
  unfold c_and, truthy.
  destruct (Z.eqb_spec a 0), (Z.eqb_spec b 0); cbn; split; intros; try tauto;
    try discriminate.
Qed.

Lemma CompareTimes_1 (t : TIME) (d : DATE) (a : TIME) (ad : DATE) :
  CompareTimes t d a ad 1 <> 0 <-> hrs t = hrs a /\ mins t = mins a /\ secs t = secs a.
Proof.
  unfold CompareTimes. cbn.
  destruct (Z.eqb_spec (hrs t) (hrs a)), (Z.eqb_spec (mins t) (mins a)),
    (Z.eqb_spec (secs t) (secs a)); cbn; split; intros; try tauto; try lia.
Qed.

Lemma CompareTimes_2 (t : TIME) (d : DATE) (a : TIME) (ad : DATE) :
  CompareTimes t d a ad 2 <> 0 <->
  hrs t = hrs a /\ mins t = mins a /\ secs t = secs a
  /\ day d = day ad /\ month d = month ad /\ year_short d = year_short ad.
Proof.
  unfold CompareTimes. cbn.
  destruct (Z.eqb_spec (hrs t) (hrs a)), (Z.eqb_spec (mins t) (mins a)),
    (Z.eqb_spec (secs t) (secs a)), (Z.eqb_spec (day d) (day ad)),
    (Z.eqb_spec (month d) (month ad)),
    (Z.eqb_spec (year_short d) (year_short ad)); cbn; split; intros;
    try tauto; try lia.
Qed.

Lemma Alarm1_fires_iff (s : State) :
  Alarm1_fires s = true <->
  hrs (MainTime s) = hrs (Alarm1Time s)
  /\ mins (MainTime s) = mins (Alarm1Time s)
  /\ secs (MainTime s) = secs (Alarm1Time s)
  /\ Alarm1On s <> 0.
Proof.
  unfold Alarm1_fires. rewrite c_and_true, CompareTimes_1. tauto.
Qed.

Lemma Alarm2_fires_iff (s : State) :
  Alarm2_fires s = true <->
  hrs (MainTime s) = hrs (Alarm2Time s)
  /\ mins (MainTime s) = mins (Alarm2Time s)
  /\ secs (MainTime s) = secs (Alarm2Time s)
  /\ day (MainDate s) = day (Alarm2Date s)
  /\ month (MainDate s) = month (Alarm2Date s)
  /\ year_short (MainDate s) = year_short (Alarm2Date s)
  /\ Alarm2On s <> 0.
Proof.
  unfold Alarm2_fires. rewrite c_and_true, CompareTimes_2. tauto.
Qed.

(** C7. The guard of [SoundAlarm1] holds exactly when hours, minutes and
    seconds of the clock equal those of Alarm1 and [Alarm1On] is set; no date
    enters it, and clearing the flag makes it fail.  The guard of
    [SoundAlarm2] holds exactly when, in addition to the time, day, month and
    two-digit year are equal and [Alarm2On] is set. *)
Theorem alarm_guards (s : State) :
  (Alarm1_fires s = true <->
     hrs (MainTime s) = hrs (Alarm1Time s)
     /\ mins (MainTime s) = mins (Alarm1Time s)
     /\ secs (MainTime s) = secs (Alarm1Time s)
     /\ Alarm1On s <> 0)
  /\ (forall d d' : DATE,
        Alarm1_fires (set_Alarm1Date d' (set_MainDate d s)) = Alarm1_fires s)
  /\ Alarm1_fires (set_Alarm1On 0 s) = false
  /\ (Alarm2_fires s = true <->
        hrs (MainTime s) = hrs (Alarm2Time s)
        /\ mins (MainTime s) = mins (Alarm2Time s)
        /\ secs (MainTime s) = secs (Alarm2Time s)
        /\ day (MainDate s) = day (Alarm2Date s)
        /\ month (MainDate s) = month (Alarm2Date s)
        /\ year_short (MainDate s) = year_short (Alarm2Date s)
        /\ Alarm2On s <> 0).
Proof.
  split; [apply Alarm1_fires_iff |].
  split; [reflexivity |].
  split; [| apply Alarm2_fires_iff].
  unfold Alarm1_fires, c_and. cbn. rewrite andb_false_r. reflexivity.
Qed.

(** ** Properties of the display multiplexer *)

Lemma digit_glyph (k : Z) :
  0 <= k <= 9 -> In (nth (Z.to_nat k) DispNums 0) DispNums.
Proof.
  intros. apply nth_In. change (length DispNums) with 10%nat. lia.
Qed.

Lemma Num2Disp_error (v : Z) (s : State) :
  99 < v ->
  Num2Disp v s =
  Ok (tt, set_disp_LEDS 0x01 (set_disp_U2 DispChars.E (set_disp_U1 DispChars.r s))).
Proof.
  intros. unfold Num2Disp. destruct (Z.ltb_spec 99 v); try lia. reflexivity.
Qed.

Lemma Num2Disp_digits (v : Z) (s : State) :
  0 <= v <= 99 ->
  Num2Disp v s =
  Ok (tt, set_disp_U1 (nth (Z.to_nat (v mod 10)) DispNums 0)
            (set_disp_U2 (nth (Z.to_nat (v / 10)) DispNums 0) s)).
Proof.
  intros. unfold Num2Disp. destruct (Z.ltb_spec 99 v); try lia.
  assert (0 <= v / 10 < 10)
    by (split; [apply Z.div_pos | apply Z.div_lt_upper_bound]; lia).
  assert (0 <= v mod 10 < 10) by (apply Z.mod_pos_bound; lia).
  unfold bind, modify. cbv zeta.
  rewrite index_in_range by (cbn; lia). cbv beta iota.
  rewrite index_in_range by (cbn; lia). reflexivity.
Qed.

(** C8. A char above 99 makes [Num2Disp] show 'Er' with LED code 0x01, and an
    index outside 0..5 makes [CurrentDisplay] show 'Er' with LED code 0x03;
    neither glyph of 'Er' is a digit pattern.  A value in 0..99 makes
    [Num2Disp] show the patterns of its tens and units digits. *)
Theorem display_error_channel :
  (forall (v : Z) (s : State), is_char v -> ~ (0 <= v <= 99) ->
     exists s',
       Num2Disp v s = Ok (tt, s')
       /\ disp_U2 s' = DispChars.E /\ disp_U1 s' = DispChars.r
       /\ disp_LEDS s' = 0x01)
  /\ (forall (i : Z) (s : State), ~ (0 <= i <= 5) ->
        exists s',
          CurrentDisplay i s = Ok (tt, s')
          /\ disp_U2 s' = DispChars.E /\ disp_U1 s' = DispChars.r
          /\ disp_LEDS s' = 0x03)
  /\ ~ In DispChars.E DispNums /\ ~ In DispChars.r DispNums
  /\ (forall (v : Z) (s : State), 0 <= v <= 99 ->
        exists s',
          Num2Disp v s = Ok (tt, s')
          /\ disp_U2 s' = nth (Z.to_nat (v / 10)) DispNums 0
          /\ disp_U1 s' = nth (Z.to_nat (v mod 10)) DispNums 0
          /\ In (disp_U2 s') DispNums /\ In (disp_U1 s') DispNums
          /\ disp_LEDS s' = disp_LEDS s).
Proof.
  split; [| split; [| split; [| split]]].
  - intros v s Hc Hv. unfold is_char in Hc.
    rewrite Num2Disp_error by lia.
    eexists; split; [reflexivity | repeat split].
  - intros i s Hi. unfold CurrentDisplay.
    destruct (Z.eqb_spec i 0); [lia |]. destruct (Z.eqb_spec i 1); [lia |].
    destruct (Z.eqb_spec i 2); [lia |]. destruct (Z.eqb_spec i 3); [lia |].
    destruct (Z.eqb_spec i 4); [lia |]. destruct (Z.eqb_spec i 5); [lia |].
    eexists; split; [reflexivity | repeat split].
  - cbn. intuition discriminate.
  - cbn. intuition discriminate.
  - intros v s Hv. rewrite Num2Disp_digits by assumption.
    eexists; split; [reflexivity |]. cbn [disp_U2 disp_U1 disp_LEDS set_disp_U1 set_disp_U2].
    repeat split; apply digit_glyph.
    + assert (0 <= v / 10 < 10)
        by (split; [apply Z.div_pos | apply Z.div_lt_upper_bound]; lia). lia.
    + assert (0 <= v mod 10 < 10) by (apply Z.mod_pos_bound; lia). lia.
Qed.

Lemma display_error_channel_witness :
  (exists s',
     Num2Disp 100 power_on = Ok (tt, s')
     /\ disp_U2 s' = DispChars.E /\ disp_U1 s' = DispChars.r
     /\ disp_LEDS s' = 0x01)
  /\ (exists s',
        CurrentDisplay 6 power_on = Ok (tt, s')
        /\ disp_U2 s' = DispChars.E /\ disp_U1 s' = DispChars.r
        /\ disp_LEDS s' = 0x03)
  /\ (exists s',
        Num2Disp 42 power_on = Ok (tt, s')
        /\ disp_U2 s' = nth (Z.to_nat (42 / 10)) DispNums 0
        /\ disp_U1 s' = nth (Z.to_nat (42 mod 10)) DispNums 0
        /\ In (disp_U2 s') DispNums /\ In (disp_U1 s') DispNums
        /\ disp_LEDS s' = disp_LEDS power_on).
Proof.
  destruct display_error_channel as (H1 & H2 & _ & _ & H3).
  split; [| split].
  - apply (H1 100 power_on); unfold is_char; lia.
  - apply (H2 6 power_on); lia.
  - apply (H3 42 power_on); lia.
Defined.

(** ** Reasoning about computations in [M] *)

Lemma bind_Ok {A B} (m : M A) (k : A -> M B) (s s1 : State) (a : A) :
  m s = Ok (a, s1) -> bind m k s = k a s1.
Proof. intros H. unfold bind. rewrite H. reflexivity. Qed.

Lemma bind_inv {A B} (m : M A) (k : A -> M B) (s s2 : State) (b : B) :
  bind m k s = Ok (b, s2) ->
  exists a s1, m s = Ok (a, s1) /\ k a s1 = Ok (b, s2).
Proof.
  unfold bind. destruct (m s) as [[a s1] | |]; try discriminate.
  intros H. exists a, s1. split; [reflexivity | exact H].
Qed.

(** ** The millisecond period leaves the settings alone *)

Section Facts.

Variable env : nat -> Pins.
Variable fuel : nat.

Lemma Timer1_isr_TMR1IE (s : State) : TMR1IE (Timer1_isr s) = TMR1IE s.
Proof. unfold Timer1_isr. destruct (_ <? 59); reflexivity. Qed.

Lemma Timer0_isr_TMR1IE (s : State) : TMR1IE (Timer0_isr s) = TMR1IE s.
Proof.
  unfold Timer0_isr.
  destruct (_ =? 1); [| destruct (_ =? 2); [| destruct (_ =? 3)]]; reflexivity.
Qed.

(** Anything the two interrupt routines and the two pieces of hardware
    state leave alone is left alone by a whole period. *)
Lemma tick_frame {B} (f : State -> B) :
  (forall s, f (Timer1_isr s) = f s) ->
  (forall s, f (Timer0_isr s) = f s) ->
  (forall v s, f (set_TMR1IF v s) = f s) ->
  (forall n s, f (set_now n s) = f s) ->
  forall s, f (tick env s) = f s.
Proof.
  intros H1 H0 Hf Hn s. unfold tick. cbv zeta.
  rewrite Hn, H0.
  assert (Hhp : forall x, f (hp_secs_count_isr x) = f x).
  { intros x. unfold hp_secs_count_isr.
    destruct (TMR1IF x); [rewrite H1, Hf |]; reflexivity. }
  destruct (TMR1_overflow _);
    match goal with
    | |- context [ if ?c then _ else _ ] => destruct c
    end; rewrite ?Hhp, ?Hf; reflexivity.
Qed.

Lemma tick_TMR1IE (s : State) : TMR1IE (tick env s) = TMR1IE s.
Proof.
  apply tick_frame; intros;
    [apply Timer1_isr_TMR1IE | apply Timer0_isr_TMR1IE | reflexivity
    | reflexivity].
Qed.

Lemma Timer1_isr_dates (p : DateRef) (s : State) :
  load_date p (Timer1_isr s) = load_date p s.
Proof. unfold Timer1_isr. destruct p, (_ <? 59); reflexivity. Qed.

Lemma Timer0_isr_dates (p : DateRef) (s : State) :
  load_date p (Timer0_isr s) = load_date p s.
Proof.
  unfold Timer0_isr.
  destruct p;
    (destruct (_ =? 1); [| destruct (_ =? 2); [| destruct (_ =? 3)]]);
    reflexivity.
Qed.

Lemma tick_dates (p : DateRef) (s : State) :
  load_date p (tick env s) = load_date p s.
Proof.
  apply tick_frame; intros;
    [apply Timer1_isr_dates | apply Timer0_isr_dates | destruct p; reflexivity
    | destruct p; reflexivity].
Qed.

Lemma tick_now (s : State) : now (tick env s) = S (now s).
Proof. reflexivity. Qed.

Lemma ticks_TMR1IE (n : nat) (s : State) :
  TMR1IE (Nat.iter n (tick env) s) = TMR1IE s.
Proof.
  induction n as [| n IH]; [reflexivity |].
  rewrite Nat.iter_succ, tick_TMR1IE. exact IH.
Qed.

Lemma ticks_dates (p : DateRef) (n : nat) (s : State) :
  load_date p (Nat.iter n (tick env) s) = load_date p s.
Proof.
  induction n as [| n IH]; [reflexivity |].
  rewrite Nat.iter_succ, tick_dates. exact IH.
Qed.

Lemma ticks_now (n : nat) (s : State) :
  now (Nat.iter n (tick env) s) = (now s + n)%nat.
Proof.
  induction n as [| n IH]; [cbn; lia |].
  rewrite Nat.iter_succ, tick_now, IH. lia.
Qed.

(** ** The debounce wait *)

Lemma Timer0_isr_ms_count1 (s : State) :
  ms_count1 (Timer0_isr s) = wrap16 (ms_count1 s + 1).
Proof.
  unfold Timer0_isr.
  destruct (_ =? 1); [| destruct (_ =? 2); [| destruct (_ =? 3)]]; reflexivity.
Qed.

Lemma ms_count1_set_now (n : nat) (s : State) :
  ms_count1 (set_now n s) = ms_count1 s.
Proof. reflexivity. Qed.

Lemma tick_ms_count1 (s : State) :
  ms_count1 (tick env s) = wrap16 (ms_count1 s + 1).
Proof.
  unfold tick. cbv zeta. rewrite ms_count1_set_now.
  rewrite Timer0_isr_ms_count1. f_equal. f_equal.
  assert (Hhp : forall x, ms_count1 (hp_secs_count_isr x) = ms_count1 x).
  { intros x. unfold hp_secs_count_isr, Timer1_isr.
    destruct (TMR1IF x); [destruct (_ <? 59) |]; reflexivity. }
  destruct (TMR1_overflow _);
    match goal with
    | |- context [ if ?c then _ else _ ] => destruct c
    end; rewrite ?Hhp; reflexivity.
Qed.

Lemma wait_debounce_runs (k n : nat) (s : State) :
  (k <= n)%nat ->
  ms_count1 s = DEBOUNCE_DELAY - Z.of_nat k -> 0 <= ms_count1 s ->
  wait_debounce env n s = Ok (tt, Nat.iter k (tick env) s).
Proof.
  revert n s. induction k as [| k IH]; intros n s Hn Hc Hpos.
  - assert (E : (ms_count1 s <? DEBOUNCE_DELAY) = false)
      by (apply Z.ltb_ge; lia).
    destruct n; cbn [wait_debounce]; rewrite E; reflexivity.
  - assert (E : (ms_count1 s <? DEBOUNCE_DELAY) = true)
      by (apply Z.ltb_lt; lia).
    destruct n as [| n]; [lia |]. cbn [wait_debounce]. rewrite E.
    rewrite Nat.iter_succ_r. unfold DEBOUNCE_DELAY in *.
    apply IH; [lia | |]; rewrite tick_ms_count1, wrap16_small; lia.
Qed.

Hypothesis enough_fuel : (Z.to_nat DEBOUNCE_DELAY <= fuel)%nat.

Lemma wait_debounce_total (s : State) :
  wait_debounce env fuel (set_ms_count1 0 s) = Ok (tt, debounced env s).
Proof.
  apply wait_debounce_runs; [exact enough_fuel | reflexivity | cbn; lia].
Qed.

(** What the two debounce routines return.  [PB2pressed] samples RB0 before
    and after the wait; [PB1pressed] samples RJ5 before and RJ0 after. *)
Lemma PB2pressed_eval (s : State) :
  PB2pressed env fuel s =
  if RB0 (env (now s)) then Ok (0, s)
  else Ok ((if RB0 (env (now s + Z.to_nat DEBOUNCE_DELAY)%nat) then 0 else 1),
           debounced env s).
Proof.
  unfold PB2pressed, bind, pin. destruct (RB0 (env (now s))); [reflexivity |].
  cbn [negb modify]. rewrite wait_debounce_total.
  unfold debounced at 1. rewrite ticks_now. cbn [now set_ms_count1].
  destruct (RB0 _); reflexivity.
Qed.

Lemma PB1pressed_eval (s : State) :
  PB1pressed env fuel s =
  if RJ5 (env (now s)) then Ok (0, s)
  else Ok ((if RJ0 (env (now s + Z.to_nat DEBOUNCE_DELAY)%nat) then 0 else 1),
           debounced env s).
Proof.
  unfold PB1pressed, bind, pin. destruct (RJ5 (env (now s))); [reflexivity |].
  cbn [negb modify]. rewrite wait_debounce_total.
  unfold debounced at 1. rewrite ticks_now. cbn [now set_ms_count1].
  destruct (RJ0 _); reflexivity.
Qed.

Lemma debounced_dates (p : DateRef) (s : State) :
  load_date p (debounced env s) = load_date p s.
Proof. unfold debounced. rewrite ticks_dates. destruct p; reflexivity. Qed.

(** ** Evaluating the editors *)

Lemma bind_rd {A B} (f : State -> A) (k : A -> M B) (s : State) :
  bind (rd f) k s = k (f s) s.
Proof. reflexivity. Qed.

Lemma bind_skip {B} (m : M unit) (k : unit -> M B) (s : State) :
  bind (when false m) k s = k tt s.
Proof. reflexivity. Qed.

(** A guard whose button is not down is false and takes no time. *)
Lemma PB2_guard_up (b : M bool) (s : State) :
  RB0 (env (now s)) = true ->
  and_then (PB2pressed env fuel) b s = Ok (false, s).
Proof.
  intros H. unfold and_then. rewrite (bind_Ok _ _ s s 0); [reflexivity |].
  rewrite PB2pressed_eval, H. reflexivity.
Qed.

Lemma PB1_guard_up (b : M bool) (s : State) :
  RJ5 (env (now s)) = true ->
  and_then (PB1pressed env fuel) b s = Ok (false, s).
Proof.
  intros H. unfold and_then. rewrite (bind_Ok _ _ s s 0); [reflexivity |].
  rewrite PB1pressed_eval, H. reflexivity.
Qed.

(** A guard whose button is reported down costs the debounce wait and then
    evaluates its right operand. *)
Lemma PB2_guard_down (b : M bool) (s : State) :
  RB0 (env (now s)) = false ->
  RB0 (env (now s + Z.to_nat DEBOUNCE_DELAY)%nat) = false ->
  and_then (PB2pressed env fuel) b s = b (debounced env s).
Proof.
  intros H H'. unfold and_then.
  rewrite (bind_Ok _ _ s (debounced env s) 1); [reflexivity |].
  rewrite PB2pressed_eval, H, H'. reflexivity.
Qed.

Lemma PB1_guard_down (b : M bool) (s : State) :
  RJ5 (env (now s)) = false ->
  RJ0 (env (now s + Z.to_nat DEBOUNCE_DELAY)%nat) = false ->
  and_then (PB1pressed env fuel) b s = b (debounced env s).
Proof.
  intros H H'. unfold and_then.
  rewrite (bind_Ok _ _ s (debounced env s) 1); [reflexivity |].
  rewrite PB1pressed_eval, H, H'. reflexivity.
Qed.

Lemma day_below_eval (dd : DateRef) (tbl : list Z) (s : State) :
  0 <= month (load_date dd s) < Z.of_nat (length tbl) ->
  day_below dd tbl s =
  Ok (day (load_date dd s) <? nth (Z.to_nat (month (load_date dd s))) tbl 0, s).
Proof.
  intros H. unfold day_below. rewrite bind_rd.
  rewrite (bind_Ok _ _ _ _ _ (index_in_range _ _ _ H)). reflexivity.
Qed.

Lemma day_equals_eval (dd : DateRef) (tbl : list Z) (s : State) :
  0 <= month (load_date dd s) < Z.of_nat (length tbl) ->
  day_equals dd tbl s =
  Ok (day (load_date dd s) =? nth (Z.to_nat (month (load_date dd s))) tbl 0, s).
Proof.
  intros H. unfold day_equals. rewrite bind_rd.
  rewrite (bind_Ok _ _ _ _ _ (index_in_range _ _ _ H)). reflexivity.
Qed.

Lemma day_wrap_back_eval (dd : DateRef) (s : State) :
  0 <= month (MainDate s) <= 12 ->
  day_wrap_back dd s =
  Ok (tt, store_date dd
            (set_day (nth (Z.to_nat (month (MainDate s))) DaysInMonth 0)
                     (load_date dd s)) s).
Proof.
  intros H. unfold day_wrap_back. rewrite bind_rd.
  assert (H' : 0 <= month (MainDate s) < Z.of_nat (length DaysInMonth))
    by (clear - H; cbn; lia).
  rewrite (bind_Ok _ _ _ _ _ (index_in_range _ _ _ H')). reflexivity.
Qed.

Lemma load_store_date (dd : DateRef) (d : DATE) (s : State) :
  load_date dd (store_date dd d s) = d.
Proof. destruct dd; reflexivity. Qed.

Lemma repeat_delayed_dates (p : DateRef) (s : State) :
  load_date p (repeat_delayed env s) = load_date p s.
Proof. apply ticks_dates. Qed.

Lemma upd_then_delay {B} (dd : DateRef) (f : DATE -> DATE)
    (k : unit -> M B) (s : State) :
  bind (when true (upd_date dd f ;; Delay10KTCYx env KEY_REPEAT_DELAY)) k s =
  k tt (repeat_delayed env (store_date dd (f (load_date dd s)) s)).
Proof.
  unfold when, upd_date, Delay10KTCYx, repeat_delayed, bind, modify.
  reflexivity.
Qed.

Lemma delay_eval (s : State) :
  Delay10KTCYx env KEY_REPEAT_DELAY s = Ok (tt, repeat_delayed env s).
Proof. unfold Delay10KTCYx, repeat_delayed, modify. reflexivity. Qed.

Lemma PB2_guard_below (dd : DateRef) (tbl : list Z) (s : State) :
  (forall t, RB0 (env t) = false) ->
  0 <= month (load_date dd s) < Z.of_nat (length tbl) ->
  and_then (PB2pressed env fuel) (day_below dd tbl) s =
  Ok (day (load_date dd s) <? nth (Z.to_nat (month (load_date dd s))) tbl 0,
      debounced env s).
Proof.
  intros Hdown Hm. rewrite PB2_guard_down by apply Hdown.
  rewrite day_below_eval by (rewrite debounced_dates; exact Hm).
  rewrite debounced_dates. reflexivity.
Qed.

Lemma PB2_guard_equals (dd : DateRef) (tbl : list Z) (s : State) :
  (forall t, RB0 (env t) = false) ->
  0 <= month (load_date dd s) < Z.of_nat (length tbl) ->
  and_then (PB2pressed env fuel) (day_equals dd tbl) s =
  Ok (day (load_date dd s) =? nth (Z.to_nat (month (load_date dd s))) tbl 0,
      debounced env s).
Proof.
  intros Hdown Hm. rewrite PB2_guard_down by apply Hdown.
  rewrite day_equals_eval by (rewrite debounced_dates; exact Hm).
  rewrite debounced_dates. reflexivity.
Qed.

Lemma day_stored_date (dd : DateRef) (v : Z) (s : State) :
  load_date dd (day_stored env dd v s) = set_day v (load_date dd s).
Proof.
  unfold day_stored. rewrite repeat_delayed_dates. apply load_store_date.
Qed.

Lemma store_day_then_delay {B} (dd : DateRef) (v : Z) (k : unit -> M B)
    (s : State) :
  bind (when true (upd_date dd (set_day v) ;;
                   Delay10KTCYx env KEY_REPEAT_DELAY)) k s =
  k tt (day_stored env dd v s).
Proof.
  unfold when, upd_date, Delay10KTCYx, day_stored,
    repeat_delayed, bind, modify.
  reflexivity.
Qed.

(** ** The day editor *)

(** C10. Whatever [DATE] the day editor is given, and whether its year is a
    leap year or not: when the day is 1, PB2 is up and PB1 is reported down,
    the day becomes [DaysInMonth[MainDate.month]], the non-leap length of
    the month the clock of record is in; month and year of the edited date
    do not enter. *)
Theorem SetDay_wraps_back_by_MainDate (dd : DateRef) (s : State) :
  (forall t, RB0 (env t) = true) ->
  (forall t, RJ5 (env t) = false /\ RJ0 (env t) = false) ->
  day (load_date dd s) = 1 ->
  0 <= month (MainDate s) <= 12 ->
  exists s',
    SetDay env fuel dd s = Ok (tt, s')
    /\ day (load_date dd s') =
         nth (Z.to_nat (month (MainDate s))) DaysInMonth 0
    /\ month (load_date dd s') = month (load_date dd s)
    /\ year_long (load_date dd s') = year_long (load_date dd s).
Proof.
  intros Hup Hdown Hday Hm.
  assert (H1 : forall (b : M bool) x,
             and_then (PB1pressed env fuel) b x = b (debounced env x))
    by (intros; apply PB1_guard_down; apply Hdown).
  assert (Hm2 : 0 <= month (MainDate (debounced env (debounced env s))) <= 12)
    by (rewrite !(debounced_dates ref_MainDate); exact Hm).
  unfold SetDay. rewrite bind_rd.
  destruct (CalcLeapYear _ =? 1).
  all: rewrite (bind_Ok _ _ _ _ _ (PB2_guard_up _ _ (Hup _))), bind_skip.
  all: rewrite (bind_Ok _ _ _ _ _ (PB2_guard_up _ _ (Hup _))), bind_skip.
  all: unfold bind at 1; rewrite H1; unfold rd at 1.
  all: rewrite debounced_dates, Hday; change (1 <? 1) with false.
  all: rewrite bind_skip.
  all: unfold bind at 1; rewrite H1; unfold rd at 1.
  all: rewrite !debounced_dates, Hday; change (1 =? 1) with true.
  all: unfold when.
  all: rewrite (bind_Ok _ _ _ _ _ (day_wrap_back_eval dd _ Hm2)), delay_eval.
  all: eexists; split; [reflexivity |].
  all: rewrite repeat_delayed_dates, load_store_date.
  all: rewrite !(debounced_dates ref_MainDate), !debounced_dates.
  all: repeat split.
Qed.

(** The last three statements of either branch of [SetDay] when PB1 is up:
    the wrap to 1 happens if its guard [c] held, the two PB1 statements are
    skipped. *)
Lemma SetDay_rest_PB1_up (dd : DateRef) (c : bool) (s : State) :
  (forall t, RJ5 (env t) = true) ->
  (when c (upd_date dd (set_day 1) ;; Delay10KTCYx env KEY_REPEAT_DELAY) ;;
   c1 <- and_then (PB1pressed env fuel)
           (rd (fun s0 => 1 <? day (load_date dd s0))) ;;
   when c1 (upd_date dd (fun d => set_day (wrap8 (day d - 1)) d) ;;
            Delay10KTCYx env KEY_REPEAT_DELAY) ;;
   c2 <- and_then (PB1pressed env fuel)
           (rd (fun s0 => day (load_date dd s0) =? 1)) ;;
   when c2 (day_wrap_back dd ;; Delay10KTCYx env KEY_REPEAT_DELAY)) s =
  Ok (tt, if c then day_stored env dd 1 s else s).
Proof.
  intros Hup. destruct c.
  - rewrite store_day_then_delay.
    rewrite (bind_Ok _ _ _ _ _ (PB1_guard_up _ _ (Hup _))), bind_skip.
    rewrite (bind_Ok _ _ _ _ _ (PB1_guard_up _ _ (Hup _))). reflexivity.
  - rewrite bind_skip.
    rewrite (bind_Ok _ _ _ _ _ (PB1_guard_up _ _ (Hup _))), bind_skip.
    rewrite (bind_Ok _ _ _ _ _ (PB1_guard_up _ _ (Hup _))). reflexivity.
Qed.

(** In a year that is not a leap year, with PB2 reported down and PB1 up,
    the day editor advances the day while it is below the leap-year length
    of the edited month, and then returns it to 1 if it equals the non-leap
    length. *)
Lemma SetDay_common_year_up (dd : DateRef) (s : State) :
  (forall t, RB0 (env t) = false) ->
  (forall t, RJ5 (env t) = true) ->
  CalcLeapYear (year_long (load_date dd s)) = 0 ->
  0 <= month (load_date dd s) <= 12 ->
  exists s',
    SetDay env fuel dd s = Ok (tt, s')
    /\ day (load_date dd s') =
         (let m := Z.to_nat (month (load_date dd s)) in
          let d1 := if day (load_date dd s) <? nth m DaysInMonthLeap 0
                    then wrap8 (day (load_date dd s) + 1)
                    else day (load_date dd s) in
          if d1 =? nth m DaysInMonth 0 then 1 else d1).
Proof.
  intros Hdown Hup Hleap Hm. cbv zeta.
  assert (HmL : 0 <= month (load_date dd s) < Z.of_nat (length DaysInMonthLeap))
    by (cbn; lia).
  assert (HmN : 0 <= month (load_date dd s) < Z.of_nat (length DaysInMonth))
    by (cbn; lia).
  unfold SetDay. rewrite bind_rd, Hleap. change (0 =? 1) with false. cbv iota.
  rewrite (bind_Ok _ _ _ _ _ (PB2_guard_below dd _ s Hdown HmL)).
  destruct (day (load_date dd s) <? _).
  - rewrite upd_then_delay. cbv beta.
    set (s2 := repeat_delayed env _).
    assert (E2 : load_date dd s2 =
                 set_day (wrap8 (day (load_date dd s) + 1)) (load_date dd s)).
    { subst s2. rewrite repeat_delayed_dates, load_store_date, debounced_dates.
      reflexivity. }
    assert (HmN2 : 0 <= month (load_date dd s2) < Z.of_nat (length DaysInMonth))
      by (rewrite E2; exact HmN).
    rewrite (bind_Ok _ _ _ _ _ (PB2_guard_equals dd _ s2 Hdown HmN2)).
    rewrite E2. cbn [day month set_day].
    rewrite SetDay_rest_PB1_up by exact Hup.
    eexists. split; [reflexivity |].
    destruct (_ =? _).
    + rewrite day_stored_date. reflexivity.
    + rewrite debounced_dates, E2. reflexivity.
  - rewrite bind_skip.
    assert (HmN2 : 0 <= month (load_date dd (debounced env s))
                   < Z.of_nat (length DaysInMonth))
      by (rewrite debounced_dates; exact HmN).
    rewrite (bind_Ok _ _ _ _ _ (PB2_guard_equals dd _ _ Hdown HmN2)).
    rewrite debounced_dates.
    rewrite SetDay_rest_PB1_up by exact Hup.
    eexists. split; [reflexivity |].
    destruct (_ =? _).
    + rewrite day_stored_date. reflexivity.
    + rewrite !debounced_dates. reflexivity.
Qed.

(** C9. In a year that is not a leap year [CalcDate] makes one comparison,
    with the non-leap table [DaysInMonth], to choose between the next day
    and day 1: no second table is read.  The day editor is the routine that
    mixes the tables: its non-leap branch tests "below" against
    [DaysInMonthLeap] and "equal" against [DaysInMonth]. *)
Theorem day_tables_in_common_years (dd : DateRef) (s : State) :
  (CalcLeapYear (year_long (MainDate s)) = 0 ->
   0 <= month (MainDate s) <= 12 ->
   exists s',
     CalcDate s = Ok (tt, s')
     /\ day (MainDate s') =
          (if day (MainDate s)
              <? nth (Z.to_nat (month (MainDate s))) DaysInMonth 0
           then wrap8 (day (MainDate s) + 1) else 1))
  /\ ((forall t, RB0 (env t) = false) ->
      (forall t, RJ5 (env t) = true) ->
      CalcLeapYear (year_long (load_date dd s)) = 0 ->
      0 <= month (load_date dd s) <= 12 ->
      exists s',
        SetDay env fuel dd s = Ok (tt, s')
        /\ day (load_date dd s') =
             (let m := Z.to_nat (month (load_date dd s)) in
              let d1 := if day (load_date dd s) <? nth m DaysInMonthLeap 0
                        then wrap8 (day (load_date dd s) + 1)
                        else day (load_date dd s) in
              if d1 =? nth m DaysInMonth 0 then 1 else d1)).
Proof.
  split.
  - intros L Hm. destruct (CalcDate_common_year s L Hm) as (s' & H & Hd & _).
    exists s'. split; assumption.
  - apply SetDay_common_year_up.
Qed.

End Facts.

Lemma day_tables_in_common_years_witness :
  (exists s',
     CalcDate end_of_feb_2017 = Ok (tt, s') /\ day (MainDate s') = 1)
  /\ (exists s',
        SetDay PB2_down 25 ref_MainDate end_of_feb_2017 = Ok (tt, s')
        /\ day (MainDate s') = 29).
Proof.
  assert (F : (Z.to_nat DEBOUNCE_DELAY <= 25)%nat) by (cbn; lia).
  destruct (day_tables_in_common_years PB2_down 25 F ref_MainDate
              end_of_feb_2017) as [H1 H2].
  split.
  - apply H1; [reflexivity | cbn; lia].
  - apply H2; [reflexivity | reflexivity | reflexivity | cbn; lia].
Defined.

(** C9, the claim as stated, fails for [CalcDate]: after 28 February 2017,
    which is below the leap-year length 29, the date is 1 March. *)
Lemma CalcDate_28_Feb_2017 : ~ CalcDate_tests_leap_length.
Proof.
  intros H.
  assert (L : CalcLeapYear (year_long (MainDate end_of_feb_2017)) = 0)
    by reflexivity.
  assert (Hm : 0 <= month (MainDate end_of_feb_2017) <= 12) by (cbn; lia).
  destruct (CalcDate_common_year end_of_feb_2017 L Hm) as (s' & E & Hd & _).
  specialize (H end_of_feb_2017 s' L Hm).
  rewrite Hd in H. cbn in H. specialize (H eq_refl E). discriminate H.
Qed.

Lemma SetDay_wraps_back_by_MainDate_witness :
  exists s',
    SetDay PB1_down 25 ref_Alarm2Date alarm2_on_1_feb = Ok (tt, s')
    /\ day (Alarm2Date s') = 31
    /\ month (Alarm2Date s') = 2
    /\ year_long (Alarm2Date s') = 2016.
Proof.
  assert (F : (Z.to_nat DEBOUNCE_DELAY <= 25)%nat) by (cbn; lia).
  apply (SetDay_wraps_back_by_MainDate PB1_down 25 F ref_Alarm2Date
           alarm2_on_1_feb).
  - reflexivity.
  - intros; split; reflexivity.
  - reflexivity.
  - cbn; lia.
Defined.

(** ** The debounce primitive on concrete inputs *)

(** C5. [PB1pressed] takes its first sample from RJ5 and its second from
    RJ0.  A pulse on RJ5 that is over long before the debounce interval ends
    is reported as a press when RJ0 is low, and a button held down through
    the whole interval is not reported when RJ0 is high.  [PB2pressed],
    which samples RB0 twice, rejects the same short pulse. *)
Theorem PB1pressed_second_sample :
  (RJ5 (PB1_glitch 0) = false
   /\ (forall t, (0 < t)%nat -> RJ5 (PB1_glitch t) = true)
   /\ exists s',
        PB1pressed PB1_glitch 25 power_on = Ok (1, s') /\ now s' = 25%nat)
  /\ ((forall t, RJ5 (PB1_held_RJ0_high t) = false)
      /\ exists s',
           PB1pressed PB1_held_RJ0_high 25 power_on = Ok (0, s')
           /\ now s' = 25%nat)
  /\ (RB0 (PB2_glitch 0) = false
      /\ exists s',
           PB2pressed PB2_glitch 25 power_on = Ok (0, s') /\ now s' = 25%nat).
Proof.
  assert (F : (Z.to_nat DEBOUNCE_DELAY <= 25)%nat) by (cbn; lia).
  assert (N : forall env, now (debounced env power_on) = 25%nat)
    by (intros; unfold debounced; rewrite ticks_now; reflexivity).
  split; [| split].
  - split; [reflexivity | split].
    + intros [| t] Ht; [lia | reflexivity].
    + rewrite (PB1pressed_eval _ _ F). cbn.
      eexists; split; [reflexivity | apply N].
  - split; [reflexivity |].
    rewrite (PB1pressed_eval _ _ F). cbn.
    eexists; split; [reflexivity | apply N].
  - split; [reflexivity |].
    rewrite (PB2pressed_eval _ _ F). cbn.
    eexists; split; [reflexivity | apply N].
Qed.

(** ** The settings machine always reaches its next loop head *)

Section Settings.

Variable env : nat -> Pins.
Variable fuel : nat.
Hypothesis enough_fuel : (Z.to_nat DEBOUNCE_DELAY <= fuel)%nat.

Lemma wrap8_char (x : Z) : is_char (wrap8 x).
Proof.
  unfold is_char, wrap8. pose proof (Z.mod_pos_bound x 256). lia.
Qed.

Lemma wf_same (s s' : State) :
  (forall p, load_time p s' = load_time p s) ->
  (forall p, load_date p s' = load_date p s) ->
  wf s -> wf s'.
Proof.
  intros Ht Hd [Wt Wd]. split; intros p; [rewrite Ht | rewrite Hd]; auto.
Qed.

Lemma wf_store_time (p : TimeRef) (t : TIME) (s : State) :
  wf s -> wf_time t -> wf (store_time p t s).
Proof.
  intros [Wt Wd] Ht. split; intros q.
  - specialize (Wt q). destruct p, q; cbn in *; assumption.
  - specialize (Wd q). destruct p, q; cbn in *; assumption.
Qed.

Lemma wf_store_date (p : DateRef) (d : DATE) (s : State) :
  wf s -> wf_date d -> wf (store_date p d s).
Proof.
  intros [Wt Wd] Hd. split; intros q.
  - specialize (Wt q). destruct p, q; cbn in *; assumption.
  - specialize (Wd q). destruct p, q; cbn in *; assumption.
Qed.

Lemma Timer0_isr_times (p : TimeRef) (s : State) :
  load_time p (Timer0_isr s) = load_time p s.
Proof.
  unfold Timer0_isr.
  destruct p;
    (destruct (_ =? 1); [| destruct (_ =? 2); [| destruct (_ =? 3)]]);
    reflexivity.
Qed.

Lemma wf_Timer1_isr (s : State) : wf s -> wf (Timer1_isr s).
Proof.
  intros [Wt Wd]. split; intros p.
  - specialize (Wt p).
    unfold Timer1_isr. destruct p, (_ <? 59); cbn in Wt |- *;
      try assumption;
      destruct Wt as (? & ? & ?); (split; [| split]); cbn; try assumption;
      try apply wrap8_char; unfold is_char; lia.
  - rewrite Timer1_isr_dates. apply Wd.
Qed.

Lemma wf_tick (s : State) : wf s -> wf (tick env s).
Proof.
  intros W. unfold tick. cbv zeta.
  assert (Hnow : forall n x, wf x -> wf (set_now n x))
    by (intros n x; apply wf_same; intros p; destruct p; reflexivity).
  assert (Hif : forall v x, wf x -> wf (set_TMR1IF v x))
    by (intros v x; apply wf_same; intros p; destruct p; reflexivity).
  assert (H0 : forall x, wf x -> wf (Timer0_isr x))
    by (intros x; apply wf_same; intros p;
        [apply Timer0_isr_times | apply Timer0_isr_dates]).
  assert (Hhp : forall x, wf x -> wf (hp_secs_count_isr x)).
  { intros x Wx. unfold hp_secs_count_isr.
    destruct (TMR1IF x); [apply wf_Timer1_isr, Hif |]; exact Wx. }
  apply Hnow, H0.
  destruct (TMR1_overflow _);
    match goal with
    | |- context [ if ?c then _ else _ ] => destruct c
    end; auto.
Qed.

Lemma wf_ticks (n : nat) (s : State) : wf s -> wf (Nat.iter n (tick env) s).
Proof.
  intros W. induction n as [| n IH]; [exact W |].
  rewrite Nat.iter_succ. apply wf_tick, IH.
Qed.

Lemma safe_ret {A} (a : A) : safe (ret a).
Proof. intros s W. exists a, s. split; [reflexivity | exact W]. Qed.

Lemma safe_rd {A} (f : State -> A) : safe (rd f).
Proof. intros s W. exists (f s), s. split; [reflexivity | exact W]. Qed.

Lemma safe_bind {A B} (m : M A) (k : A -> M B) :
  safe m -> (forall a, safe (k a)) -> safe (bind m k).
Proof.
  intros Hm Hk s W. destruct (Hm s W) as (a & s1 & E1 & W1).
  destruct (Hk a s1 W1) as (b & s2 & E2 & W2).
  exists b, s2. split; [| exact W2]. rewrite (bind_Ok _ _ _ _ _ E1). exact E2.
Qed.

Lemma safe_modify (f : State -> State) :
  (forall s, wf s -> wf (f s)) -> safe (modify f).
Proof. intros Hf s W. exists tt, (f s). split; [reflexivity | auto]. Qed.

Lemma safe_when (c : bool) (m : M unit) : safe m -> safe (when c m).
Proof. intros Hm. destruct c; [exact Hm | apply safe_ret]. Qed.

Lemma safe_and_then (a : M Z) (b : M bool) :
  safe a -> safe b -> safe (and_then a b).
Proof.
  intros Ha Hb. apply safe_bind; [exact Ha |].
  intros x. destruct (truthy x); [exact Hb | apply safe_ret].
Qed.

Lemma safe_index (tbl : list Z) (i : Z) :
  0 <= i < Z.of_nat (length tbl) -> safe (index tbl i).
Proof.
  intros Hi s W. exists (nth (Z.to_nat i) tbl 0), s.
  split; [apply index_in_range; exact Hi | exact W].
Qed.

Lemma safe_pin (f : Pins -> bool) : safe (pin env f).
Proof.
  intros s W. exists (f (env (now s))), s. split; [reflexivity | exact W].
Qed.

Lemma safe_Switches : safe (Switches env).
Proof. intros s W. eexists _, s. split; [reflexivity | exact W]. Qed.

Lemma safe_Delay10KTCYx (n : Z) : safe (Delay10KTCYx env n).
Proof. apply safe_modify. intros s. apply wf_ticks. Qed.

Lemma wf_debounced (s : State) : wf s -> wf (debounced env s).
Proof.
  intros W. unfold debounced. apply wf_ticks.
  revert W. apply wf_same; intros p; destruct p; reflexivity.
Qed.

Lemma safe_PB1pressed : safe (PB1pressed env fuel).
Proof.
  intros s W. rewrite (PB1pressed_eval env fuel enough_fuel).
  destruct (RJ5 _); eexists _, _; (split; [reflexivity |]);
    [exact W | apply wf_debounced, W].
Qed.

Lemma safe_PB2pressed : safe (PB2pressed env fuel).
Proof.
  intros s W. rewrite (PB2pressed_eval env fuel enough_fuel).
  destruct (RB0 _); eexists _, _; (split; [reflexivity |]);
    [exact W | apply wf_debounced, W].
Qed.

Lemma safe_upd_time (p : TimeRef) (f : TIME -> TIME) :
  (forall t, wf_time t -> wf_time (f t)) -> safe (upd_time p f).
Proof.
  intros Hf. apply safe_modify. intros s W.
  apply wf_store_time; [exact W | apply Hf, W].
Qed.

Lemma safe_upd_date (p : DateRef) (f : DATE -> DATE) :
  (forall d, wf_date d -> wf_date (f d)) -> safe (upd_date p f).
Proof.
  intros Hf. apply safe_modify. intros s W.
  apply wf_store_date; [exact W | apply Hf, W].
Qed.

(** A field update keeps a time or a date well formed when the value
    stored is a char. *)
Ltac wf_field :=
  let d := fresh "d" in
  intros d (? & ? & ?);
  unfold next_year, prev_year; (split; [| split]); cbn;
  try assumption; try apply wrap8_char; try (unfold is_char; lia).

Ltac safe :=
  repeat match goal with
  | |- safe (bind _ _) => apply safe_bind; [| intros ? ]
  | |- safe (ret _) => apply safe_ret
  | |- safe (rd _) => apply safe_rd
  | |- safe (index _ _) => apply safe_index; cbn; lia
  | |- safe (pin _ _) => apply safe_pin
  | |- safe (Switches _) => apply safe_Switches
  | |- safe (Delay10KTCYx _ _) => apply safe_Delay10KTCYx
  | |- safe (upd_time _ _) => apply safe_upd_time; wf_field
  | |- safe (upd_date _ _) => apply safe_upd_date; wf_field
  | |- safe (when _ _) => apply safe_when
  | |- safe (and_then _ _) => apply safe_and_then
  | |- safe (modify _) =>
      apply safe_modify; intros ?; apply wf_same; intros p; destruct p;
      reflexivity
  | |- safe (if ?c then _ else _) => destruct c
  | |- safe (match ?f with _ => _ end) => destruct f
  | |- safe _ => solve [auto 2]
  end.

Lemma safe_SetTime (f : TimeField) (p : TimeRef) : safe (SetTime env fuel f p).
Proof.
  pose proof safe_PB1pressed. pose proof safe_PB2pressed.
  destruct f; unfold SetTime, SetSecs, SetMins, SetHrs; safe.
Qed.

Lemma safe_SetYear (p : DateRef) : safe (SetYear env fuel p).
Proof.
  pose proof safe_PB1pressed. pose proof safe_PB2pressed.
  unfold SetYear. safe.
Qed.

(** A guarded statement of an editor, followed by the rest of the editor or
    standing last: the body runs only in states where the guard held. *)
Lemma and_then_rd (btn : M Z) (f : State -> bool) (s s1 : State) (x : Z) :
  btn s = Ok (x, s1) ->
  and_then btn (rd f) s = Ok (truthy x && f s1, s1).
Proof.
  intros E. unfold and_then. rewrite (bind_Ok _ _ _ _ _ E).
  destruct (truthy x); reflexivity.
Qed.

Lemma safe_guarded (btn : M Z) (f : State -> bool) (body rest : M unit) :
  safe btn ->
  (forall s, wf s -> f s = true -> exists s', body s = Ok (tt, s') /\ wf s') ->
  safe rest ->
  safe (c <- and_then btn (rd f) ;; when c body ;; rest).
Proof.
  intros Hb Hbody Hrest s W. destruct (Hb s W) as (x & s1 & E & W1).
  rewrite (bind_Ok _ _ _ _ _ (and_then_rd btn f s s1 x E)).
  destruct (truthy x && f s1) eqn:C.
  - apply andb_true_iff in C. destruct C as [_ C].
    destruct (Hbody s1 W1 C) as (s2 & E2 & W2).
    unfold when. rewrite (bind_Ok _ _ _ _ _ E2). apply Hrest, W2.
  - rewrite bind_skip. apply Hrest, W1.
Qed.

Lemma safe_guarded_last (btn : M Z) (f : State -> bool) (body : M unit) :
  safe btn ->
  (forall s, wf s -> f s = true -> exists s', body s = Ok (tt, s') /\ wf s') ->
  safe (c <- and_then btn (rd f) ;; when c body).
Proof.
  intros Hb Hbody s W. destruct (Hb s W) as (x & s1 & E & W1).
  rewrite (bind_Ok _ _ _ _ _ (and_then_rd btn f s s1 x E)).
  destruct (truthy x && f s1) eqn:C.
  - apply andb_true_iff in C. destruct C as [_ C].
    destruct (Hbody s1 W1 C) as (s2 & E2 & W2).
    exists tt, s2. split; assumption.
  - exists tt, s1. split; [reflexivity | exact W1].
Qed.

Lemma month_step_safe (dm : DateRef) (g : DATE -> DATE) (s : State) :
  wf s -> wf_date (g (load_date dm s)) ->
  exists s',
    (upd_date dm g ;; Delay10KTCYx env KEY_REPEAT_DELAY) s = Ok (tt, s')
    /\ wf s'.
Proof.
  intros W Hg. eexists. split; [reflexivity |].
  apply wf_ticks, wf_store_date; assumption.
Qed.

Lemma safe_SetMonth (p : DateRef) : safe (SetMonth env fuel p).
Proof.
  unfold SetMonth.
  apply safe_guarded; [apply safe_PB2pressed | | ].
  { intros s W G. apply month_step_safe; [exact W |].
    destruct W as [_ Wd]. destruct (Wd p) as (? & ? & ?).
    apply Z.ltb_lt in G. (split; [| split]); cbn; try assumption.
    rewrite wrap8_small by lia. lia. }
  apply safe_guarded; [apply safe_PB2pressed | | ].
  { intros s W G. apply month_step_safe; [exact W |].
    destruct W as [_ Wd]. destruct (Wd p) as (? & ? & ?).
    (split; [| split]); cbn; try assumption. lia. }
  apply safe_guarded; [apply safe_PB1pressed | | ].
  { intros s W G. apply month_step_safe; [exact W |].
    destruct W as [_ Wd]. destruct (Wd p) as (? & ? & ?).
    apply Z.ltb_lt in G. (split; [| split]); cbn; try assumption.
    rewrite wrap8_small by lia. lia. }
  apply safe_guarded_last; [apply safe_PB1pressed |].
  intros s W G. apply month_step_safe; [exact W |].
  destruct W as [_ Wd]. destruct (Wd p) as (? & ? & ?).
  (split; [| split]); cbn; try assumption. lia.
Qed.

Lemma safe_day_below (dd : DateRef) (tbl : list Z) :
  length tbl = 13%nat -> safe (day_below dd tbl).
Proof.
  intros L s W. eexists _, s. split; [| exact W].
  apply day_below_eval. rewrite L. destruct W as [_ Wd].
  destruct (Wd dd) as (_ & ? & _). lia.
Qed.

Lemma safe_day_equals (dd : DateRef) (tbl : list Z) :
  length tbl = 13%nat -> safe (day_equals dd tbl).
Proof.
  intros L s W. eexists _, s. split; [| exact W].
  apply day_equals_eval. rewrite L. destruct W as [_ Wd].
  destruct (Wd dd) as (_ & ? & _). lia.
Qed.

Lemma DaysInMonth_char (m : Z) :
  0 <= m <= 12 -> is_char (nth (Z.to_nat m) DaysInMonth 0).
Proof.
  intros H. unfold is_char.
  assert (K : (Z.to_nat m <= 12)%nat) by lia.
  revert K. generalize (Z.to_nat m). intros k K.
  do 13 (destruct k as [| k]; [cbn; lia |]). lia.
Qed.

Lemma safe_day_wrap_back (dd : DateRef) : safe (day_wrap_back dd).
Proof.
  intros s W. pose proof W as [Wt Wd].
  destruct (Wd ref_MainDate) as (_ & Hm & _). cbn in Hm.
  eexists _, _. split; [apply day_wrap_back_eval; exact Hm |].
  apply wf_store_date; [exact W |].
  destruct (Wd dd) as (? & ? & ?).
  (split; [| split]); cbn; try assumption. apply DaysInMonth_char, Hm.
Qed.

Lemma safe_SetDay (p : DateRef) : safe (SetDay env fuel p).
Proof.
  pose proof safe_PB1pressed. pose proof safe_PB2pressed.
  pose proof (safe_day_below p DaysInMonthLeap eq_refl).
  pose proof (safe_day_equals p DaysInMonthLeap eq_refl).
  pose proof (safe_day_equals p DaysInMonth eq_refl).
  pose proof (safe_day_wrap_back p).
  unfold SetDay. safe.
Qed.

Lemma safe_SetDate (f : DateField) (p : DateRef) : safe (SetDate env fuel f p).
Proof.
  destruct f; [apply safe_SetDay | apply safe_SetMonth | apply safe_SetYear].
Qed.

Lemma safe_Num2Disp (v : Z) : is_char v -> safe (Num2Disp v).
Proof.
  intros Hv s W. destruct (Z.ltb_spec 99 v).
  - rewrite Num2Disp_error by assumption. eexists _, _.
    split; [reflexivity |]. revert W. apply wf_same; intros p; destruct p;
      reflexivity.
  - unfold is_char in Hv. rewrite Num2Disp_digits by lia. eexists _, _.
    split; [reflexivity |]. revert W. apply wf_same; intros p; destruct p;
      reflexivity.
Qed.

Lemma safe_ShowTime (f : TimeField) (p : TimeRef) : safe (ShowTime f p).
Proof.
  intros s W. unfold ShowTime. rewrite bind_rd. apply safe_Num2Disp; [| exact W].
  destruct W as [Wt _]. destruct (Wt p) as (? & ? & ?). destruct f; assumption.
Qed.

Lemma safe_ShowDate (f : DateField) (p : DateRef) : safe (ShowDate f p).
Proof.
  intros s W. unfold ShowDate. rewrite bind_rd. apply safe_Num2Disp; [| exact W].
  destruct W as [_ Wd]. destruct (Wd p) as (? & ? & ?).
  destruct f; try assumption. unfold is_char. lia.
Qed.

Lemma safe_flashes :
  safe (SecsFlash env) /\ safe (MinsFlash env) /\ safe (HrsFlash env)
  /\ safe (DayFlash env) /\ safe (MonthFlash env) /\ safe (YearFlash env)
  /\ safe (Alarm1Flash env) /\ safe (Alarm2Flash env).
Proof.
  unfold SecsFlash, MinsFlash, HrsFlash, DayFlash, MonthFlash, YearFlash,
    Alarm1Flash, Alarm2Flash, leds_and, leds_or, dp_on, blink.
  repeat split; safe.
Qed.

Lemma safe_toggles :
  safe (Alarm1_toggle env fuel) /\ safe (Alarm2_toggle env fuel).
Proof.
  pose proof safe_PB1pressed. pose proof safe_PB2pressed.
  unfold Alarm1_toggle, Alarm2_toggle. split; safe.
Qed.

Lemma safe_show_Er (code : Z) : safe (show_Er code).
Proof. unfold show_Er. safe. Qed.

Lemma safe_step (l : Loc) : safe (step env fuel l).
Proof.
  pose proof safe_SetTime. pose proof safe_SetDate.
  pose proof safe_ShowTime. pose proof safe_ShowDate.
  pose proof safe_show_Er.
  destruct safe_flashes as (? & ? & ? & ? & ? & ? & ? & ?).
  destruct safe_toggles as (? & ?).
  destruct l;
    unfold step, SetMenu_dispatch, SetAlarm1_dispatch, SetAlarm2_dispatch;
    safe.
Qed.

(** Every schedule of periods and program moves is executed to the end. *)
Lemma run_total (es : list event) (l : Loc) (s : State) :
  wf s -> exists l' s', run env fuel es l s = Ok (l', s') /\ wf s'.
Proof.
  revert l s. induction es as [| e es IH]; intros l s W.
  - exists l, s. split; [reflexivity | exact W].
  - destruct e; cbn [run].
    + apply IH, wf_tick, W.
    + destruct (safe_step l s W) as (l1 & s1 & E & W1). rewrite E.
      apply IH, W1.
Qed.

(** ** The seconds interrupt enable in the settings machine *)

Lemma leaves_ret {A} (a : A) : leaves_TMR1IE (ret a).
Proof. intros s s' x H. inversion H. reflexivity. Qed.

Lemma leaves_bind {A B} (m : M A) (k : A -> M B) :
  leaves_TMR1IE m -> (forall a, leaves_TMR1IE (k a)) -> leaves_TMR1IE (bind m k).
Proof.
  intros Hm Hk s s' b H. apply bind_inv in H. destruct H as (a & s1 & H1 & H2).
  rewrite (Hk a _ _ _ H2). exact (Hm _ _ _ H1).
Qed.

Lemma leaves_rd {A} (f : State -> A) : leaves_TMR1IE (rd f).
Proof. intros s s' x H. inversion H. reflexivity. Qed.

Lemma leaves_modify (f : State -> State) :
  (forall s, TMR1IE (f s) = TMR1IE s) -> leaves_TMR1IE (modify f).
Proof. intros Hf s s' x H. inversion H. apply Hf. Qed.

Lemma leaves_when (c : bool) (m : M unit) :
  leaves_TMR1IE m -> leaves_TMR1IE (when c m).
Proof. intros Hm. destruct c; [exact Hm | apply leaves_ret]. Qed.

Lemma leaves_index (tbl : list Z) (i : Z) : leaves_TMR1IE (index tbl i).
Proof.
  intros s s' x H. unfold index in H.
  destruct (_ && _); inversion H. reflexivity.
Qed.

Lemma leaves_pin (f : Pins -> bool) : leaves_TMR1IE (pin env f).
Proof. intros s s' x H. inversion H. reflexivity. Qed.

Lemma leaves_Switches : leaves_TMR1IE (Switches env).
Proof. intros s s' x H. inversion H. reflexivity. Qed.

Lemma leaves_and_then (a : M Z) (b : M bool) :
  leaves_TMR1IE a -> leaves_TMR1IE b -> leaves_TMR1IE (and_then a b).
Proof.
  intros Ha Hb. apply leaves_bind; [exact Ha |].
  intros x. destruct (truthy x); [exact Hb | apply leaves_ret].
Qed.

Lemma leaves_Delay10KTCYx (n : Z) : leaves_TMR1IE (Delay10KTCYx env n).
Proof. apply leaves_modify. intros s. apply ticks_TMR1IE. Qed.

Lemma leaves_wait_debounce (n : nat) : leaves_TMR1IE (wait_debounce env n).
Proof.
  induction n as [| n IH]; intros s s' x H; cbn [wait_debounce] in H;
    destruct (_ <? _); try discriminate; try (inversion H; reflexivity).
  rewrite (IH _ _ _ H). apply tick_TMR1IE.
Qed.

Lemma leaves_upd_time (p : TimeRef) (f : TIME -> TIME) :
  leaves_TMR1IE (upd_time p f).
Proof. apply leaves_modify. intros s. destruct p; reflexivity. Qed.

Lemma leaves_upd_date (p : DateRef) (f : DATE -> DATE) :
  leaves_TMR1IE (upd_date p f).
Proof. apply leaves_modify. intros s. destruct p; reflexivity. Qed.

(** Every computation below is built from the pieces above and from field
    updates that are not TMR1IE. *)
Ltac leaves :=
  repeat match goal with
  | |- leaves_TMR1IE (bind _ _) => apply leaves_bind; [| intros ? ]
  | |- leaves_TMR1IE (ret _) => apply leaves_ret
  | |- leaves_TMR1IE (rd _) => apply leaves_rd
  | |- leaves_TMR1IE (index _ _) => apply leaves_index
  | |- leaves_TMR1IE (pin _ _) => apply leaves_pin
  | |- leaves_TMR1IE (Switches _) => apply leaves_Switches
  | |- leaves_TMR1IE (Delay10KTCYx _ _) => apply leaves_Delay10KTCYx
  | |- leaves_TMR1IE (wait_debounce _ _) => apply leaves_wait_debounce
  | |- leaves_TMR1IE (upd_time _ _) => apply leaves_upd_time
  | |- leaves_TMR1IE (upd_date _ _) => apply leaves_upd_date
  | |- leaves_TMR1IE (when _ _) => apply leaves_when
  | |- leaves_TMR1IE (and_then _ _) => apply leaves_and_then
  | |- leaves_TMR1IE (modify _) => apply leaves_modify; intros ?; reflexivity
  | |- leaves_TMR1IE (if ?c then _ else _) => destruct c
  | |- leaves_TMR1IE (match ?f with _ => _ end) => destruct f
  | |- leaves_TMR1IE _ => solve [auto 2]
  end.

Lemma leaves_PB1pressed : leaves_TMR1IE (PB1pressed env fuel).
Proof. unfold PB1pressed. leaves. Qed.

Lemma leaves_PB2pressed : leaves_TMR1IE (PB2pressed env fuel).
Proof. unfold PB2pressed. leaves. Qed.

Lemma leaves_SetTime (f : TimeField) (p : TimeRef) :
  leaves_TMR1IE (SetTime env fuel f p).
Proof.
  pose proof leaves_PB1pressed. pose proof leaves_PB2pressed.
  destruct f; unfold SetTime, SetSecs, SetMins, SetHrs; leaves.
Qed.

Lemma leaves_SetDate (f : DateField) (p : DateRef) :
  leaves_TMR1IE (SetDate env fuel f p).
Proof.
  pose proof leaves_PB1pressed. pose proof leaves_PB2pressed.
  destruct f; unfold SetDate, SetDay, SetMonth, SetYear, day_below, day_equals,
    day_wrap_back; leaves.
Qed.

Lemma leaves_Num2Disp (v : Z) : leaves_TMR1IE (Num2Disp v).
Proof. unfold Num2Disp. leaves. Qed.

Lemma leaves_ShowTime (f : TimeField) (p : TimeRef) :
  leaves_TMR1IE (ShowTime f p).
Proof. pose proof leaves_Num2Disp. unfold ShowTime. leaves. Qed.

Lemma leaves_ShowDate (f : DateField) (p : DateRef) :
  leaves_TMR1IE (ShowDate f p).
Proof. pose proof leaves_Num2Disp. unfold ShowDate. leaves. Qed.

Lemma leaves_blink (u2 u1 : Z) : leaves_TMR1IE (blink env u2 u1).
Proof. unfold blink. leaves. Qed.

Lemma leaves_flashes :
  leaves_TMR1IE (SecsFlash env) /\ leaves_TMR1IE (MinsFlash env)
  /\ leaves_TMR1IE (HrsFlash env) /\ leaves_TMR1IE (DayFlash env)
  /\ leaves_TMR1IE (MonthFlash env) /\ leaves_TMR1IE (YearFlash env)
  /\ leaves_TMR1IE (Alarm1Flash env) /\ leaves_TMR1IE (Alarm2Flash env).
Proof.
  pose proof leaves_blink.
  unfold SecsFlash, MinsFlash, HrsFlash, DayFlash, MonthFlash, YearFlash,
    Alarm1Flash, Alarm2Flash, leds_and, leds_or, dp_on.
  repeat split; leaves.
Qed.

Lemma leaves_toggles :
  leaves_TMR1IE (Alarm1_toggle env fuel) /\ leaves_TMR1IE (Alarm2_toggle env fuel).
Proof.
  pose proof leaves_PB1pressed. pose proof leaves_PB2pressed.
  unfold Alarm1_toggle, Alarm2_toggle. split; leaves.
Qed.

Lemma leaves_show_Er (code : Z) : leaves_TMR1IE (show_Er code).
Proof. unfold show_Er. leaves. Qed.

Lemma lands_ret (b : bool) (l : Loc) :
  b = negb (clock_edit l) -> lands b (ret l).
Proof. intros Hb s s' l' H Hs. inversion H; subst. exact Hs. Qed.

Lemma lands_bind {A} (b : bool) (m : M A) (k : A -> M Loc) :
  leaves_TMR1IE m -> (forall a, lands b (k a)) -> lands b (bind m k).
Proof.
  intros Hm Hk s s' l' H Hs. apply bind_inv in H.
  destruct H as (a & s1 & H1 & H2).
  apply (Hk a _ _ _ H2). rewrite (Hm _ _ _ H1). exact Hs.
Qed.

Lemma lands_set (b v : bool) (k : unit -> M Loc) :
  lands v (k tt) -> lands b (bind (modify (set_TMR1IE v)) k).
Proof.
  intros Hk s s' l' H _. apply bind_inv in H.
  destruct H as ([] & s1 & H1 & H2). inversion H1; subst.
  apply (Hk _ _ _ H2). reflexivity.
Qed.

Ltac lands :=
  repeat match goal with
  | |- lands _ (ret _) => apply lands_ret; reflexivity
  | |- lands _ (bind (modify (set_TMR1IE _)) _) => apply lands_set
  | |- lands _ (bind _ _) => apply lands_bind; [solve [leaves] | intros ? ]
  | |- lands _ (if ?c then _ else _) => destruct c
  end.

Lemma step_lands (l : Loc) : lands (negb (clock_edit l)) (step env fuel l).
Proof.
  pose proof leaves_SetTime. pose proof leaves_SetDate.
  pose proof leaves_ShowTime. pose proof leaves_ShowDate.
  pose proof leaves_show_Er.
  destruct leaves_flashes as (? & ? & ? & ? & ? & ? & ? & ?).
  destruct leaves_toggles as (? & ?).
  destruct l; cbn [clock_edit negb];
    unfold step, SetMenu_dispatch, SetAlarm1_dispatch, SetAlarm2_dispatch;
    lands.
Qed.

Lemma run_lands (es : list event) (l l' : Loc) (s s' : State) :
  run env fuel es l s = Ok (l', s') ->
  TMR1IE s = negb (clock_edit l) -> TMR1IE s' = negb (clock_edit l').
Proof.
  revert l s. induction es as [| e es IH]; intros l s H Hs.
  - inversion H; subst. exact Hs.
  - destruct e; cbn [run] in H.
    + apply (IH _ _ H). rewrite tick_TMR1IE. exact Hs.
    + destruct (step env fuel l s) as [[l1 s1] | |] eqn:E; try discriminate.
      apply (IH _ _ H). exact (step_lands l _ _ _ E Hs).
Qed.

(** ** Timer1 during a move of the machine *)

Lemma set_TMR1IF_eta (s : State) : set_TMR1IF (TMR1IF s) s = s.
Proof. destruct s; reflexivity. Qed.

Lemma Timer0_isr_flag (b : bool) (x : State) :
  Timer0_isr (set_TMR1IF b x) = set_TMR1IF b (Timer0_isr x).
Proof.
  unfold Timer0_isr.
  change (multiplex_index (set_TMR1IF b x)) with (multiplex_index x).
  destruct (_ =? 1); [| destruct (_ =? 2); [| destruct (_ =? 3)]];
    reflexivity.
Qed.

Lemma Timer0_isr_clock (x : State) : clock_frame x (Timer0_isr x).
Proof.
  unfold clock_frame, Timer0_isr.
  destruct (_ =? 1); [| destruct (_ =? 2); [| destruct (_ =? 3)]];
    repeat split.
Qed.

(** A period with TMR1IE clear: the overflow is latched and the seconds
    routine does not run. *)
Lemma tick_off (e : nat -> Pins) (x : State) :
  TMR1IE x = false ->
  tick e x =
  set_TMR1IF (TMR1_overflow (e (now x)) || TMR1IF x)
    (set_now (S (now x)) (Timer0_isr x)).
Proof.
  intros H. unfold tick. cbv zeta.
  destruct (TMR1_overflow (e (now x))).
  - change (TMR1IE (set_TMR1IF true x)) with (TMR1IE x). rewrite H.
    cbn [andb orb]. rewrite Timer0_isr_flag. reflexivity.
  - rewrite H. cbn [andb orb].
    destruct (Timer0_isr_clock x) as (_ & _ & _ & F & _).
    rewrite <- F. generalize (S (now x)). generalize (Timer0_isr x).
    intros T n. destruct T; reflexivity.
Qed.

(** A period with TMR1IE set: the seconds routine runs if Timer1 overflows
    or a request is pending, and the flag is clear afterwards. *)
Lemma tick_on (e : nat -> Pins) (x : State) :
  TMR1IE x = true ->
  tick e x =
  set_now (S (now x))
    (Timer0_isr
       (if TMR1IF x || TMR1_overflow (e (now x))
        then Timer1_isr (set_TMR1IF false x) else x)).
Proof.
  intros H. unfold tick, hp_secs_count_isr. cbv zeta.
  destruct (TMR1_overflow (e (now x))).
  - change (TMR1IE (set_TMR1IF true x)) with (TMR1IE x). rewrite H.
    rewrite orb_true_r. reflexivity.
  - rewrite H, orb_false_r. cbn [andb].
    destruct (TMR1IF x); reflexivity.
Qed.

Lemma ends_at {A B C} (a : M A) (b : M B) (c : M C) (l0 l1 : Loc)
    (s s1 : State) :
  (a ;; b ;; c ;; ret l0) s = Ok (l1, s1) -> l1 = l0.
Proof.
  intros E. apply bind_inv in E. destruct E as (? & ? & _ & E).
  apply bind_inv in E. destruct E as (? & ? & _ & E).
  apply bind_inv in E. destruct E as (? & ? & _ & E).
  inversion E. reflexivity.
Qed.

Lemma ends_at_1 {A} (a : M A) (l0 l1 : Loc) (s s1 : State) :
  (a ;; ret l0) s = Ok (l1, s1) -> l1 = l0.
Proof.
  intros E. apply bind_inv in E. destruct E as (? & ? & _ & E).
  inversion E. reflexivity.
Qed.

Section Frozen.

Variable env' : nat -> Pins.
Hypothesis same : same_inputs env env'.

Lemma blind_tick (x : State) (b : bool) :
  TMR1IE x = false ->
  exists b', tick env' (set_TMR1IF b x) = set_TMR1IF b' (tick env x).
Proof.
  intros H. rewrite (tick_off env' (set_TMR1IF b x)) by exact H.
  rewrite (tick_off env x H).
  change (now (set_TMR1IF b x)) with (now x).
  rewrite Timer0_isr_flag.
  exists (TMR1_overflow (env' (now x)) || b). reflexivity.
Qed.

Lemma blind_ticks (n : nat) (x : State) (b : bool) :
  TMR1IE x = false ->
  exists b',
    Nat.iter n (tick env') (set_TMR1IF b x)
    = set_TMR1IF b' (Nat.iter n (tick env) x).
Proof.
  intros H. induction n as [| n [b1 IH]]; [exists b; reflexivity |].
  rewrite !Nat.iter_succ, IH.
  apply blind_tick. rewrite ticks_TMR1IE. exact H.
Qed.

Lemma blind_ret {A} (a : A) : blind (ret a) (ret a).
Proof.
  intros x x' a' b H E. inversion E; subst.
  split; [exact H | exists b; reflexivity].
Qed.

Lemma blind_bind {A B} (m m' : M A) (k k' : A -> M B) :
  blind m m' -> (forall a, blind (k a) (k' a)) -> blind (bind m k) (bind m' k').
Proof.
  intros Hm Hk x x' r b H E. apply bind_inv in E.
  destruct E as (a & x1 & E1 & E2).
  destruct (Hm _ _ _ b H E1) as (H1 & b1 & E1').
  destruct (Hk a _ _ _ b1 H1 E2) as (H2 & b2 & E2').
  split; [exact H2 |]. exists b2.
  rewrite (bind_Ok _ _ _ _ _ E1'). exact E2'.
Qed.

Lemma blind_rd {A} (f : State -> A) :
  (forall b x, f (set_TMR1IF b x) = f x) -> blind (rd f) (rd f).
Proof.
  intros Hf x x' a b H E. inversion E; subst.
  split; [exact H |]. exists b. unfold rd. rewrite Hf. reflexivity.
Qed.

Lemma blind_modify (g : State -> State) :
  (forall b x, g (set_TMR1IF b x) = set_TMR1IF b (g x)) ->
  (forall x, TMR1IE (g x) = TMR1IE x) ->
  blind (modify g) (modify g).
Proof.
  intros Hg Hi x x' a b H E. inversion E; subst.
  split; [rewrite Hi; exact H |]. exists b. unfold modify. rewrite Hg.
  reflexivity.
Qed.

Lemma blind_when (c : bool) (m m' : M unit) :
  blind m m' -> blind (when c m) (when c m').
Proof. intros Hm. destruct c; [exact Hm | apply blind_ret]. Qed.

Lemma blind_index (tbl : list Z) (i : Z) : blind (index tbl i) (index tbl i).
Proof.
  intros x x' a b H E. unfold index in *.
  destruct (_ && _); inversion E; subst.
  split; [exact H | exists b; reflexivity].
Qed.

Lemma blind_pin (f : Pins -> bool) :
  (forall t, f (env' t) = f (env t)) -> blind (pin env f) (pin env' f).
Proof.
  intros Hf x x' a b H E. inversion E; subst.
  split; [exact H |]. exists b. unfold pin.
  change (now (set_TMR1IF b x')) with (now x'). rewrite Hf. reflexivity.
Qed.

Lemma blind_Switches : blind (Switches env) (Switches env').
Proof.
  intros x x' a b H E. inversion E; subst.
  split; [exact H |]. exists b. unfold Switches.
  change (now (set_TMR1IF b x')) with (now x').
  destruct (same (now x')) as (_ & _ & _ & -> & ->). reflexivity.
Qed.

Lemma blind_and_then (a a' : M Z) (c c' : M bool) :
  blind a a' -> blind c c' -> blind (and_then a c) (and_then a' c').
Proof.
  intros Ha Hc. apply blind_bind; [exact Ha |].
  intros x. destruct (truthy x); [exact Hc | apply blind_ret].
Qed.

Lemma blind_Delay10KTCYx (n : Z) :
  blind (Delay10KTCYx env n) (Delay10KTCYx env' n).
Proof.
  intros x x' a b H E. inversion E; subst.
  split; [rewrite ticks_TMR1IE; exact H |].
  destruct (blind_ticks (Z.to_nat (n * 10000 / TCY_PER_TICK)) x b H)
    as [b' Eb].
  exists b'. unfold Delay10KTCYx, modify. rewrite Eb. reflexivity.
Qed.

Lemma blind_wait_debounce (n : nat) :
  blind (wait_debounce env n) (wait_debounce env' n).
Proof.
  induction n as [| n IH]; intros x x' a b H E;
    cbn [wait_debounce] in E |- *;
    change (ms_count1 (set_TMR1IF b x)) with (ms_count1 x);
    destruct (ms_count1 x <? DEBOUNCE_DELAY); try discriminate;
    try (inversion E; subst; split; [exact H | exists b; reflexivity]).
  destruct (blind_tick x b H) as [b1 Eb]. rewrite Eb.
  apply IH; [rewrite tick_TMR1IE; exact H | exact E].
Qed.

Lemma blind_upd_time (p : TimeRef) (f : TIME -> TIME) :
  blind (upd_time p f) (upd_time p f).
Proof.
  apply blind_modify; [intros b x | intros x]; destruct p; reflexivity.
Qed.

Lemma blind_upd_date (p : DateRef) (f : DATE -> DATE) :
  blind (upd_date p f) (upd_date p f).
Proof.
  apply blind_modify; [intros b x | intros x]; destruct p; reflexivity.
Qed.

Ltac blind :=
  repeat match goal with
  | |- blind (bind _ _) (bind _ _) => apply blind_bind; [| intros ? ]
  | |- blind (ret _) (ret _) => apply blind_ret
  | |- blind (rd _) (rd _) => apply blind_rd; intros ? ?; reflexivity
  | |- blind (index _ _) (index _ _) => apply blind_index
  | |- blind (pin _ _) (pin _ _) =>
      apply blind_pin; let t := fresh in
      intros t; destruct (same t) as (? & ? & ? & ? & ?); assumption
  | |- blind (Switches _) (Switches _) => apply blind_Switches
  | |- blind (Delay10KTCYx _ _) (Delay10KTCYx _ _) =>
      apply blind_Delay10KTCYx
  | |- blind (wait_debounce _ _) (wait_debounce _ _) =>
      apply blind_wait_debounce
  | |- blind (upd_time _ _) (upd_time _ _) => apply blind_upd_time
  | |- blind (upd_date _ _) (upd_date _ _) => apply blind_upd_date
  | |- blind (when _ _) (when _ _) => apply blind_when
  | |- blind (and_then _ _) (and_then _ _) => apply blind_and_then
  | |- blind (modify _) (modify _) =>
      apply blind_modify; [intros ? ?; reflexivity | intros ?; reflexivity]
  | |- blind (if ?c then _ else _) (if ?c then _ else _) => destruct c
  | |- blind (match ?f with _ => _ end) (match ?f with _ => _ end) =>
      destruct f
  | |- blind _ _ => solve [auto 2]
  end.

Lemma blind_PB1pressed : blind (PB1pressed env fuel) (PB1pressed env' fuel).
Proof. unfold PB1pressed. blind. Qed.

Lemma blind_PB2pressed : blind (PB2pressed env fuel) (PB2pressed env' fuel).
Proof. unfold PB2pressed. blind. Qed.

Lemma blind_SetTime (f : TimeField) (p : TimeRef) :
  blind (SetTime env fuel f p) (SetTime env' fuel f p).
Proof.
  pose proof blind_PB1pressed. pose proof blind_PB2pressed.
  destruct f; unfold SetTime, SetSecs, SetMins, SetHrs; blind.
Qed.

Lemma blind_SetDate (f : DateField) (p : DateRef) :
  blind (SetDate env fuel f p) (SetDate env' fuel f p).
Proof.
  pose proof blind_PB1pressed. pose proof blind_PB2pressed.
  destruct f; unfold SetDate, SetDay, SetMonth, SetYear, day_below, day_equals,
    day_wrap_back; blind.
Qed.

Lemma blind_Num2Disp (v : Z) : blind (Num2Disp v) (Num2Disp v).
Proof. unfold Num2Disp. blind. Qed.

Lemma blind_ShowTime (f : TimeField) (p : TimeRef) :
  blind (ShowTime f p) (ShowTime f p).
Proof.
  pose proof blind_Num2Disp. unfold ShowTime.
  apply blind_bind; [| intros v; auto].
  apply blind_rd. intros b x. destruct f, p; reflexivity.
Qed.

Lemma blind_ShowDate (f : DateField) (p : DateRef) :
  blind (ShowDate f p) (ShowDate f p).
Proof.
  pose proof blind_Num2Disp. unfold ShowDate.
  apply blind_bind; [| intros v; auto].
  apply blind_rd. intros b x. destruct f, p; reflexivity.
Qed.

Lemma blind_flashes :
  blind (SecsFlash env) (SecsFlash env')
  /\ blind (MinsFlash env) (MinsFlash env')
  /\ blind (HrsFlash env) (HrsFlash env')
  /\ blind (DayFlash env) (DayFlash env')
  /\ blind (MonthFlash env) (MonthFlash env')
  /\ blind (YearFlash env) (YearFlash env').
Proof.
  unfold SecsFlash, MinsFlash, HrsFlash, DayFlash, MonthFlash, YearFlash,
    leds_and, leds_or, dp_on, blink.
  do 5 (split; [solve [blind] |]). blind.
Qed.

(** Started from the same state with TMR1IE clear, a computation that is
    blind to Timer1 arrives in the same state up to the pending flag. *)
Lemma blind_run {A} (m m' : M A) (s s1 : State) (a : A) :
  blind m m' -> TMR1IE s = false -> m s = Ok (a, s1) ->
  exists b', m' s = Ok (a, set_TMR1IF b' s1).
Proof.
  intros Hm H E. destruct (Hm s s1 a (TMR1IF s) H E) as (_ & b' & E').
  rewrite set_TMR1IF_eta in E'. exists b'. exact E'.
Qed.

Lemma Switches_reads (e : nat -> Pins) (s : State) :
  Switches e s = Ok (switch_value e s, s).
Proof. reflexivity. Qed.

Lemma switch_value_same (s : State) : switch_value env' s = switch_value env s.
Proof.
  unfold switch_value. destruct (same (now s)) as (_ & _ & _ & -> & ->).
  reflexivity.
Qed.

(** A pass that starts in a loop that edits the clock of record. *)
Lemma frozen_step (l l1 : Loc) (s s1 : State) :
  clock_edit l = true -> TMR1IE s = false ->
  step env fuel l s = Ok (l1, s1) ->
  exists b', step env' fuel l s = Ok (l1, set_TMR1IF b' s1).
Proof.
  intros L H E.
  pose proof blind_SetTime. pose proof blind_SetDate.
  pose proof blind_ShowTime. pose proof blind_ShowDate.
  destruct l; try discriminate L; unfold step in E |- *;
    rewrite (bind_Ok _ _ _ _ _ (Switches_reads env' s));
    rewrite (bind_Ok _ _ _ _ _ (Switches_reads env s)) in E;
    rewrite switch_value_same;
    (destruct (switch_value env s =? _);
     [ revert E; apply blind_run; [blind | exact H]
     | inversion E; subst; exists (TMR1IF s); reflexivity ]).
Qed.

(** The pass of the menu that enters a loop that edits the clock of
    record: TMR1IE is cleared before the mnemonic is flashed. *)
Lemma entered_frozen {A B} (flash flash' : M A) (show : M B) (l0 : Loc)
    (s s1 : State) (l1 : Loc) :
  blind flash flash' -> blind show show ->
  (modify (set_TMR1IE false) ;; flash ;; show ;; ret l0) s = Ok (l1, s1) ->
  exists b',
    (modify (set_TMR1IE false) ;; flash' ;; show ;; ret l0) s
    = Ok (l1, set_TMR1IF b' s1).
Proof.
  intros Hf Hs E.
  assert (Hb : blind (flash ;; show ;; ret l0) (flash' ;; show ;; ret l0))
    by blind.
  exact (blind_run _ _ (set_TMR1IE false s) s1 l1 Hb eq_refl E).
Qed.

Ltac entered F S :=
  lazymatch goal with
  | E : bind (modify (set_TMR1IE false)) _ _ = Ok _ |- _ =>
      exact (entered_frozen _ _ _ _ _ _ _ F (S _ _) E)
  end.

(** The pass of the menu, when it enters a loop that edits the clock of
    record. *)
Lemma entry_step (l1 : Loc) (s s1 : State) :
  clock_edit l1 = true ->
  step env fuel AtSetMenu s = Ok (l1, s1) ->
  exists b', step env' fuel AtSetMenu s = Ok (l1, set_TMR1IF b' s1).
Proof.
  intros L1 E.
  destruct blind_flashes as (F1 & F2 & F3 & F4 & F5 & F6).
  unfold step in E |- *.
  rewrite (bind_Ok _ _ _ _ _ (Switches_reads env' s)).
  rewrite (bind_Ok _ _ _ _ _ (Switches_reads env s)) in E.
  rewrite switch_value_same.
  destruct (negb (switch_value env s =? 0));
    [| inversion E; subst; discriminate L1].
  unfold SetMenu_dispatch in E |- *.
  rewrite (bind_Ok _ _ _ _ _ (Switches_reads env' s)).
  rewrite (bind_Ok _ _ _ _ _ (Switches_reads env s)) in E.
  rewrite switch_value_same.
  destruct (_ =? SECS);
    [entered F1 blind_ShowTime |].
  destruct (_ =? MINS);
    [entered F2 blind_ShowTime |].
  destruct (_ =? HRS);
    [entered F3 blind_ShowTime |].
  destruct (_ =? DAY);
    [entered F4 blind_ShowDate |].
  destruct (_ =? MONTH);
    [entered F5 blind_ShowDate |].
  destruct (_ =? YEAR);
    [entered F6 blind_ShowDate |].
  destruct (_ =? ALARM1);
    [apply ends_at_1 in E; subst l1; discriminate L1 |].
  destruct (_ =? ALARM2);
    [apply ends_at_1 in E; subst l1; discriminate L1 |].
  apply ends_at_1 in E. subst l1. discriminate L1.
Qed.

End Frozen.

(** The clock of record after the seconds routine depends on the clock of
    record and the rollover count only. *)
Lemma Timer1_isr_clock (a b : State) :
  MainTime a = MainTime b -> mins_rollover a = mins_rollover b ->
  MainTime (Timer1_isr a) = MainTime (Timer1_isr b)
  /\ mins_rollover (Timer1_isr a) = mins_rollover (Timer1_isr b).
Proof.
  intros Ht Hr. unfold Timer1_isr. rewrite Ht.
  destruct (_ <? 59); cbn; rewrite ?Ht, ?Hr; split; reflexivity.
Qed.

Lemma Timer1_isr_flags (a : State) :
  TMR1IE (Timer1_isr a) = TMR1IE a /\ TMR1IF (Timer1_isr a) = TMR1IF a
  /\ now (Timer1_isr a) = now a.
Proof. unfold Timer1_isr. destruct (_ <? 59); repeat split. Qed.

Lemma Loc_eq_menu (l : Loc) : l = AtSetMenu \/ l <> AtSetMenu.
Proof. destruct l; (left; reflexivity) || (right; discriminate). Qed.

Lemma set_now_clock (n : nat) (z : State) :
  MainTime (set_now n z) = MainTime z
  /\ mins_rollover (set_now n z) = mins_rollover z
  /\ TMR1IE (set_now n z) = TMR1IE z
  /\ TMR1IF (set_now n z) = TMR1IF z
  /\ now (set_now n z) = n.
Proof. repeat split. Qed.

Section Running.

Variable s0 : State.

Lemma credited_start : TMR1IE s0 = true -> credited env s0 s0.
Proof.
  intros H. unfold credited. rewrite Nat.sub_diag, Nat.ltb_irrefl.
  repeat split; auto.
Qed.

Lemma credited_frame (x x' : State) :
  clock_frame x x' -> credited env s0 x -> credited env s0 x'.
Proof.
  intros (Ft & Fr & Fe & Ff & Fn) C. unfold credited in *.
  rewrite Ft, Fr, Fe, Ff, Fn. exact C.
Qed.

Lemma credited_tick (x : State) :
  credited env s0 x -> credited env s0 (tick env x).
Proof.
  intros (Hn & He & Ht & Hr & Hf).
  rewrite (tick_on env x He).
  set (c := TMR1IF x || TMR1_overflow (env (now x))).
  assert (Dc : c = TMR1IF x || TMR1_overflow (env (now x))) by reflexivity.
  clearbody c.
  set (y := if c then Timer1_isr (set_TMR1IF false x) else x).
  destruct (Timer0_isr_clock y) as (Ft & Fr & Fe & Ff & Fn).
  destruct (set_now_clock (S (now x)) (Timer0_isr y))
    as (Nt & Nr & Ne & Nf & Nn).
  unfold credited. rewrite Nt, Nr, Ne, Nf, Nn.
  rewrite Ft, Fr, Fe, Ff.
  replace (S (now x) - now s0)%nat with (S (now x - now s0)) by lia.
  cbn [seconds_due].
  replace (now s0 + (now x - now s0))%nat with (now x) by lia.
  assert (Hp : (match (now x - now s0)%nat with
                | O => TMR1IF s0
                | S _ => false
                end) = TMR1IF x).
  { rewrite Hf. destruct (Nat.ltb_spec (now s0) (now x)).
    - destruct (now x - now s0)%nat eqn:D; [lia | reflexivity].
    - replace (now x - now s0)%nat with O by lia. reflexivity. }
  rewrite Hp, <- Dc.
  assert (Hlt : (now s0 <? S (now x))%nat = true)
    by (apply Nat.ltb_lt; lia).
  rewrite Hlt.
  split; [lia |].
  set (k := seconds_due env (TMR1IF s0) (now s0) (now x - now s0)) in *.
  unfold y. destruct c.
  - rewrite Nat.add_1_r, Nat.iter_succ.
    destruct (Timer1_isr_clock (set_TMR1IF false x) (Nat.iter k Timer1_isr s0)
                Ht Hr) as [E1 E2].
    destruct (Timer1_isr_flags (set_TMR1IF false x)) as (G1 & G2 & _).
    split; [rewrite G1; exact He |].
    split; [exact E1 |]. split; [exact E2 | exact G2].
  - rewrite Nat.add_0_r.
    split; [exact He |]. split; [exact Ht |]. split; [exact Hr |].
    symmetry in Dc. apply orb_false_iff in Dc. tauto.
Qed.

Lemma credited_ticks (n : nat) (x : State) :
  credited env s0 x -> credited env s0 (Nat.iter n (tick env) x).
Proof.
  intros C. induction n as [| n IH]; [exact C |].
  rewrite Nat.iter_succ. apply credited_tick, IH.
Qed.

Lemma keeps_ret {A} (a : A) : keeps (credited env s0) (ret a).
Proof. intros s s' x H C. inversion H; subst. exact C. Qed.

Lemma keeps_bind {A B} (m : M A) (k : A -> M B) :
  keeps (credited env s0) m -> (forall a, keeps (credited env s0) (k a)) ->
  keeps (credited env s0) (bind m k).
Proof.
  intros Hm Hk s s' b H C. apply bind_inv in H.
  destruct H as (a & s1 & H1 & H2).
  exact (Hk a _ _ _ H2 (Hm _ _ _ H1 C)).
Qed.

Lemma keeps_rd {A} (f : State -> A) : keeps (credited env s0) (rd f).
Proof. intros s s' x H C. inversion H; subst. exact C. Qed.

Lemma keeps_modify (g : State -> State) :
  (forall x, clock_frame x (g x)) -> keeps (credited env s0) (modify g).
Proof.
  intros Hg s s' x H C. inversion H; subst.
  exact (credited_frame _ _ (Hg s) C).
Qed.

Lemma keeps_when (c : bool) (m : M unit) :
  keeps (credited env s0) m -> keeps (credited env s0) (when c m).
Proof. intros Hm. destruct c; [exact Hm | apply keeps_ret]. Qed.

Lemma keeps_index (tbl : list Z) (i : Z) :
  keeps (credited env s0) (index tbl i).
Proof.
  intros s s' x H C. unfold index in H.
  destruct (_ && _); inversion H; subst. exact C.
Qed.

Lemma keeps_pin (f : Pins -> bool) : keeps (credited env s0) (pin env f).
Proof. intros s s' x H C. inversion H; subst. exact C. Qed.

Lemma keeps_Switches : keeps (credited env s0) (Switches env).
Proof. intros s s' x H C. inversion H; subst. exact C. Qed.

Lemma keeps_and_then (a : M Z) (b : M bool) :
  keeps (credited env s0) a -> keeps (credited env s0) b ->
  keeps (credited env s0) (and_then a b).
Proof.
  intros Ha Hb. apply keeps_bind; [exact Ha |].
  intros x. destruct (truthy x); [exact Hb | apply keeps_ret].
Qed.

Lemma keeps_Delay10KTCYx (n : Z) :
  keeps (credited env s0) (Delay10KTCYx env n).
Proof.
  intros s s' x H C. inversion H; subst. apply credited_ticks, C.
Qed.

Lemma keeps_wait_debounce (n : nat) :
  keeps (credited env s0) (wait_debounce env n).
Proof.
  induction n as [| n IH]; intros s s' x H C; cbn [wait_debounce] in H;
    destruct (_ <? _); try discriminate;
    try (inversion H; subst; exact C).
  exact (IH _ _ _ H (credited_tick _ C)).
Qed.

Ltac keeps :=
  repeat match goal with
  | |- keeps _ (bind _ _) => apply keeps_bind; [| intros ? ]
  | |- keeps _ (ret _) => apply keeps_ret
  | |- keeps _ (rd _) => apply keeps_rd
  | |- keeps _ (index _ _) => apply keeps_index
  | |- keeps _ (pin _ _) => apply keeps_pin
  | |- keeps _ (Switches _) => apply keeps_Switches
  | |- keeps _ (Delay10KTCYx _ _) => apply keeps_Delay10KTCYx
  | |- keeps _ (wait_debounce _ _) => apply keeps_wait_debounce
  | |- keeps _ (when _ _) => apply keeps_when
  | |- keeps _ (and_then _ _) => apply keeps_and_then
  | |- keeps _ (modify _) =>
      apply keeps_modify; intros ?; unfold clock_frame;
      (split; [| split; [| split; [| split]]]); reflexivity
  | |- keeps _ (if ?c then _ else _) => destruct c
  | |- keeps _ (match ?f with _ => _ end) => destruct f
  | |- keeps _ _ => solve [auto 2]
  end.

Lemma keeps_PB1pressed : keeps (credited env s0) (PB1pressed env fuel).
Proof. unfold PB1pressed. keeps. Qed.

Lemma keeps_PB2pressed : keeps (credited env s0) (PB2pressed env fuel).
Proof. unfold PB2pressed. keeps. Qed.

(** The time editors called on an alarm time, and the date editors. *)
Lemma keeps_SetTime (f : TimeField) (p : TimeRef) :
  p <> ref_MainTime -> keeps (credited env s0) (SetTime env fuel f p).
Proof.
  intros Hp. pose proof keeps_PB1pressed. pose proof keeps_PB2pressed.
  destruct p; [contradiction | |];
    destruct f; unfold SetTime, SetSecs, SetMins, SetHrs, upd_time; keeps.
Qed.

Lemma keeps_SetDate (f : DateField) (p : DateRef) :
  keeps (credited env s0) (SetDate env fuel f p).
Proof.
  pose proof keeps_PB1pressed. pose proof keeps_PB2pressed.
  destruct p;
    destruct f; unfold SetDate, SetDay, SetMonth, SetYear, day_below,
      day_equals, day_wrap_back, upd_date; keeps.
Qed.

Lemma keeps_Num2Disp (v : Z) : keeps (credited env s0) (Num2Disp v).
Proof. unfold Num2Disp. keeps. Qed.

Lemma keeps_ShowTime (f : TimeField) (p : TimeRef) :
  keeps (credited env s0) (ShowTime f p).
Proof. pose proof keeps_Num2Disp. unfold ShowTime. keeps. Qed.

Lemma keeps_ShowDate (f : DateField) (p : DateRef) :
  keeps (credited env s0) (ShowDate f p).
Proof. pose proof keeps_Num2Disp. unfold ShowDate. keeps. Qed.

Lemma keeps_flashes :
  keeps (credited env s0) (SecsFlash env)
  /\ keeps (credited env s0) (MinsFlash env)
  /\ keeps (credited env s0) (HrsFlash env)
  /\ keeps (credited env s0) (DayFlash env)
  /\ keeps (credited env s0) (MonthFlash env)
  /\ keeps (credited env s0) (YearFlash env)
  /\ keeps (credited env s0) (Alarm1Flash env)
  /\ keeps (credited env s0) (Alarm2Flash env).
Proof.
  unfold SecsFlash, MinsFlash, HrsFlash, DayFlash, MonthFlash, YearFlash,
    Alarm1Flash, Alarm2Flash, leds_and, leds_or, dp_on, blink.
  do 7 (split; [solve [keeps] |]). keeps.
Qed.

Lemma keeps_toggles :
  keeps (credited env s0) (Alarm1_toggle env fuel)
  /\ keeps (credited env s0) (Alarm2_toggle env fuel).
Proof.
  pose proof keeps_PB1pressed. pose proof keeps_PB2pressed.
  unfold Alarm1_toggle, Alarm2_toggle. split; keeps.
Qed.

Lemma keeps_show_Er (code : Z) : keeps (credited env s0) (show_Er code).
Proof. unfold show_Er. keeps. Qed.

(** A pass that starts outside the loops that edit the clock of record and
    is not the menu's own. *)
Lemma keeps_step (l : Loc) :
  clock_edit l = false -> l <> AtSetMenu ->
  keeps (credited env s0) (step env fuel l).
Proof.
  intros L N.
  pose proof keeps_SetDate. pose proof keeps_ShowTime.
  pose proof keeps_ShowDate. pose proof keeps_show_Er.
  pose proof (fun f => keeps_SetTime f ref_Alarm1Time ltac:(discriminate)).
  pose proof (fun f => keeps_SetTime f ref_Alarm2Time ltac:(discriminate)).
  destruct keeps_flashes as (? & ? & ? & ? & ? & ? & ? & ?).
  destruct keeps_toggles as (? & ?).
  destruct l; try discriminate L; try contradiction;
    unfold step, SetAlarm1_dispatch, SetAlarm2_dispatch; keeps.
Qed.

(** The pass of the menu, when it does not enter a loop that edits the
    clock of record. *)
Lemma keeps_menu (s s1 : State) (l1 : Loc) :
  step env fuel AtSetMenu s = Ok (l1, s1) -> clock_edit l1 = false ->
  credited env s0 s -> credited env s0 s1.
Proof.
  intros E L C.
  destruct keeps_flashes as (_ & _ & _ & _ & _ & _ & K1 & K2).
  unfold step in E.
  rewrite (bind_Ok _ _ _ _ _ (Switches_reads env s)) in E.
  destruct (negb (switch_value env s =? 0));
    [| inversion E; subst; exact C].
  unfold SetMenu_dispatch in E.
  rewrite (bind_Ok _ _ _ _ _ (Switches_reads env s)) in E.
  repeat match type of E with
         | (if ?c then _ else _) _ = _ =>
             destruct c;
             [ first
                 [ apply ends_at in E; subst l1; discriminate L
                 | revert E C; match goal with
                               | |- ?m s = Ok (l1, s1) -> _ =>
                                   assert (K : keeps (credited env s0) m)
                                     by (pose proof keeps_show_Er; keeps);
                                   intros E C; exact (K _ _ _ E C)
                               end ]
             | ]
         end.
  assert (K : keeps (credited env s0) (show_Er 0x02 ;; ret AtSetMenu))
    by (pose proof keeps_show_Er; keeps).
  exact (K _ _ _ E C).
Qed.

End Running.

(** A pass from a loop other than the menu's cannot enter a loop that edits
    the clock of record. *)
Lemma leaves_step (l : Loc) :
  clock_edit l = false -> l <> AtSetMenu -> leaves_TMR1IE (step env fuel l).
Proof.
  intros L N.
  pose proof leaves_SetTime. pose proof leaves_SetDate.
  pose proof leaves_ShowTime. pose proof leaves_ShowDate.
  pose proof leaves_show_Er.
  destruct leaves_flashes as (? & ? & ? & ? & ? & ? & ? & ?).
  destruct leaves_toggles as (? & ?).
  destruct l; try discriminate L; try contradiction;
    unfold step, SetAlarm1_dispatch, SetAlarm2_dispatch; leaves.
Qed.

(** Every move from a loop head of a run is accounted for. *)
Lemma moves_accounted (e : event) (l : Loc) (s : State) :
  wf s -> TMR1IE s = negb (clock_edit l) -> accounted env fuel e l s.
Proof.
  intros W H. destruct e.
  - exists l, (tick env s). split; [reflexivity |].
    rewrite orb_diag. destruct (clock_edit l); cbn [negb] in H.
    + intros env' _. exists (tick env' s). split; [reflexivity |].
      destruct (blind_tick env' s (TMR1IF s) H) as [b' Eb].
      rewrite set_TMR1IF_eta in Eb. rewrite Eb.
      exists b'. reflexivity.
    + apply credited_tick, credited_start, H.
  - destruct (safe_step l s W) as (l1 & s1 & E & _).
    exists l1, s1. cbn [run]. rewrite E. split; [reflexivity |].
    destruct (clock_edit l) eqn:L; cbn [negb orb] in H |- *.
    + intros env' S'.
      destruct (frozen_step env' S' l l1 s s1 L H E) as [b' E'].
      rewrite E'. eexists. split; [reflexivity | exists b'; reflexivity].
    + destruct (clock_edit l1) eqn:L1.
      * intros env' S'.
        assert (T1 : TMR1IE s1 = false)
          by (rewrite (step_lands l _ _ _ E); [rewrite L1 | rewrite L];
              auto).
        destruct (Loc_eq_menu l) as [-> | N];
          [| rewrite (leaves_step l L N _ _ _ E) in T1; congruence].
        destruct (entry_step env' S' l1 s s1 L1 E) as [b' E'].
        rewrite E'. eexists. split; [reflexivity | exists b'; reflexivity].
      * destruct (Loc_eq_menu l) as [-> | N].
        -- exact (keeps_menu s s s1 l1 E L1 (credited_start s H)).
        -- exact (keeps_step s l L N s s1 l1 E (credited_start s H)).
Qed.

(** C6. A run of the settings menu entered with the seconds interrupt
    enabled executes every schedule of periods and program moves.  At each
    loop head it reaches TMR1IE is clear if the loop is one of the six that
    edit the clock of record and set otherwise.  Every move from such a
    loop head, a period going by or a pass of the program, is accounted
    for: a move that starts or ends in one of the six loops is made with
    the seconds clock frozen from its first period to its last, the flash
    of the mnemonic on entry included (whatever Timer1 does, the machine
    arrives at the same loop head in the same state, up to the pending
    flag); every other move, those of the alarm menus with their edit and
    on/off loops included, is made with the clock running (TMR1IE set at
    the end, and the seconds routine run on the clock of record once for
    each period in which it was due). *)
Theorem seconds_clock_frozen_in_clock_edits (es : list event) (s0 : State) :
  wf s0 ->
  TMR1IE s0 = true ->
  exists (l : Loc) (s : State),
    run env fuel es AtSetMenu s0 = Ok (l, s)
    /\ TMR1IE s = negb (clock_edit l)
    /\ forall e, accounted env fuel e l s.
Proof.
  intros W H0. destruct (run_total es AtSetMenu s0 W) as (l & s & E & Ws).
  exists l, s. split; [exact E |].
  pose proof (run_lands es _ _ _ _ E H0) as T.
  split; [exact T |]. intros e. exact (moves_accounted e l s Ws T).
Qed.

End Settings.

Lemma seconds_clock_frozen_in_clock_edits_witness :
  exists (l : Loc) (s : State),
    run seconds_switch_overflowing 25 [Advance] AtSetMenu power_on = Ok (l, s)
    /\ TMR1IE s = negb (clock_edit l)
    /\ l = AtSetTime f_secs
    /\ accounted seconds_switch_overflowing 25 Advance l s.
Proof.
  assert (F : (Z.to_nat DEBOUNCE_DELAY <= 25)%nat) by (cbn; lia).
  assert (W : wf power_on)
    by (split; intros p; destruct p; cbn; unfold wf_time, wf_date, is_char;
        cbn; lia).
  destruct (seconds_clock_frozen_in_clock_edits seconds_switch_overflowing 25
              F [Advance] power_on W eq_refl) as (l & s & E & T & A).
  exists l, s. split; [exact E | split; [exact T |]].
  split; [| exact (A Advance)].
  vm_compute in E. congruence.
Defined.

(** C6, the claim as stated, fails: with switch 7 set the menu enters the
    Alarm1 menu, and with switch 0 added it enters the loop that edits the
    seconds of Alarm1, where TMR1IE is still set. *)
Lemma Alarm1_seconds_edit_not_frozen : ~ frozen_in_every_edit_state.
Proof.
  intros H.
  assert (E : exists s,
             run alarm1_then_seconds 25 [Advance; Advance] AtSetMenu power_on
             = Ok (AtAlarm1Time f_secs, s) /\ TMR1IE s = true).
  { vm_compute. eexists. split; reflexivity. }
  destruct E as (s & E & T).
  specialize (H alarm1_then_seconds 25%nat [Advance; Advance] power_on s
                (AtAlarm1Time f_secs) eq_refl E eq_refl).
  congruence.
Qed.
(** * Further properties of the firmware *)

(** ** Leap years *)

Lemma leap_in_century (year : Z) :
  2000 <= year <= 2099 ->
  CalcLeapYear year = (if (year - 2000) mod 4 =? 0 then 1 else 0).
Proof.
  intros H. unfold CalcLeapYear.
  assert (E4 : year mod 4 = (year - 2000) mod 4).
  { replace year with (year - 2000 + 500 * 4) at 1 by lia.
    apply Z.mod_add. lia. }
  rewrite E4. destruct (Z.eqb_spec ((year - 2000) mod 4) 0); [| reflexivity].
  destruct (Z.eq_dec year 2000) as [-> | N]; [reflexivity |].
  assert (E100 : year mod 100 = year - 2000).
  { replace year with (year - 2000 + 20 * 100) at 1 by lia.
    rewrite Z.mod_add by lia. apply Z.mod_small. lia. }
  rewrite E100. destruct (Z.eqb_spec (year - 2000) 0); [lia | reflexivity].
Qed.

(** X1. Within the century of the clock [CalcLeapYear] returns 1 for the
    years whose two-digit year is a multiple of 4, 2000 included, and 0 for
    all others. *)
Theorem CalcLeapYear_in_century (year : Z) :
  2000 <= year <= 2099 ->
  CalcLeapYear year = (if (year - 2000) mod 4 =? 0 then 1 else 0).
Proof. exact (leap_in_century year). Qed.

Lemma CalcLeapYear_in_century_witness :
  CalcLeapYear 2016 = (if (2016 - 2000) mod 4 =? 0 then 1 else 0).
Proof. apply (CalcLeapYear_in_century 2016). lia. Defined.

(** ** The seconds interrupt over time *)

Lemma Timer1_isr_step (s : State) :
  0 <= secs (MainTime s) <= 59 -> is_char (mins_rollover s) ->
  secs (MainTime (Timer1_isr s)) = (secs (MainTime s) + 1) mod 60
  /\ mins_rollover (Timer1_isr s)
     = wrap8 (mins_rollover s + (secs (MainTime s) + 1) / 60).
Proof.
  intros H Hr. unfold is_char in Hr. unfold Timer1_isr.
  destruct (Z.ltb_spec (secs (MainTime s)) 59); cbn.
  - rewrite Z.div_small, Z.add_0_r, Z.mod_small by lia.
    rewrite !wrap8_small by lia. split; reflexivity.
  - replace (secs (MainTime s)) with 59 by lia. split; reflexivity.
Qed.

Lemma wrap8_range (x : Z) : is_char (wrap8 x).
Proof.
  unfold is_char, wrap8. pose proof (Z.mod_pos_bound x 256). lia.
Qed.

Lemma Timer1_isr_frame (s : State) :
  hrs (MainTime (Timer1_isr s)) = hrs (MainTime s)
  /\ mins (MainTime (Timer1_isr s)) = mins (MainTime s)
  /\ MainDate (Timer1_isr s) = MainDate s.
Proof. unfold Timer1_isr. destruct (_ <? 59); repeat split. Qed.

Lemma carry_60 (a : Z) :
  0 <= a ->
  (a mod 60 + 1) mod 60 = (a + 1) mod 60
  /\ a / 60 + (a mod 60 + 1) / 60 = (a + 1) / 60.
Proof. intros H. Z.div_mod_to_equations. lia. Qed.

(** X2. Any number of firings of the seconds interrupt counts modulo 60:
    from a seconds value in 0..59, [n] firings leave the seconds at
    [(secs + n) mod 60] and add one minute rollover for each multiple of 60
    passed, to the 8-bit rollover count; hours, minutes and the date are not
    touched. *)
Theorem Timer1_isr_iterated (n : nat) (s : State) :
  0 <= secs (MainTime s) <= 59 ->
  is_char (mins_rollover s) ->
  secs (MainTime (Nat.iter n Timer1_isr s))
  = (secs (MainTime s) + Z.of_nat n) mod 60
  /\ mins_rollover (Nat.iter n Timer1_isr s)
     = wrap8 (mins_rollover s + (secs (MainTime s) + Z.of_nat n) / 60)
  /\ hrs (MainTime (Nat.iter n Timer1_isr s)) = hrs (MainTime s)
  /\ mins (MainTime (Nat.iter n Timer1_isr s)) = mins (MainTime s)
  /\ MainDate (Nat.iter n Timer1_isr s) = MainDate s.
Proof.
  intros H Hr. induction n as [| n IH].
  - cbn [Nat.iter]. rewrite Z.add_0_r, Z.mod_small, Z.div_small by lia.
    rewrite Z.add_0_r, wrap8_small by exact Hr. repeat split.
  - rewrite Nat.iter_succ.
    destruct IH as (Es & Er & Eh & Em & Ed).
    set (a := secs (MainTime s) + Z.of_nat n) in *.
    assert (Ha : 0 <= a) by (unfold a; lia).
    assert (Hs : 0 <= secs (MainTime (Nat.iter n Timer1_isr s)) <= 59)
      by (rewrite Es; pose proof (Z.mod_pos_bound a 60); lia).
    assert (Hc : is_char (mins_rollover (Nat.iter n Timer1_isr s)))
      by (rewrite Er; apply wrap8_range).
    destruct (Timer1_isr_step _ Hs Hc) as [E1 E2].
    destruct (Timer1_isr_frame (Nat.iter n Timer1_isr s)) as (Fh & Fm & Fd).
    destruct (carry_60 a Ha) as [C1 C2].
    replace (secs (MainTime s) + Z.of_nat (S n)) with (a + 1) by (unfold a; lia).
    split; [rewrite E1, Es; exact C1 |].
    split; [| split; [congruence | split; congruence]].
    rewrite E2, Er, Es. unfold wrap8.
    rewrite Zplus_mod_idemp_l. f_equal. lia.
Qed.

Lemma Timer1_isr_iterated_witness :
  secs (MainTime (Nat.iter 60 Timer1_isr power_on)) = (0 + Z.of_nat 60) mod 60
  /\ mins_rollover (Nat.iter 60 Timer1_isr power_on)
     = wrap8 (0 + (0 + Z.of_nat 60) / 60).
Proof.
  destruct (Timer1_isr_iterated 60 power_on) as (H1 & H2 & _).
  - cbn. lia.
  - unfold is_char. cbn. lia.
  - split; [exact H1 | exact H2].
Defined.

(** ** The millisecond interrupt *)

Lemma Timer0_isr_index (s : State) :
  multiplex_index (Timer0_isr s) =
  (if multiplex_index s =? 1 then 2
   else if multiplex_index s =? 2 then 3 else 1).
Proof.
  unfold Timer0_isr.
  destruct (Z.eqb_spec (multiplex_index s) 1) as [E | N1].
  - cbn. rewrite E. reflexivity.
  - destruct (Z.eqb_spec (multiplex_index s) 2) as [E | N2].
    + cbn. rewrite E. reflexivity.
    + destruct (Z.eqb_spec (multiplex_index s) 3); reflexivity.
Qed.

Lemma Timer0_isr_buffers (s : State) :
  disp_LEDS (Timer0_isr s) = disp_LEDS s
  /\ disp_U1 (Timer0_isr s) = disp_U1 s
  /\ disp_U2 (Timer0_isr s) = disp_U2 s
  /\ dp_mask (Timer0_isr s) = dp_mask s.
Proof.
  unfold Timer0_isr.
  destruct (_ =? 1); [| destruct (_ =? 2); [| destruct (_ =? 3)]];
    repeat split.
Qed.

Lemma Timer0_isr_LATF (s : State) :
  LATF (Timer0_isr s) =
  (if multiplex_index s =? 1 then disp_LEDS s
   else if multiplex_index s =? 2 then Z.land (disp_U1 s) (dp_mask s)
   else if multiplex_index s =? 3 then disp_U2 s else LATF s).
Proof.
  unfold Timer0_isr.
  destruct (_ =? 1); [| destruct (_ =? 2); [| destruct (_ =? 3)]];
    reflexivity.
Qed.

(** X3. Whatever the multiplex index was, after one firing of the
    millisecond interrupt it is 1, 2 or 3, and from then on every three
    consecutive firings put the LED pattern, the first digit (masked by the
    decimal-point mask) and the second digit on port F, once each and in
    that order from index 1, and return to the same index; the four display
    buffers are never written by the interrupt. *)
Theorem Timer0_isr_round_robin (s : State) :
  1 <= multiplex_index (Timer0_isr s) <= 3
  /\ (multiplex_index s = 1 ->
      let s1 := Timer0_isr s in
      let s2 := Timer0_isr s1 in
      let s3 := Timer0_isr s2 in
      LATF s1 = disp_LEDS s
      /\ LATF s2 = Z.land (disp_U1 s) (dp_mask s)
      /\ LATF s3 = disp_U2 s
      /\ multiplex_index s3 = 1)
  /\ (1 <= multiplex_index s <= 3 ->
      multiplex_index (Timer0_isr (Timer0_isr (Timer0_isr s)))
      = multiplex_index s)
  /\ disp_LEDS (Timer0_isr s) = disp_LEDS s
  /\ disp_U1 (Timer0_isr s) = disp_U1 s
  /\ disp_U2 (Timer0_isr s) = disp_U2 s
  /\ dp_mask (Timer0_isr s) = dp_mask s.
Proof.
  split; [| split; [| split; [| apply Timer0_isr_buffers]]].
  - rewrite Timer0_isr_index.
    destruct (_ =? 1); [| destruct (_ =? 2)]; lia.
  - intros E. cbv zeta.
    destruct (Timer0_isr_buffers s) as (B1 & B2 & B3 & B4).
    destruct (Timer0_isr_buffers (Timer0_isr s)) as (C1 & C2 & C3 & C4).
    assert (I1 : multiplex_index (Timer0_isr s) = 2)
      by (rewrite Timer0_isr_index, E; reflexivity).
    assert (I2 : multiplex_index (Timer0_isr (Timer0_isr s)) = 3)
      by (rewrite Timer0_isr_index, I1; reflexivity).
    split; [rewrite Timer0_isr_LATF, E; reflexivity |].
    split; [rewrite Timer0_isr_LATF, I1, B2, B4; reflexivity |].
    split; [rewrite Timer0_isr_LATF, I2, C3, B3; reflexivity |].
    rewrite Timer0_isr_index, I2. reflexivity.
  - intros H. rewrite !Timer0_isr_index.
    assert (C : multiplex_index s = 1 \/ multiplex_index s = 2
                \/ multiplex_index s = 3) by lia.
    destruct C as [E | [E | E]]; rewrite E; reflexivity.
Qed.

Lemma Timer0_isr_round_robin_witness :
  LATF (Timer0_isr power_on) = disp_LEDS power_on
  /\ multiplex_index (Timer0_isr (Timer0_isr (Timer0_isr power_on)))
     = multiplex_index power_on.
Proof.
  destruct (Timer0_isr_round_robin power_on) as (_ & H1 & H2 & _).
  split.
  - apply (H1 eq_refl).
  - apply H2. cbn. lia.
Defined.

(** ** When [CalcTime] yields a time of day *)

Ltac ct_simpl :=
  cbn [MainTime set_MainTime hrs mins secs set_mins set_hrs mins_rollover
       set_mins_rollover day_rollover set_day_rollover].

(** X4. For a time of day and a rollover count whose sum with the minutes
    fits a char, [CalcTime] leaves hours in 0..23, and leaves minutes in
    0..59 exactly when the sum is at most 58 or lies in 60..119; in those
    cases the minutes of the day are advanced by the rollover count, modulo
    a day, and the day-rollover signal is raised exactly when midnight was
    passed.  A sum of 59 or of 120 and more leaves minutes out of range. *)
Theorem CalcTime_time_of_day (s : State) :
  0 <= hrs (MainTime s) <= 23 ->
  0 <= mins (MainTime s) <= 59 ->
  0 <= mins_rollover s ->
  mins (MainTime s) + mins_rollover s <= 255 ->
  let total := mins (MainTime s) + mins_rollover s in
  let s' := CalcTime s in
  0 <= hrs (MainTime s') <= 23
  /\ (0 <= mins (MainTime s') <= 59 <-> total <= 58 \/ 60 <= total <= 119)
  /\ (total <= 58 \/ 60 <= total <= 119 ->
      (60 * hrs (MainTime s') + mins (MainTime s')
       = (60 * hrs (MainTime s) + total) mod 1440)
      /\ (1440 <= 60 * hrs (MainTime s) + total -> day_rollover s' = 1)
      /\ (60 * hrs (MainTime s) + total < 1440 ->
          day_rollover s' = day_rollover s))
  /\ secs (MainTime s') = secs (MainTime s)
  /\ mins_rollover s' = 0.
Proof.
  intros Hh Hm Hr Hc. cbv zeta. unfold CalcTime.
  rewrite (wrap8_small (_ + _)) by lia.
  destruct (Z.ltb_spec (mins (MainTime s) + mins_rollover s) 59) as [L | L].
  - ct_simpl. rewrite (Z.mod_small (60 * _ + _)) by lia.
    repeat split; intros; try lia.
  - ct_simpl.
    destruct (Z.eq_dec (mins (MainTime s) + mins_rollover s) 59) as [E | N].
    + rewrite E. change (wrap8 (59 - 60)) with 255.
      destruct (Z.ltb_spec (hrs (MainTime s)) 23); ct_simpl;
        rewrite ?wrap8_small by lia; repeat split; intros; try lia.
    + rewrite (wrap8_small (_ - 60)) by lia.
      destruct (Z.ltb_spec (hrs (MainTime s)) 23); ct_simpl;
        rewrite ?wrap8_small by lia.
      * repeat split; intros; try lia.
        rewrite (Z.mod_small (60 * _ + _)) by lia. lia.
      * assert (Eh : hrs (MainTime s) = 23) by lia. rewrite Eh.
        repeat split; intros; try lia.
        replace (60 * 23 + (mins (MainTime s) + mins_rollover s))
          with ((mins (MainTime s) + mins_rollover s - 60) + 1 * 1440) by lia.
        rewrite Z.mod_add by lia. rewrite Z.mod_small by lia. lia.
Qed.

Lemma CalcTime_time_of_day_witness :
  0 <= hrs (MainTime (CalcTime (Timer1_isr new_years_eve_2016))) <= 23
  /\ 60 * hrs (MainTime (CalcTime (Timer1_isr new_years_eve_2016)))
     + mins (MainTime (CalcTime (Timer1_isr new_years_eve_2016)))
     = (60 * 23 + (59 + 1)) mod 1440
  /\ day_rollover (CalcTime (Timer1_isr new_years_eve_2016)) = 1.
Proof.
  assert (Hh : 0 <= hrs (MainTime (Timer1_isr new_years_eve_2016)) <= 23)
    by (cbn; lia).
  assert (Hm : 0 <= mins (MainTime (Timer1_isr new_years_eve_2016)) <= 59)
    by (cbn; lia).
  assert (Hr : 0 <= mins_rollover (Timer1_isr new_years_eve_2016))
    by (cbn; lia).
  assert (Hc : mins (MainTime (Timer1_isr new_years_eve_2016))
               + mins_rollover (Timer1_isr new_years_eve_2016) <= 255)
    by (cbn; lia).
  pose proof (CalcTime_time_of_day _ Hh Hm Hr Hc) as (H1 & _ & H3 & _).
  match type of H3 with
  | ?P -> _ => assert (HP : P) by (cbn; lia); specialize (H3 HP)
  end.
  destruct H3 as (E & D & _).
  split; [exact H1 | split; [exact E | apply D; cbn; lia]].
Defined.

(** ** The calendar engine keeps the date on the calendar *)

Lemma month_lengths (m : Z) :
  1 <= m <= 12 ->
  28 <= nth (Z.to_nat m) DaysInMonth 0 <= 31
  /\ 28 <= nth (Z.to_nat m) DaysInMonthLeap 0 <= 31.
Proof.
  intros H.
  assert (K : (1 <= Z.to_nat m <= 12)%nat) by lia.
  revert K. generalize (Z.to_nat m). intros k K.
  destruct k as [| k]; [lia |].
  do 12 (destruct k as [| k]; [cbn; lia |]). lia.
Qed.

Lemma days_in_bounds (y m : Z) : 1 <= m <= 12 -> 28 <= days_in y m <= 31.
Proof.
  intros H. unfold days_in. destruct (month_lengths m H).
  destruct (_ =? 0); assumption.
Qed.

(** X5. From a date of the calendar in 2000..2099 whose two year fields
    agree, [CalcDate] returns and leaves such a date again; it clears the
    day-rollover signal and does not touch the time. *)
Theorem CalcDate_keeps_calendar (s : State) :
  calendar_date (MainDate s) ->
  exists s',
    CalcDate s = Ok (tt, s')
    /\ calendar_date (MainDate s')
    /\ day_rollover s' = 0
    /\ MainTime s' = MainTime s.
Proof.
  intros (Hm & Hd & Hy & Hs).
  pose proof (days_in_bounds (year_long (MainDate s)) _ Hm) as Hb.
  pose proof (leap_in_century _ Hy) as HL.
  unfold days_in in Hd, Hb.
  unfold CalcDate, bind, modify, rd.
  change (MainDate (set_day_rollover 0 s)) with (MainDate s).
  destruct (CalcLeapYear (year_long (MainDate s)) =? 0) eqn:EL;
    cbv beta iota; rewrite index_in_range by (cbn; lia);
    match goal with
    | |- context [ day (MainDate s) <? ?n ] =>
        destruct (Z.ltb_spec (day (MainDate s)) n) as [Lt | Ge]
    end.
  - eexists. split; [reflexivity |]. split; [| split; reflexivity].
    unfold calendar_date. cbn. unfold days_in. rewrite EL.
    rewrite wrap8_small by lia. lia.
  - cbn [month set_day].
    destruct (Z.ltb_spec (month (MainDate s)) 12) as [M | M].
    + eexists. split; [reflexivity |]. split; [| split; reflexivity].
      unfold calendar_date. cbn. rewrite wrap8_small by lia.
      pose proof (days_in_bounds (year_long (MainDate s))
                    (month (MainDate s) + 1)). lia.
    + cbn [year_long set_month set_day].
      destruct (Z.ltb_spec (year_long (MainDate s)) 99); [lia |].
      eexists. split; [reflexivity |]. split; [| split; reflexivity].
      unfold calendar_date. cbn [MainDate set_MainDate day month year_long
        year_short set_year_short set_year_long set_month set_day].
      change (days_in 2000 1) with 31. lia.
  - eexists. split; [reflexivity |]. split; [| split; reflexivity].
    unfold calendar_date. cbn. unfold days_in. rewrite EL.
    rewrite wrap8_small by lia. lia.
  - cbn [month set_day].
    destruct (Z.ltb_spec (month (MainDate s)) 12) as [M | M].
    + eexists. split; [reflexivity |]. split; [| split; reflexivity].
      unfold calendar_date. cbn. rewrite wrap8_small by lia.
      pose proof (days_in_bounds (year_long (MainDate s))
                    (month (MainDate s) + 1)). lia.
    + eexists. split; [reflexivity |]. split; [| split; reflexivity].
      assert (Y : year_long (MainDate s) <= 2096).
      { destruct (Z.eqb_spec ((year_long (MainDate s) - 2000) mod 4) 0)
          as [E | N]; [| rewrite HL in EL; discriminate EL].
        revert E. Z.div_mod_to_equations. lia. }
      unfold calendar_date, next_year. cbn. rewrite Hs.
      rewrite wrap8_small, wrap16_small by lia.
      pose proof (days_in_bounds (year_long (MainDate s) + 1) 1). lia.
Qed.

Lemma CalcDate_keeps_calendar_witness :
  exists s',
    CalcDate new_years_eve_2017 = Ok (tt, s')
    /\ calendar_date (MainDate s')
    /\ day_rollover s' = 0
    /\ MainTime s' = MainTime new_years_eve_2017.
Proof.
  apply (CalcDate_keeps_calendar new_years_eve_2017).
  unfold calendar_date. repeat split; vm_compute; congruence.
Defined.

(** ** The switch bank *)

Lemma testbit_0x0F (i : Z) : 0 <= i -> Z.testbit 0x0F i = (i <? 4).
Proof.
  intros H. change 0x0F with (Z.ones 4). apply Z.testbit_ones_nonneg; lia.
Qed.

Lemma testbit_0xF0 (i : Z) :
  0 <= i -> Z.testbit 0xF0 i = (4 <=? i) && (i <? 8).
Proof.
  intros H. change 0xF0 with (Z.shiftl (Z.ones 4) 4).
  rewrite Z.shiftl_spec by lia.
  destruct (Z.leb_spec 4 i).
  - rewrite Z.testbit_ones_nonneg by lia. cbn [andb].
    destruct (Z.ltb_spec (i - 4) 4), (Z.ltb_spec i 8); try lia; reflexivity.
  - rewrite Z.testbit_neg_r by lia. reflexivity.
Qed.

Lemma switch_bits (c h i : Z) :
  0 <= i ->
  Z.testbit (Z.lor (Z.land (Z.shiftr c 2) 0x0F) (Z.land h 0xF0)) i =
  (if i <? 4 then Z.testbit c (i + 2)
   else if i <? 8 then Z.testbit h i else false).
Proof.
  intros H. rewrite Z.lor_spec, !Z.land_spec, Z.shiftr_spec by lia.
  rewrite testbit_0x0F, testbit_0xF0 by lia.
  destruct (Z.ltb_spec i 4), (Z.ltb_spec i 8), (Z.leb_spec 4 i); try lia;
    cbn [andb orb]; rewrite ?andb_true_r, ?andb_false_r, ?orb_false_r;
    reflexivity.
Qed.

(** X6. [Switches] never fails and never changes the state.  Its result is
    a char: bits 0..3 are bits 2..5 of port C, bits 4..7 are bits 4..7 of
    port H, and no other bit of either port enters. *)
Theorem Switches_bits (env : nat -> Pins) (s : State) :
  exists v,
    Switches env s = Ok (v, s)
    /\ 0 <= v <= 255
    /\ forall i, 0 <= i ->
         Z.testbit v i =
         (if i <? 4 then Z.testbit (PORTC (env (now s))) (i + 2)
          else if i <? 8 then Z.testbit (PORTH (env (now s))) i
          else false).
Proof.
  eexists. split; [reflexivity |]. cbv zeta.
  set (v := Z.lor _ _).
  assert (B : forall i, 0 <= i ->
            Z.testbit v i =
            (if i <? 4 then Z.testbit (PORTC (env (now s))) (i + 2)
             else if i <? 8 then Z.testbit (PORTH (env (now s))) i
             else false))
    by (intros i Hi; apply switch_bits; exact Hi).
  split; [| exact B].
  assert (E : v = v mod 2 ^ 8).
  { rewrite <- Z.land_ones by lia. apply Z.bits_inj'. intros i Hi.
    rewrite Z.land_spec, Z.testbit_ones_nonneg by lia.
    destruct (Z.ltb_spec i 8); [rewrite andb_true_r; reflexivity |].
    rewrite andb_false_r, B by lia.
    destruct (Z.ltb_spec i 4); [lia |].
    destruct (Z.ltb_spec i 8); [lia | reflexivity]. }
  pose proof (Z.mod_pos_bound v (2 ^ 8)). change (2 ^ 8) with 256 in *. lia.
Qed.

(** ** Reading the display back *)

Lemma DispNums_distinct : NoDup DispNums.
Proof.
  unfold DispNums.
  repeat (constructor; [cbn; intuition discriminate |]). constructor.
Qed.

Lemma digit_index (v : Z) :
  0 <= v <= 99 ->
  (Z.to_nat (v / 10) < length DispNums)%nat
  /\ (Z.to_nat (v mod 10) < length DispNums)%nat.
Proof.
  intros H. change (length DispNums) with 10%nat.
  assert (0 <= v / 10 < 10)
    by (split; [apply Z.div_pos | apply Z.div_lt_upper_bound]; lia).
  assert (0 <= v mod 10 < 10) by (apply Z.mod_pos_bound; lia).
  lia.
Qed.

(** X7. The two digit patterns [Num2Disp] writes determine the value: two
    values in 0..99 that leave the same patterns in [disp_U2] and [disp_U1]
    are equal. *)
Theorem Num2Disp_readable (v w : Z) (s1 s2 s1' s2' : State) :
  0 <= v <= 99 -> 0 <= w <= 99 ->
  Num2Disp v s1 = Ok (tt, s1') ->
  Num2Disp w s2 = Ok (tt, s2') ->
  disp_U2 s1' = disp_U2 s2' -> disp_U1 s1' = disp_U1 s2' ->
  v = w.
Proof.
  intros Hv Hw E1 E2 H2 H1.
  rewrite Num2Disp_digits in E1, E2 by assumption.
  inversion E1; subst s1'. inversion E2; subst s2'. clear E1 E2.
  cbn [disp_U1 disp_U2 set_disp_U1 set_disp_U2] in H1, H2.
  destruct (digit_index v Hv) as [Tv Uv].
  destruct (digit_index w Hw) as [Tw Uw].
  apply (proj1 (NoDup_nth DispNums 0) DispNums_distinct _ _ Tv Tw) in H2.
  apply (proj1 (NoDup_nth DispNums 0) DispNums_distinct _ _ Uv Uw) in H1.
  assert (0 <= v / 10) by (apply Z.div_pos; lia).
  assert (0 <= w / 10) by (apply Z.div_pos; lia).
  assert (0 <= v mod 10 < 10) by (apply Z.mod_pos_bound; lia).
  assert (0 <= w mod 10 < 10) by (apply Z.mod_pos_bound; lia).
  rewrite (Z.div_mod v 10), (Z.div_mod w 10) by lia. lia.
Qed.

Lemma Num2Disp_readable_witness :
  Num2Disp 42 power_on
  = Ok (tt, set_disp_U1 0x4C (set_disp_U2 0x35 power_on))
  /\ Num2Disp 42 two_to_eleven
     = Ok (tt, set_disp_U1 0x4C (set_disp_U2 0x35 two_to_eleven))
  /\ 42 = 42.
Proof.
  split; [reflexivity | split; [reflexivity |]].
  apply (Num2Disp_readable 42 42 power_on two_to_eleven
           (set_disp_U1 0x4C (set_disp_U2 0x35 power_on))
           (set_disp_U1 0x4C (set_disp_U2 0x35 two_to_eleven)));
    solve [lia | reflexivity].
Defined.

(** ** What [CurrentDisplay] shows *)

(** X8. For an index in 0..5 [CurrentDisplay] renders the field
    [shown_field] of the clock of record and always ends with the LED marker
    of that field: a value up to 99 is shown as its two digits, and a larger
    char is shown as 'Er' while the LEDs carry the field marker instead of
    the error code 0x01 that [Num2Disp] had set. *)
Theorem CurrentDisplay_marks_field (i : Z) (s : State) :
  0 <= i <= 5 ->
  is_char (shown_field i s) ->
  exists s',
    CurrentDisplay i s = Ok (tt, s')
    /\ disp_LEDS s' = field_marker i
    /\ (shown_field i s <= 99 ->
        disp_U2 s' = nth (Z.to_nat (shown_field i s / 10)) DispNums 0
        /\ disp_U1 s' = nth (Z.to_nat (shown_field i s mod 10)) DispNums 0)
    /\ (99 < shown_field i s ->
        disp_U2 s' = DispChars.E /\ disp_U1 s' = DispChars.r).
Proof.
  intros Hi Hc. unfold is_char in Hc.
  assert (C : i = 0 \/ i = 1 \/ i = 2 \/ i = 3 \/ i = 4 \/ i = 5) by lia.
  destruct C as [E | [E | [E | [E | [E | E]]]]]; subst i;
    unfold CurrentDisplay, shown_field, field_marker in *;
    cbn [Z.eqb Pos.eqb] in *; rewrite bind_rd;
    match goal with
    | |- context [ Num2Disp ?v ] =>
        destruct (Z.ltb_spec 99 v) as [L | L];
        [ rewrite (bind_Ok _ _ _ _ _ (Num2Disp_error v s L))
        | rewrite (bind_Ok _ _ _ _ _
                     (Num2Disp_digits v s (conj (proj1 Hc) L))) ]
    end;
    (eexists; split; [reflexivity |]; split; [reflexivity |];
     split; intros; solve [lia | split; reflexivity]).
Qed.

Lemma CurrentDisplay_marks_field_witness :
  exists s',
    CurrentDisplay 4 (CalcTime two_to_eleven) = Ok (tt, s')
    /\ disp_LEDS s' = MINS
    /\ disp_U2 s' = DispChars.E /\ disp_U1 s' = DispChars.r.
Proof.
  destruct (CurrentDisplay_marks_field 4 (CalcTime two_to_eleven))
    as (s' & E & L & _ & H).
  - lia.
  - unfold is_char. cbn. lia.
  - exists s'. split; [exact E | split; [exact L |]].
    apply H. cbn. lia.
Defined.

(** ** Time in the reactive part *)

Section Elapsing.

Variable env : nat -> Pins.

(** Anything a period leaves alone is left alone by any number of
    periods, and by the debounce wait if the wait's counter does not enter
    it. *)
Lemma ticks_frame {B} (f : State -> B) (n : nat) (s : State) :
  (forall x, f (tick env x) = f x) ->
  f (Nat.iter n (tick env) s) = f s.
Proof.
  intros H. induction n as [| n IH]; [reflexivity |].
  rewrite Nat.iter_succ, H. exact IH.
Qed.

Lemma ticks_ms_count1 (n : nat) (s : State) :
  ms_count1 s = 0 -> Z.of_nat n <= 65535 ->
  ms_count1 (Nat.iter n (tick env) s) = Z.of_nat n.
Proof.
  intros H0. induction n as [| n IH]; intros Hn; [exact H0 |].
  rewrite Nat.iter_succ, tick_ms_count1, IH by lia.
  rewrite wrap16_small by lia. lia.
Qed.

(** A period with the seconds interrupt disabled: the clock of record and
    the rollover count stand still, and a Timer1 overflow is latched. *)
Lemma tick_frozen (s : State) :
  TMR1IE s = false ->
  MainTime (tick env s) = MainTime s
  /\ mins_rollover (tick env s) = mins_rollover s
  /\ TMR1IE (tick env s) = false
  /\ TMR1IF (tick env s) = TMR1IF s || TMR1_overflow (env (now s)).
Proof.
  intros H. unfold tick. cbv zeta.
  assert (F : forall x,
            MainTime (set_now (S (now s)) (Timer0_isr x)) = MainTime x
            /\ mins_rollover (set_now (S (now s)) (Timer0_isr x))
               = mins_rollover x
            /\ TMR1IE (set_now (S (now s)) (Timer0_isr x)) = TMR1IE x
            /\ TMR1IF (set_now (S (now s)) (Timer0_isr x)) = TMR1IF x).
  { intros x. unfold Timer0_isr.
    destruct (_ =? 1); [| destruct (_ =? 2); [| destruct (_ =? 3)]];
      repeat split. }
  destruct (TMR1_overflow (env (now s))).
  - change (TMR1IE (set_TMR1IF true s)) with (TMR1IE s). rewrite H.
    cbn [andb]. destruct (F (set_TMR1IF true s)) as (-> & -> & -> & ->).
    cbn. rewrite orb_true_r. auto.
  - rewrite H. cbn [andb]. destruct (F s) as (-> & -> & -> & ->).
    rewrite orb_false_r. auto.
Qed.

(** X9. While TMR1IE is clear no number of periods changes the clock of
    record or the minute-rollover count, whatever Timer1 does; TMR1IF ends
    set exactly if it was set or Timer1 overflowed in one of those periods.
    In the first period after TMR1IE is set again with TMR1IF pending, the
    seconds routine runs once and TMR1IF is cleared: a freeze credits at
    most one second, however many overflows it spanned. *)
Theorem frozen_clock (n : nat) (s : State) :
  TMR1IE s = false ->
  MainTime (Nat.iter n (tick env) s) = MainTime s
  /\ mins_rollover (Nat.iter n (tick env) s) = mins_rollover s
  /\ TMR1IE (Nat.iter n (tick env) s) = false
  /\ (TMR1IF (Nat.iter n (tick env) s) = true <->
      TMR1IF s = true
      \/ exists t, (now s <= t < now s + n)%nat
                   /\ TMR1_overflow (env t) = true)
  /\ (TMR1IF (Nat.iter n (tick env) s) = true ->
      let r := tick env (set_TMR1IE true (Nat.iter n (tick env) s)) in
      MainTime r = MainTime (Timer1_isr s)
      /\ mins_rollover r = mins_rollover (Timer1_isr s)
      /\ TMR1IF r = false).
Proof.
  intros H.
  assert (K : MainTime (Nat.iter n (tick env) s) = MainTime s
              /\ mins_rollover (Nat.iter n (tick env) s) = mins_rollover s
              /\ TMR1IE (Nat.iter n (tick env) s) = false
              /\ (TMR1IF (Nat.iter n (tick env) s) = true <->
                  TMR1IF s = true
                  \/ exists t, (now s <= t < now s + n)%nat
                               /\ TMR1_overflow (env t) = true)).
  { induction n as [| n IH].
    - cbn [Nat.iter]. repeat split; try assumption; try tauto.
      intros [F | (t & Ht & _)]; [exact F | lia].
    - rewrite Nat.iter_succ. destruct IH as (Et & Er & Ee & Ef).
      destruct (tick_frozen _ Ee) as (Ft & Fr & Fe & Ff).
      rewrite Ft, Fr, Fe, Ff, ticks_now.
      repeat split; try assumption.
      + intros O. apply orb_true_iff in O. destruct O as [O | O].
        * apply Ef in O. destruct O as [O | (t & Ht & O)]; [tauto |].
          right. exists t. split; [lia | exact O].
        * right. exists (now s + n)%nat. split; [lia | exact O].
      + intros [O | (t & Ht & O)]; apply orb_true_iff.
        * left. apply Ef. tauto.
        * destruct (Nat.eq_dec t (now s + n)) as [-> | N]; [tauto |].
          left. apply Ef. right. exists t. split; [lia | exact O]. }
  destruct K as (Et & Er & Ee & Ef).
  split; [exact Et | split; [exact Er | split; [exact Ee | split;
    [exact Ef |]]]].
  intros P. cbv zeta.
  set (x := Nat.iter n (tick env) s) in *.
  unfold tick. cbv zeta.
  assert (S1 : (if TMR1_overflow (env (now (set_TMR1IE true x)))
                then set_TMR1IF true (set_TMR1IE true x)
                else set_TMR1IE true x)
               = set_TMR1IF true (set_TMR1IE true x)).
  { destruct (TMR1_overflow _); [reflexivity |].
    destruct x; cbn in P |- *; rewrite P; reflexivity. }
  rewrite S1. cbn [TMR1IE TMR1IF set_TMR1IF set_TMR1IE andb].
  unfold hp_secs_count_isr. cbn [TMR1IF set_TMR1IF].
  assert (F : forall k y,
            MainTime (set_now k (Timer0_isr y)) = MainTime y
            /\ mins_rollover (set_now k (Timer0_isr y)) = mins_rollover y
            /\ TMR1IF (set_now k (Timer0_isr y)) = TMR1IF y).
  { intros k y. unfold Timer0_isr.
    destruct (_ =? 1); [| destruct (_ =? 2); [| destruct (_ =? 3)]];
      repeat split. }
  match goal with
  | |- context [ set_now ?k (Timer0_isr ?y) ] =>
      destruct (F k y) as (F1 & F2 & F3)
  end.
  rewrite F1, F2, F3. unfold Timer1_isr.
  cbn [MainTime mins_rollover set_TMR1IF set_TMR1IE].
  rewrite Et. destruct (_ <? 59); cbn; rewrite ?Er; repeat split.
Qed.

End Elapsing.

Section Debounce.

Variable env : nat -> Pins.
Variable fuel : nat.
Hypothesis enough_fuel : (Z.to_nat DEBOUNCE_DELAY <= fuel)%nat.

(** X10. [PB2pressed] keeps the debounce contract.  It returns 1 exactly
    when RB0 is low both when it is called and [DEBOUNCE_DELAY] periods
    later, and 0 otherwise.  With RB0 high at the call it returns at once
    and changes nothing; otherwise it returns after exactly
    [DEBOUNCE_DELAY] periods, leaving that value in [ms_count1], and no date
    and no interrupt enable has changed. *)
Theorem PB2pressed_debounces (s : State) :
  exists (b : Z) (s' : State),
    PB2pressed env fuel s = Ok (b, s')
    /\ (b = 1 <->
        RB0 (env (now s)) = false
        /\ RB0 (env (now s + Z.to_nat DEBOUNCE_DELAY)%nat) = false)
    /\ (b <> 1 -> b = 0)
    /\ (RB0 (env (now s)) = true -> s' = s)
    /\ (RB0 (env (now s)) = false ->
        now s' = (now s + Z.to_nat DEBOUNCE_DELAY)%nat
        /\ ms_count1 s' = DEBOUNCE_DELAY)
    /\ (forall p, load_date p s' = load_date p s)
    /\ TMR1IE s' = TMR1IE s.
Proof.
  rewrite (PB2pressed_eval env fuel enough_fuel).
  destruct (RB0 (env (now s))) eqn:E0.
  - exists 0, s. split; [reflexivity |].
    repeat split; intros; try discriminate; try lia; try tauto.
  - eexists _, _. split; [reflexivity |].
    assert (N : now (debounced env s) = (now s + Z.to_nat DEBOUNCE_DELAY)%nat)
      by (unfold debounced; rewrite ticks_now; reflexivity).
    assert (C : ms_count1 (debounced env s) = DEBOUNCE_DELAY)
      by (unfold debounced; rewrite ticks_ms_count1;
          [reflexivity | reflexivity | cbn; lia]).
    assert (T : TMR1IE (debounced env s) = TMR1IE s)
      by (unfold debounced; rewrite ticks_TMR1IE; reflexivity).
    destruct (RB0 (env (now s + Z.to_nat DEBOUNCE_DELAY)%nat));
      repeat split; intros; try discriminate; try lia; try tauto;
      try apply debounced_dates; try assumption;
      try (destruct H; discriminate).
Qed.

End Debounce.

Lemma PB2pressed_debounces_witness :
  exists (b : Z) (s' : State),
    PB2pressed PB2_down 25 power_on = Ok (b, s') /\ b = 1
    /\ now s' = 25%nat /\ ms_count1 s' = 25.
Proof.
  assert (F : (Z.to_nat DEBOUNCE_DELAY <= 25)%nat) by (cbn; lia).
  destruct (PB2pressed_debounces PB2_down 25 F power_on)
    as (b & s' & E & Hb & _ & _ & Ht & _).
  exists b, s'. split; [exact E |].
  split; [apply Hb; split; reflexivity |]. apply Ht. reflexivity.
Defined.

Lemma frozen_clock_witness :
  MainTime (Nat.iter 3 (tick overflowing) (set_TMR1IE false power_on))
  = MainTime power_on
  /\ secs (MainTime
            (tick overflowing
               (set_TMR1IE true
                  (Nat.iter 3 (tick overflowing)
                     (set_TMR1IE false power_on))))) = 1.
Proof.
  destruct (frozen_clock overflowing 3 (set_TMR1IE false power_on) eq_refl)
    as (H1 & _ & _ & H4 & H5).
  split; [exact H1 |].
  assert (P : TMR1IF (Nat.iter 3 (tick overflowing)
                        (set_TMR1IE false power_on)) = true).
  { apply H4. right. exists 0%nat. split; [cbn; lia | reflexivity]. }
  destruct (H5 P) as (E & _). rewrite E. reflexivity.
Defined.

(** ** Editors with a button held *)

Section Lens.

Variable env : nat -> Pins.
Variable fuel : nat.
Variable T : Type.
Variable load : State -> T.
Variable store : T -> State -> State.
Variable ok : State -> Prop.

Hypothesis ok_tick :
  forall s, ok s -> ok (tick env s) /\ load (tick env s) = load s.
Hypothesis ok_clear :
  forall s, ok s -> ok (set_ms_count1 0 s) /\ load (set_ms_count1 0 s) = load s.
Hypothesis ok_store :
  forall t s, ok s -> ok (store t s) /\ load (store t s) = t.

Lemma ok_ticks (n : nat) (s : State) :
  ok s -> ok (Nat.iter n (tick env) s) /\ load (Nat.iter n (tick env) s) = load s.
Proof.
  intros H. induction n as [| n [IH1 IH2]]; [split; [exact H | reflexivity] |].
  rewrite Nat.iter_succ. destruct (ok_tick _ IH1) as [K1 K2].
  split; [exact K1 | congruence].
Qed.

Lemma ok_debounced (s : State) :
  ok s -> ok (debounced env s) /\ load (debounced env s) = load s.
Proof.
  intros H. unfold debounced. destruct (ok_clear _ H) as [C1 C2].
  destruct (ok_ticks (Z.to_nat DEBOUNCE_DELAY) _ C1) as [K1 K2].
  split; [exact K1 | congruence].
Qed.

(** A guarded statement whose button is reported down, and one whose
    button is up. *)
Lemma stmt_down {A} (btn : M Z) (f : T -> bool) (g : T -> T) (rest : M A)
    (s : State) :
  (forall x, btn x = Ok (1, debounced env x)) ->
  ok s ->
  exists s2,
    (c <- and_then btn (rd (fun x => f (load x))) ;;
     when c (modify (fun x => store (g (load x)) x) ;;
             Delay10KTCYx env KEY_REPEAT_DELAY) ;;
     rest) s = rest s2
    /\ ok s2
    /\ load s2 = (if f (load s) then g (load s) else load s).
Proof.
  intros Hb H. destruct (ok_debounced s H) as [D1 D2].
  assert (E : and_then btn (rd (fun x => f (load x))) s
              = Ok (f (load s), debounced env s)).
  { unfold and_then. rewrite (bind_Ok _ _ _ _ _ (Hb s)).
    change (truthy 1) with true. cbv iota. unfold rd. rewrite D2.
    reflexivity. }
  rewrite (bind_Ok _ _ _ _ _ E).
  destruct (f (load s)).
  - eexists. split; [reflexivity |].
    destruct (ok_store (g (load (debounced env s))) _ D1) as [S1 S2].
    destruct (ok_ticks (Z.to_nat (KEY_REPEAT_DELAY * 10000 / TCY_PER_TICK))
                _ S1) as [K1 K2].
    split; [exact K1 |]. rewrite K2, S2, D2. reflexivity.
  - exists (debounced env s). split; [reflexivity | split; assumption].
Qed.

Lemma stmt_down_last (btn : M Z) (f : T -> bool) (g : T -> T) (s : State) :
  (forall x, btn x = Ok (1, debounced env x)) ->
  ok s ->
  exists s2,
    (c <- and_then btn (rd (fun x => f (load x))) ;;
     when c (modify (fun x => store (g (load x)) x) ;;
             Delay10KTCYx env KEY_REPEAT_DELAY)) s = Ok (tt, s2)
    /\ ok s2
    /\ load s2 = (if f (load s) then g (load s) else load s).
Proof.
  intros Hb H. destruct (ok_debounced s H) as [D1 D2].
  assert (E : and_then btn (rd (fun x => f (load x))) s
              = Ok (f (load s), debounced env s)).
  { unfold and_then. rewrite (bind_Ok _ _ _ _ _ (Hb s)).
    change (truthy 1) with true. cbv iota. unfold rd. rewrite D2.
    reflexivity. }
  rewrite (bind_Ok _ _ _ _ _ E).
  destruct (f (load s)).
  - eexists. split; [reflexivity |].
    destruct (ok_store (g (load (debounced env s))) _ D1) as [S1 S2].
    destruct (ok_ticks (Z.to_nat (KEY_REPEAT_DELAY * 10000 / TCY_PER_TICK))
                _ S1) as [K1 K2].
    split; [exact K1 |]. rewrite K2, S2, D2. reflexivity.
  - exists (debounced env s). split; [reflexivity | split; assumption].
Qed.

Lemma stmt_up {A} (btn : M Z) (b : M bool) (body : M unit) (rest : M A)
    (s : State) :
  (forall x, btn x = Ok (0, x)) ->
  (c <- and_then btn b ;; when c body ;; rest) s = rest s.
Proof.
  intros Hb.
  assert (E : and_then btn b s = Ok (false, s))
    by (unfold and_then; rewrite (bind_Ok _ _ _ _ _ (Hb s)); reflexivity).
  rewrite (bind_Ok _ _ _ _ _ E). reflexivity.
Qed.

Lemma stmt_up_last (btn : M Z) (b : M bool) (body : M unit) (s : State) :
  (forall x, btn x = Ok (0, x)) ->
  (c <- and_then btn b ;; when c body) s = Ok (tt, s).
Proof.
  intros Hb.
  assert (E : and_then btn b s = Ok (false, s))
    by (unfold and_then; rewrite (bind_Ok _ _ _ _ _ (Hb s)); reflexivity).
  rewrite (bind_Ok _ _ _ _ _ E). reflexivity.
Qed.

Variable get : T -> Z.
Variable set : Z -> T -> T.
Variables lo hi : Z.

Hypothesis get_set : forall v t, get (set v t) = v.
Hypothesis set_set : forall v w t, set v (set w t) = set v t.
Hypothesis bounds : 0 <= lo /\ lo < hi /\ hi <= 255.

(** PB2 held and PB1 up: the field goes up by one, and from [hi - 1] and
    from [hi] it goes to [lo]. *)
Lemma edit_shape_up (s : State) :
  (forall x, PB2pressed env fuel x = Ok (1, debounced env x)) ->
  (forall x, PB1pressed env fuel x = Ok (0, x)) ->
  ok s -> lo <= get (load s) <= hi ->
  exists s',
    edit_shape env fuel load store get set lo hi s = Ok (tt, s')
    /\ load s' =
       set (if get (load s) <? hi - 1 then get (load s) + 1 else lo) (load s).
Proof.
  intros H2 H1 H Hv. unfold edit_shape.
  destruct (stmt_down (PB2pressed env fuel) (fun t => get t <? hi)
              (fun t => set (wrap8 (get t + 1)) t)
              (c <- and_then (PB2pressed env fuel)
                      (rd (fun s => get (load s) =? hi)) ;;
               when c (modify (fun s => store (set lo (load s)) s) ;;
                       Delay10KTCYx env KEY_REPEAT_DELAY) ;;
               c <- and_then (PB1pressed env fuel)
                      (rd (fun s => lo <? get (load s))) ;;
               when c (modify (fun s =>
                                 store (set (wrap8 (get (load s) - 1)) (load s)) s) ;;
                       Delay10KTCYx env KEY_REPEAT_DELAY) ;;
               c <- and_then (PB1pressed env fuel)
                      (rd (fun s => get (load s) =? lo)) ;;
               when c (modify (fun s => store (set hi (load s)) s) ;;
                       Delay10KTCYx env KEY_REPEAT_DELAY))
              s H2 H) as (s2 & E2 & O2 & L2).
  cbv beta in E2, L2. rewrite E2. clear E2.
  destruct (stmt_down (PB2pressed env fuel) (fun t => get t =? hi)
              (fun t => set lo t)
              (c <- and_then (PB1pressed env fuel)
                      (rd (fun s => lo <? get (load s))) ;;
               when c (modify (fun s =>
                                 store (set (wrap8 (get (load s) - 1)) (load s)) s) ;;
                       Delay10KTCYx env KEY_REPEAT_DELAY) ;;
               c <- and_then (PB1pressed env fuel)
                      (rd (fun s => get (load s) =? lo)) ;;
               when c (modify (fun s => store (set hi (load s)) s) ;;
                       Delay10KTCYx env KEY_REPEAT_DELAY))
              s2 H2 O2) as (s3 & E3 & O3 & L3).
  cbv beta in E3, L3. rewrite E3. clear E3.
  rewrite (stmt_up _ _ _ _ s3 H1), (stmt_up_last _ _ _ s3 H1).
  exists s3. split; [reflexivity |].
  rewrite L3, L2. destruct bounds as (B0 & B1 & B2).
  destruct (Z.ltb_spec (get (load s)) hi) as [Lt | Ge].
  - rewrite get_set, wrap8_small by lia.
    destruct (Z.eqb_spec (get (load s) + 1) hi),
      (Z.ltb_spec (get (load s)) (hi - 1)); try lia;
      rewrite ?set_set; reflexivity.
  - destruct (Z.eqb_spec (get (load s)) hi),
      (Z.ltb_spec (get (load s)) (hi - 1)); try lia; reflexivity.
Qed.

(** PB1 reported down and PB2 up: the field goes down by one, and from
    [lo + 1] and from [lo] it goes to [hi]. *)
Lemma edit_shape_down (s : State) :
  (forall x, PB2pressed env fuel x = Ok (0, x)) ->
  (forall x, PB1pressed env fuel x = Ok (1, debounced env x)) ->
  ok s -> lo <= get (load s) <= hi ->
  exists s',
    edit_shape env fuel load store get set lo hi s = Ok (tt, s')
    /\ load s' =
       set (if lo + 1 <? get (load s) then get (load s) - 1 else hi) (load s).
Proof.
  intros H2 H1 H Hv. unfold edit_shape.
  rewrite (stmt_up _ _ _ _ s H2), (stmt_up _ _ _ _ s H2).
  destruct (stmt_down (PB1pressed env fuel) (fun t => lo <? get t)
              (fun t => set (wrap8 (get t - 1)) t)
              (c <- and_then (PB1pressed env fuel)
                      (rd (fun s => get (load s) =? lo)) ;;
               when c (modify (fun s => store (set hi (load s)) s) ;;
                       Delay10KTCYx env KEY_REPEAT_DELAY))
              s H1 H) as (s2 & E2 & O2 & L2).
  cbv beta in E2, L2. rewrite E2. clear E2.
  destruct (stmt_down_last (PB1pressed env fuel) (fun t => get t =? lo)
              (fun t => set hi t) s2 H1 O2) as (s3 & E3 & O3 & L3).
  cbv beta in E3, L3. rewrite E3. clear E3.
  exists s3. split; [reflexivity |].
  rewrite L3, L2. destruct bounds as (B0 & B1 & B2).
  destruct (Z.ltb_spec lo (get (load s))) as [Lt | Ge].
  - rewrite get_set, wrap8_small by lia.
    destruct (Z.eqb_spec (get (load s) - 1) lo),
      (Z.ltb_spec (lo + 1) (get (load s))); try lia;
      rewrite ?set_set; reflexivity.
  - destruct (Z.eqb_spec (get (load s)) lo),
      (Z.ltb_spec (lo + 1) (get (load s))); try lia; reflexivity.
Qed.

End Lens.

Section HeldButtons.

Variable env : nat -> Pins.
Variable fuel : nat.
Hypothesis enough_fuel : (Z.to_nat DEBOUNCE_DELAY <= fuel)%nat.

Lemma undisturbed_tick (p : TimeRef) (s : State) :
  undisturbed p s ->
  undisturbed p (tick env s) /\ load_time p (tick env s) = load_time p s.
Proof.
  intros H. split.
  - intros E. rewrite tick_TMR1IE. exact (H E).
  - destruct p.
    + apply (tick_frozen env s (H eq_refl)).
    + apply (tick_frame env (load_time ref_Alarm1Time)); intros;
        try reflexivity;
        [unfold Timer1_isr; destruct (_ <? 59); reflexivity
        | apply Timer0_isr_times].
    + apply (tick_frame env (load_time ref_Alarm2Time)); intros;
        try reflexivity;
        [unfold Timer1_isr; destruct (_ <? 59); reflexivity
        | apply Timer0_isr_times].
Qed.

Lemma undisturbed_clear (p : TimeRef) (s : State) :
  undisturbed p s ->
  undisturbed p (set_ms_count1 0 s)
  /\ load_time p (set_ms_count1 0 s) = load_time p s.
Proof. intros H. split; [exact H | destruct p; reflexivity]. Qed.

Lemma undisturbed_store (p : TimeRef) (t : TIME) (s : State) :
  undisturbed p s ->
  undisturbed p (store_time p t s) /\ load_time p (store_time p t s) = t.
Proof.
  intros H. split; [| destruct p; reflexivity].
  intros E. rewrite <- (H E). destruct p; reflexivity.
Qed.

Lemma PB2_reported_down :
  (forall t, RB0 (env t) = false) ->
  forall x, PB2pressed env fuel x = Ok (1, debounced env x).
Proof.
  intros H x. rewrite (PB2pressed_eval env fuel enough_fuel), !H. reflexivity.
Qed.

Lemma PB2_reported_up :
  (forall t, RB0 (env t) = true) ->
  forall x, PB2pressed env fuel x = Ok (0, x).
Proof.
  intros H x. rewrite (PB2pressed_eval env fuel enough_fuel), !H. reflexivity.
Qed.

Lemma PB1_reported_down :
  (forall t, RJ5 (env t) = false /\ RJ0 (env t) = false) ->
  forall x, PB1pressed env fuel x = Ok (1, debounced env x).
Proof.
  intros H x. rewrite (PB1pressed_eval env fuel enough_fuel).
  rewrite (proj1 (H _)), (proj2 (H _)). reflexivity.
Qed.

Lemma PB1_reported_up :
  (forall t, RJ5 (env t) = true) ->
  forall x, PB1pressed env fuel x = Ok (0, x).
Proof.
  intros H x. rewrite (PB1pressed_eval env fuel enough_fuel), !H. reflexivity.
Qed.

Lemma SetTime_shape (f : TimeField) (p : TimeRef) :
  SetTime env fuel f p =
  edit_shape env fuel (load_time p) (store_time p) (time_get f) (time_set f)
    0 (time_top f).
Proof. destruct f; reflexivity. Qed.

Lemma time_get_set (f : TimeField) (v : Z) (t : TIME) :
  time_get f (time_set f v t) = v.
Proof. destruct f; reflexivity. Qed.

Lemma time_set_set (f : TimeField) (v w : Z) (t : TIME) :
  time_set f v (time_set f w t) = time_set f v t.
Proof. destruct f; reflexivity. Qed.

(** X11. One call of a time editor ([SetSecs], [SetMins], [SetHrs]) on a
    time the seconds interrupt cannot write, with the field in range.  With
    PB2 held and PB1 up the field goes up by one, except that from the top
    value and from the value below it the field goes to 0: the increment
    and the wrap both happen in the one call.  With PB1 reported down and
    PB2 up the field goes down by one, except that from 1 and from 0 it goes
    to the top value.  The other two fields are kept. *)
Theorem SetTime_held (f : TimeField) (p : TimeRef) (s : State) :
  undisturbed p s ->
  0 <= time_get f (load_time p s) <= time_top f ->
  ((forall t, RB0 (env t) = false) -> (forall t, RJ5 (env t) = true) ->
   exists s',
     SetTime env fuel f p s = Ok (tt, s')
     /\ load_time p s' =
        time_set f
          (if time_get f (load_time p s) <? time_top f - 1
           then time_get f (load_time p s) + 1 else 0)
          (load_time p s))
  /\ ((forall t, RB0 (env t) = true) ->
      (forall t, RJ5 (env t) = false /\ RJ0 (env t) = false) ->
      exists s',
        SetTime env fuel f p s = Ok (tt, s')
        /\ load_time p s' =
           time_set f
             (if 1 <? time_get f (load_time p s)
              then time_get f (load_time p s) - 1 else time_top f)
             (load_time p s)).
Proof.
  intros Hu Hv. rewrite SetTime_shape.
  assert (B : 0 <= 0 /\ 0 < time_top f /\ time_top f <= 255)
    by (destruct f; cbn; lia).
  split.
  - intros H2 H1.
    apply (edit_shape_up env fuel TIME (load_time p) (store_time p)
             (undisturbed p) (undisturbed_tick p) (undisturbed_clear p)
             (fun t x => undisturbed_store p t x)
             (time_get f) (time_set f) 0 (time_top f)
             (time_get_set f) (time_set_set f) B s
             (PB2_reported_down H2) (PB1_reported_up H1) Hu Hv).
  - intros H2 H1.
    apply (edit_shape_down env fuel TIME (load_time p) (store_time p)
             (undisturbed p) (undisturbed_tick p) (undisturbed_clear p)
             (fun t x => undisturbed_store p t x)
             (time_get f) (time_set f) 0 (time_top f)
             (time_get_set f) (time_set_set f) B s
             (PB2_reported_up H2) (PB1_reported_down H1) Hu Hv).
Qed.

Lemma SetMonth_shape (p : DateRef) :
  SetMonth env fuel p =
  edit_shape env fuel (load_date p) (store_date p) month set_month 1 12.
Proof. reflexivity. Qed.

(** X12. One call of [SetMonth] with the month in 1..12.  With PB2 held
    and PB1 up the month goes up by one, except that November and December
    both go to January; with PB1 reported down and PB2 up it goes down by
    one, except that February and January both go to December.  Day and
    year are kept whatever the new month is. *)
Theorem SetMonth_held (p : DateRef) (s : State) :
  1 <= month (load_date p s) <= 12 ->
  ((forall t, RB0 (env t) = false) -> (forall t, RJ5 (env t) = true) ->
   exists s',
     SetMonth env fuel p s = Ok (tt, s')
     /\ load_date p s' =
        set_month
          (if month (load_date p s) <? 11
           then month (load_date p s) + 1 else 1)
          (load_date p s))
  /\ ((forall t, RB0 (env t) = true) ->
      (forall t, RJ5 (env t) = false /\ RJ0 (env t) = false) ->
      exists s',
        SetMonth env fuel p s = Ok (tt, s')
        /\ load_date p s' =
           set_month
             (if 2 <? month (load_date p s)
              then month (load_date p s) - 1 else 12)
             (load_date p s)).
Proof.
  intros Hv. rewrite SetMonth_shape.
  assert (B : 0 <= 1 /\ 1 < 12 /\ 12 <= 255) by lia.
  assert (Kt : forall x, True -> True /\ load_date p (tick env x) = load_date p x)
    by (intros; split; [exact I | apply tick_dates]).
  assert (Kc : forall x, True ->
                True /\ load_date p (set_ms_count1 0 x) = load_date p x)
    by (intros; split; [exact I | destruct p; reflexivity]).
  assert (Ks : forall d x, True ->
                True /\ load_date p (store_date p d x) = d)
    by (intros; split; [exact I | apply load_store_date]).
  assert (GS : forall v d, month (set_month v d) = v) by reflexivity.
  assert (SS : forall v w d, set_month v (set_month w d) = set_month v d)
    by reflexivity.
  split.
  - intros H2 H1.
    apply (edit_shape_up env fuel DATE (load_date p) (store_date p)
             (fun _ => True) Kt Kc Ks month set_month 1 12 GS SS B s
             (PB2_reported_down H2) (PB1_reported_up H1) I Hv).
  - intros H2 H1.
    apply (edit_shape_down env fuel DATE (load_date p) (store_date p)
             (fun _ => True) Kt Kc Ks month set_month 1 12 GS SS B s
             (PB2_reported_up H2) (PB1_reported_down H1) I Hv).
Qed.

End HeldButtons.

Lemma SetTime_held_witness :
  exists s',
    SetTime PB2_down 25 f_secs ref_Alarm1Time alarm1_at_235958 = Ok (tt, s')
    /\ Alarm1Time s' = mkTIME 23 59 0.
Proof.
  assert (F : (Z.to_nat DEBOUNCE_DELAY <= 25)%nat) by (cbn; lia).
  assert (U : undisturbed ref_Alarm1Time alarm1_at_235958)
    by (intros E; discriminate E).
  assert (V : 0 <= time_get f_secs (load_time ref_Alarm1Time alarm1_at_235958)
              <= time_top f_secs) by (cbn; lia).
  destruct (SetTime_held PB2_down 25 F f_secs ref_Alarm1Time
              alarm1_at_235958 U V) as [H _].
  apply H; reflexivity.
Defined.

Lemma SetMonth_held_witness :
  exists s',
    SetMonth PB2_down 25 ref_MainDate new_years_eve_2017 = Ok (tt, s')
    /\ MainDate s' = mkDATE 31 1 17 2017.
Proof.
  assert (F : (Z.to_nat DEBOUNCE_DELAY <= 25)%nat) by (cbn; lia).
  assert (V : 1 <= month (load_date ref_MainDate new_years_eve_2017) <= 12)
    by (cbn; lia).
  destruct (SetMonth_held PB2_down 25 F ref_MainDate new_years_eve_2017 V)
    as [H _].
  apply H; reflexivity.
Defined.

(** ** Switch combinations that select nothing *)

Lemma Switches_value (env : nat -> Pins) (s : State) :
  Switches env s = Ok (switch_value env s, s).
Proof. reflexivity. Qed.

Lemma show_Er_eval (code : Z) (l : Loc) (s : State) :
  (show_Er code ;; ret l) s = Ok (l, showing_Er code s).
Proof. reflexivity. Qed.

(** X13. With all switches off the menu returns to [main] and changes
    nothing.  A switch value that is not one of the eight single switches
    makes the menu show 'Er' with LED code 2 and stay at its loop head; in
    the Alarm1 menu a value other than 0x80, 0x81, 0x82, 0x84, and in the
    Alarm2 menu a value other than 0x40, 0x41, 0x42, 0x44, 0x48, 0x50, 0x60,
    shows 'Er' with LED code 4 and stays in that menu.  In each case only
    the three display buffers are written: no time passes, TMR1IE and every
    time, date and alarm flag are kept. *)
Theorem unmapped_switches (env : nat -> Pins) (fuel : nat) (s : State) :
  let sw := switch_value env s in
  (sw = 0 -> step env fuel AtSetMenu s = Ok (AtMain, s))
  /\ (sw <> 0 ->
      sw <> SECS -> sw <> MINS -> sw <> HRS -> sw <> DAY -> sw <> MONTH ->
      sw <> YEAR -> sw <> ALARM1 -> sw <> ALARM2 ->
      step env fuel AtSetMenu s = Ok (AtSetMenu, showing_Er 0x02 s))
  /\ (Z.shiftr sw 7 = 1 ->
      sw <> 0x80 -> sw <> 0x81 -> sw <> 0x82 -> sw <> 0x84 ->
      step env fuel AtAlarm1 s = Ok (AtAlarm1, showing_Er 0x04 s))
  /\ (Z.shiftr sw 6 = 1 ->
      sw <> 0x40 -> sw <> 0x41 -> sw <> 0x42 -> sw <> 0x44 ->
      sw <> 0x48 -> sw <> 0x50 -> sw <> 0x60 ->
      step env fuel AtAlarm2 s = Ok (AtAlarm2, showing_Er 0x04 s)).
Proof.
  cbv zeta. repeat split; intros.
  - unfold step. rewrite (bind_Ok _ _ _ _ _ (Switches_value env s)).
    destruct (Z.eqb_spec (switch_value env s) 0); [reflexivity | contradiction].
  - unfold step. rewrite (bind_Ok _ _ _ _ _ (Switches_value env s)).
    destruct (Z.eqb_spec (switch_value env s) 0); [contradiction |].
    cbn [negb]. unfold SetMenu_dispatch.
    rewrite (bind_Ok _ _ _ _ _ (Switches_value env s)).
    repeat match goal with
           | |- context [ switch_value env s =? ?c ] =>
               destruct (Z.eqb_spec (switch_value env s) c); [contradiction |]
           end.
    apply show_Er_eval.
  - unfold step. rewrite (bind_Ok _ _ _ _ _ (Switches_value env s)).
    destruct (Z.eqb_spec (Z.shiftr (switch_value env s) 7) 1);
      [| contradiction].
    unfold SetAlarm1_dispatch.
    rewrite (bind_Ok _ _ _ _ _ (Switches_value env s)).
    repeat match goal with
           | |- context [ switch_value env s =? ?c ] =>
               destruct (Z.eqb_spec (switch_value env s) c); [contradiction |]
           end.
    apply show_Er_eval.
  - unfold step. rewrite (bind_Ok _ _ _ _ _ (Switches_value env s)).
    destruct (Z.eqb_spec (Z.shiftr (switch_value env s) 6) 1);
      [| contradiction].
    unfold SetAlarm2_dispatch.
    rewrite (bind_Ok _ _ _ _ _ (Switches_value env s)).
    repeat match goal with
           | |- context [ switch_value env s =? ?c ] =>
               destruct (Z.eqb_spec (switch_value env s) c); [contradiction |]
           end.
    apply show_Er_eval.
Qed.

Lemma unmapped_switches_witness :
  switch_value switches_0x81 power_on = 0x81
  /\ step switches_0x81 25 AtSetMenu power_on
     = Ok (AtSetMenu, showing_Er 0x02 power_on).
Proof.
  split; [reflexivity |].
  apply (unmapped_switches switches_0x81 25 power_on);
    vm_compute; discriminate.
Defined.

(** ** The flash routines *)

Section Flashing.

Variable env : nat -> Pins.

Lemma tick_buffers (s : State) :
  disp_LEDS (tick env s) = disp_LEDS s
  /\ disp_U2 (tick env s) = disp_U2 s
  /\ disp_U1 (tick env s) = disp_U1 s.
Proof.
  repeat split;
    (apply tick_frame; intros x; try reflexivity;
     [unfold Timer1_isr; destruct (_ <? 59); reflexivity
     | destruct (Timer0_isr_buffers x) as (L & U1 & U2 & _); assumption]).
Qed.

Lemma ticks_buffers (n : nat) (s : State) :
  disp_LEDS (Nat.iter n (tick env) s) = disp_LEDS s
  /\ disp_U2 (Nat.iter n (tick env) s) = disp_U2 s
  /\ disp_U1 (Nat.iter n (tick env) s) = disp_U1 s.
Proof.
  repeat split; apply ticks_frame; intros x;
    destruct (tick_buffers x) as (L & U2 & U1); assumption.
Qed.

Lemma shown_for_eval (u2 u1 : Z) (s : State) :
  disp_LEDS (shown_for env u2 u1 s) = disp_LEDS s
  /\ disp_U2 (shown_for env u2 u1 s) = u2
  /\ disp_U1 (shown_for env u2 u1 s) = u1
  /\ now (shown_for env u2 u1 s) = (now s + 400)%nat.
Proof.
  unfold shown_for.
  destruct (ticks_buffers
              (Z.to_nat (SET_MENU_FLASH * 10000 / TCY_PER_TICK))
              (set_disp_U1 u1 (set_disp_U2 u2 s))) as (L & U2 & U1).
  rewrite L, U2, U1, ticks_now. repeat split.
Qed.

Lemma blink_shown (u2 u1 : Z) (s : State) :
  blink env u2 u1 s =
  Ok (tt, shown_for env 0xFF 0xFF (shown_for env u2 u1
            (shown_for env 0xFF 0xFF (shown_for env u2 u1 s)))).
Proof. unfold blink, Delay10KTCYx, shown_for, bind, modify. reflexivity. Qed.

Lemma blink_eval (u2 u1 : Z) (s : State) :
  exists s',
    blink env u2 u1 s = Ok (tt, s')
    /\ disp_LEDS s' = disp_LEDS s
    /\ disp_U2 s' = 0xFF /\ disp_U1 s' = 0xFF
    /\ now s' = (now s + 1600)%nat.
Proof.
  eexists. split; [apply blink_shown |].
  pose proof (shown_for_eval u2 u1 s) as (L1 & _ & _ & N1).
  set (a := shown_for env u2 u1 s) in *.
  pose proof (shown_for_eval 0xFF 0xFF a) as (L2 & _ & _ & N2).
  set (b := shown_for env 0xFF 0xFF a) in *.
  pose proof (shown_for_eval u2 u1 b) as (L3 & _ & _ & N3).
  set (c := shown_for env u2 u1 b) in *.
  pose proof (shown_for_eval 0xFF 0xFF c) as (L4 & U2 & U1 & N4).
  split; [congruence |]. split; [exact U2 |]. split; [exact U1 |].
  rewrite N4, N3, N2, N1. clear. lia.
Qed.

Lemma flashes_or (code u2 u1 : Z) :
  flashes env (leds_and 0xC0 ;; leds_or code ;; dp_on ;; blink env u2 u1)
    (field_led code).
Proof.
  intros s.
  destruct (blink_eval u2 u1
              (set_dp_mask (Z.lor (dp_mask s) (Z.shiftl 1 2))
                 (set_disp_LEDS (field_led code (disp_LEDS s)) s)))
    as (s' & E & L & R).
  exists s'. split; [exact E |]. split; [exact L | exact R].
Qed.

Lemma flashes_and (code u2 u1 : Z) :
  flashes env (leds_and 0xC0 ;; leds_and code ;; dp_on ;; blink env u2 u1)
    (fun old => Z.land (Z.land old 0xC0) code).
Proof.
  intros s.
  destruct (blink_eval u2 u1
              (set_dp_mask (Z.lor (dp_mask s) (Z.shiftl 1 2))
                 (set_disp_LEDS (Z.land (Z.land (disp_LEDS s) 0xC0) code) s)))
    as (s' & E & L & R).
  exists s'. split; [exact E |]. split; [exact L | exact R].
Qed.

End Flashing.

Lemma month_led (old : Z) : Z.land (Z.land old 0xC0) MONTH = 0.
Proof. rewrite <- Z.land_assoc. apply Z.land_0_r. Qed.

(** X14. Every flash routine of the settings menu returns after four
    delays of SET_MENU_FLASH (1600 timer periods) with both displays blank.
    SecsFlash, MinsFlash, HrsFlash, DayFlash, YearFlash, Alarm1Flash and
    Alarm2Flash keep the two alarm LEDs and light exactly the LED of their
    field; MonthFlash, which masks with [&=] where the others use [|=],
    puts out every LED, the alarm LEDs included. *)
Theorem flash_routines (env : nat -> Pins) :
  flashes env (SecsFlash env) (field_led SECS)
  /\ flashes env (MinsFlash env) (field_led MINS)
  /\ flashes env (HrsFlash env) (field_led HRS)
  /\ flashes env (DayFlash env) (field_led DAY)
  /\ flashes env (MonthFlash env) (fun _ => 0)
  /\ flashes env (YearFlash env) (field_led YEAR)
  /\ flashes env (Alarm1Flash env) (field_led ALARM1)
  /\ flashes env (Alarm2Flash env) (field_led ALARM2).
Proof.
  split; [exact (flashes_or env SECS DispChars.S DispChars.S) |].
  split; [exact (flashes_or env MINS DispChars.M DispChars.i) |].
  split; [exact (flashes_or env HRS DispChars.h DispChars.h) |].
  split; [exact (flashes_or env DAY DispChars.d DispChars.d) |].
  split.
  { intros s.
    destruct (flashes_and env MONTH DispChars.M DispChars.o s)
      as (s' & E & L & R).
    exists s'. split; [exact E |]. split; [| exact R].
    rewrite L. apply month_led. }
  split; [exact (flashes_or env YEAR DispChars.y DispChars.y) |].
  split.
  - exact (flashes_or env ALARM1 DispChars.A (nth 1 DispNums 0)).
  - exact (flashes_or env ALARM2 DispChars.A (nth 2 DispNums 0)).
Qed.

(** ** Switching an alarm on and off *)

Section Toggling.

Variable env : nat -> Pins.
Variable fuel : nat.
Hypothesis enough_fuel : (Z.to_nat DEBOUNCE_DELAY <= fuel)%nat.

Variable flag : State -> Z.
Variable set_flag : Z -> State -> State.
Variable digit : Z.
Hypothesis digit_ok : 0 <= digit < 10.
Hypothesis flag_set : forall v x, flag (set_flag v x) = v.
Hypothesis flag_tick : forall x, flag (tick env x) = flag x.
Hypothesis flag_frame :
  forall v x, flag (set_disp_U1 v x) = flag x
              /\ flag (set_disp_U2 v x) = flag x
              /\ flag (set_ms_count1 v x) = flag x.
Hypothesis buffers_frame :
  forall v x, disp_U1 (set_flag v x) = disp_U1 x
              /\ disp_U2 (set_flag v x) = disp_U2 x.

Lemma flag_ticks (n : nat) (x : State) :
  flag (Nat.iter n (tick env) x) = flag x.
Proof. apply ticks_frame. exact flag_tick. Qed.

Lemma flag_debounced (x : State) : flag (debounced env x) = flag x.
Proof.
  unfold debounced. rewrite flag_ticks. apply (flag_frame 0 x).
Qed.

Lemma button_reported (btn : M Z) (pb : bool) :
  (pb = true -> forall x, btn x = Ok (1, debounced env x)) ->
  (pb = false -> forall x, btn x = Ok (0, x)) ->
  forall x, exists x',
    btn x = Ok ((if pb then 1 else 0), x') /\ flag x' = flag x.
Proof.
  intros Hd Hu x. destruct pb.
  - exists (debounced env x). split; [apply Hd; reflexivity |].
    apply flag_debounced.
  - exists x. split; [apply Hu; reflexivity | reflexivity].
Qed.

Lemma toggle_shape_eval (pb2 pb1 : bool) (s : State) :
  (forall t, RB0 (env t) = negb pb2) ->
  (forall t, RJ5 (env t) = negb pb1 /\ RJ0 (env t) = negb pb1) ->
  toggles (toggle_shape env fuel flag set_flag digit) flag pb2 pb1 s.
Proof.
  intros H2 H1.
  assert (B2 := button_reported (PB2pressed env fuel) pb2
                  (fun E => PB2_reported_down env fuel enough_fuel
                              (fun t => eq_trans (H2 t) (f_equal negb E)))
                  (fun E => PB2_reported_up env fuel enough_fuel
                              (fun t => eq_trans (H2 t) (f_equal negb E)))).
  assert (B1 := button_reported (PB1pressed env fuel) pb1
                  (fun E => PB1_reported_down env fuel enough_fuel
                              (fun t => conj
                                 (eq_trans (proj1 (H1 t)) (f_equal negb E))
                                 (eq_trans (proj2 (H1 t)) (f_equal negb E))))
                  (fun E => PB1_reported_up env fuel enough_fuel
                              (fun t => eq_trans (proj1 (H1 t))
                                          (f_equal negb E)))).
  unfold toggles, toggle_shape.
  set (n := Z.to_nat (ALARM_TOGGLE * 10000 / TCY_PER_TICK)).
  set (a := Nat.iter n (tick env)
              (set_disp_U1 (nth (Z.to_nat digit) DispNums 0)
                 (set_disp_U2 DispChars.A s))).
  assert (Fa : flag a = flag s).
  { unfold a. rewrite flag_ticks.
    rewrite (proj1 (flag_frame _ _)). apply (flag_frame DispChars.A s). }
  destruct (B2 a) as (b & Eb & Fb).
  set (b' := if (if pb2 then 1 else 0) =? 1 then set_flag 1 b else b).
  assert (Fb' : flag b' = if pb2 then 1 else flag s).
  { unfold b'. destruct pb2; cbn [Z.eqb Pos.eqb];
      [apply flag_set | congruence]. }
  destruct (B1 b') as (c & Ec & Fc).
  set (c' := if (if pb1 then 1 else 0) =? 1 then set_flag 0 c else c).
  assert (Fc' : flag c' = if pb1 then 0 else if pb2 then 1 else flag s).
  { unfold c'. destruct pb1; cbn [Z.eqb Pos.eqb];
      [apply flag_set | congruence]. }
  set (u1 := if flag c' =? 1 then DispChars.n else DispChars.F).
  exists (Nat.iter n (tick env) (set_disp_U1 u1 (set_disp_U2 DispChars.o c'))).
  split.
  - unfold bind at 1. unfold modify at 1.
    rewrite (bind_Ok _ _ _ _ _ (index_in_range DispNums digit _ digit_ok)).
    unfold bind at 1. unfold modify at 1.
    unfold bind at 1. unfold Delay10KTCYx at 1. unfold modify at 1.
    fold n. fold a.
    rewrite (bind_Ok _ _ _ _ _ Eb).
    assert (W2 : forall k : unit -> M unit,
               bind (when ((if pb2 then 1 else 0) =? 1) (modify (set_flag 1)))
                 k b = k tt b').
    { intros k. unfold b'. destruct pb2; reflexivity. }
    rewrite W2.
    rewrite (bind_Ok _ _ _ _ _ Ec).
    assert (W1 : forall k : unit -> M unit,
               bind (when ((if pb1 then 1 else 0) =? 1) (modify (set_flag 0)))
                 k c = k tt c').
    { intros k. unfold c'. destruct pb1; reflexivity. }
    rewrite W1.
    rewrite bind_rd. unfold u1.
    destruct (flag c' =? 1);
      unfold bind, modify, Delay10KTCYx; fold n; reflexivity.
  - destruct (ticks_buffers env n
                (set_disp_U1 u1 (set_disp_U2 DispChars.o c')))
      as (_ & U2 & U1).
    rewrite flag_ticks, U2, U1.
    rewrite (proj1 (flag_frame _ _)), (proj1 (proj2 (flag_frame _ _))).
    split; [exact Fc' |]. split; reflexivity.
Qed.

End Toggling.

(** X15. The on/off editors of the two alarms.  With each button line
    constant, so that PB2 is reported down exactly when [pb2] and PB1
    exactly when [pb1], [SetAlarm1]'s and [SetAlarm2]'s on/off branches
    return; PB1 switches the alarm off, also when PB2 is down as well;
    otherwise PB2 switches it on; with no button the flag keeps its value.
    The display is left on 'on' when the flag is 1 and on 'oF' otherwise. *)
Theorem alarm_toggles (env : nat -> Pins) (fuel : nat) (pb2 pb1 : bool)
    (s : State) :
  (Z.to_nat DEBOUNCE_DELAY <= fuel)%nat ->
  (forall t, RB0 (env t) = negb pb2) ->
  (forall t, RJ5 (env t) = negb pb1 /\ RJ0 (env t) = negb pb1) ->
  toggles (Alarm1_toggle env fuel) Alarm1On pb2 pb1 s
  /\ toggles (Alarm2_toggle env fuel) Alarm2On pb2 pb1 s.
Proof.
  intros F H2 H1.
  assert (T1 : forall x, Alarm1On (tick env x) = Alarm1On x).
  { apply tick_frame; intros; try reflexivity;
      [unfold Timer1_isr; destruct (_ <? 59); reflexivity
      | unfold Timer0_isr;
        destruct (_ =? 1); [| destruct (_ =? 2); [| destruct (_ =? 3)]];
        reflexivity]. }
  assert (T2 : forall x, Alarm2On (tick env x) = Alarm2On x).
  { apply tick_frame; intros; try reflexivity;
      [unfold Timer1_isr; destruct (_ <? 59); reflexivity
      | unfold Timer0_isr;
        destruct (_ =? 1); [| destruct (_ =? 2); [| destruct (_ =? 3)]];
        reflexivity]. }
  split.
  - apply (toggle_shape_eval env fuel F Alarm1On set_Alarm1On 1);
      try assumption; try lia; intros; repeat split.
  - apply (toggle_shape_eval env fuel F Alarm2On set_Alarm2On 2);
      try assumption; try lia; intros; repeat split.
Qed.

Lemma alarm_toggles_witness :
  toggles (Alarm1_toggle both_down 25) Alarm1On true true
    (set_Alarm1On 1 power_on)
  /\ toggles (Alarm2_toggle both_down 25) Alarm2On true true
       (set_Alarm1On 1 power_on).
Proof.
  apply (alarm_toggles both_down 25 true true (set_Alarm1On 1 power_on)).
  - cbn; lia.
  - reflexivity.
  - split; reflexivity.
Defined.

(** ** Setting the year *)

Lemma year_up (d : DATE) :
  2000 <= year_long d < 2099 -> year_short d = year_long d - 2000 ->
  next_year d = with_year (year_long d + 1) d.
Proof.
  intros Hy Hs. unfold next_year, with_year. cbv zeta.
  change (year_short (set_year_long ?v d)) with (year_short d).
  rewrite Hs, wrap16_small, wrap8_small by lia.
  f_equal. lia.
Qed.

Lemma year_down (d : DATE) :
  2000 < year_long d <= 2099 -> year_short d = year_long d - 2000 ->
  prev_year d = with_year (year_long d - 1) d.
Proof.
  intros Hy Hs. unfold prev_year, with_year. cbv zeta.
  change (year_short (set_year_long ?v d)) with (year_short d).
  rewrite Hs, wrap16_small, wrap8_small by lia.
  f_equal. lia.
Qed.

Lemma with_year_twice (y z : Z) (d : DATE) :
  with_year y (with_year z d) = with_year y d.
Proof. reflexivity. Qed.

Section YearEditor.

Variable env : nat -> Pins.
Variable fuel : nat.
Hypothesis enough_fuel : (Z.to_nat DEBOUNCE_DELAY <= fuel)%nat.
Variable p : DateRef.

Lemma date_tick (x : State) :
  True -> True /\ load_date p (tick env x) = load_date p x.
Proof. intros _. split; [exact I | apply tick_dates]. Qed.

Lemma date_clear (x : State) :
  True -> True /\ load_date p (set_ms_count1 0 x) = load_date p x.
Proof. intros _. split; [exact I | destruct p; reflexivity]. Qed.

Lemma date_store (d : DATE) (x : State) :
  True -> True /\ load_date p (store_date p d x) = d.
Proof. intros _. split; [exact I | apply load_store_date]. Qed.

(** X16. One call of [SetYear] on a date whose year is in 2000..2099 with
    the two-digit year in step.  With PB2 held and PB1 up the year goes up
    by one, except that 2098 and 2099 both go to 2000; with PB1 reported
    down and PB2 up it goes down by one, except that 2001 and 2000 both go
    to 2099.  The two year fields stay in step, and day and month are
    kept. *)
Theorem SetYear_held (s : State) :
  2000 <= year_long (load_date p s) <= 2099 ->
  year_short (load_date p s) = year_long (load_date p s) - 2000 ->
  ((forall t, RB0 (env t) = false) -> (forall t, RJ5 (env t) = true) ->
   exists s',
     SetYear env fuel p s = Ok (tt, s')
     /\ load_date p s' =
        with_year
          (if year_long (load_date p s) <? 2098
           then year_long (load_date p s) + 1 else 2000)
          (load_date p s))
  /\ ((forall t, RB0 (env t) = true) ->
      (forall t, RJ5 (env t) = false /\ RJ0 (env t) = false) ->
      exists s',
        SetYear env fuel p s = Ok (tt, s')
        /\ load_date p s' =
           with_year
             (if 2001 <? year_long (load_date p s)
              then year_long (load_date p s) - 1 else 2099)
             (load_date p s)).
Proof.
  intros Hy Hs. unfold SetYear, upd_date. split.
  - intros H2 H1.
    pose proof (PB2_reported_down env fuel enough_fuel H2) as D2.
    pose proof (PB1_reported_up env fuel enough_fuel H1) as U1.
    destruct (stmt_down env DATE (load_date p) (store_date p) (fun _ => True)
                date_tick date_clear date_store
                (PB2pressed env fuel) (fun d => year_long d <? 2099) next_year
                (c <- and_then (PB2pressed env fuel)
                        (rd (fun s => year_long (load_date p s) =? 2099)) ;;
                 when c (modify (fun s =>
                           store_date p
                             ((fun d => set_year_short 0 (set_year_long 2000 d))
                                (load_date p s)) s) ;;
                         Delay10KTCYx env KEY_REPEAT_DELAY) ;;
                 c <- and_then (PB1pressed env fuel)
                        (rd (fun s => 2000 <? year_long (load_date p s))) ;;
                 when c (modify (fun s =>
                           store_date p (prev_year (load_date p s)) s) ;;
                         Delay10KTCYx env KEY_REPEAT_DELAY) ;;
                 c <- and_then (PB1pressed env fuel)
                        (rd (fun s => year_long (load_date p s) =? 2000)) ;;
                 when c (modify (fun s =>
                           store_date p
                             ((fun d => set_year_short 99 (set_year_long 2099 d))
                                (load_date p s)) s) ;;
                         Delay10KTCYx env KEY_REPEAT_DELAY))
                s D2 I) as (s2 & E2 & _ & L2).
    cbv beta in E2, L2. rewrite E2. clear E2.
    destruct (stmt_down env DATE (load_date p) (store_date p) (fun _ => True)
                date_tick date_clear date_store
                (PB2pressed env fuel) (fun d => year_long d =? 2099)
                (fun d => set_year_short 0 (set_year_long 2000 d))
                (c <- and_then (PB1pressed env fuel)
                        (rd (fun s => 2000 <? year_long (load_date p s))) ;;
                 when c (modify (fun s =>
                           store_date p (prev_year (load_date p s)) s) ;;
                         Delay10KTCYx env KEY_REPEAT_DELAY) ;;
                 c <- and_then (PB1pressed env fuel)
                        (rd (fun s => year_long (load_date p s) =? 2000)) ;;
                 when c (modify (fun s =>
                           store_date p
                             ((fun d => set_year_short 99 (set_year_long 2099 d))
                                (load_date p s)) s) ;;
                         Delay10KTCYx env KEY_REPEAT_DELAY))
                s2 D2 I) as (s3 & E3 & _ & L3).
    cbv beta in E3, L3. rewrite E3. clear E3.
    rewrite (stmt_up _ _ _ _ s3 U1), (stmt_up_last _ _ _ s3 U1).
    exists s3. split; [reflexivity |].
    rewrite L3, L2. clear - Hy Hs.
    destruct (Z.ltb_spec (year_long (load_date p s)) 2099) as [Lt | Ge].
    + rewrite year_up by (try assumption; lia).
      change (year_long (with_year ?y ?d)) with y.
      destruct (Z.eqb_spec (year_long (load_date p s) + 1) 2099),
        (Z.ltb_spec (year_long (load_date p s)) 2098); try lia; reflexivity.
    + destruct (Z.eqb_spec (year_long (load_date p s)) 2099),
        (Z.ltb_spec (year_long (load_date p s)) 2098); try lia; reflexivity.
  - intros H2 H1.
    pose proof (PB2_reported_up env fuel enough_fuel H2) as U2.
    pose proof (PB1_reported_down env fuel enough_fuel H1) as D1.
    rewrite (stmt_up _ _ _ _ s U2), (stmt_up _ _ _ _ s U2).
    destruct (stmt_down env DATE (load_date p) (store_date p) (fun _ => True)
                date_tick date_clear date_store
                (PB1pressed env fuel) (fun d => 2000 <? year_long d) prev_year
                (c <- and_then (PB1pressed env fuel)
                        (rd (fun s => year_long (load_date p s) =? 2000)) ;;
                 when c (modify (fun s =>
                           store_date p
                             ((fun d => set_year_short 99 (set_year_long 2099 d))
                                (load_date p s)) s) ;;
                         Delay10KTCYx env KEY_REPEAT_DELAY))
                s D1 I) as (s2 & E2 & _ & L2).
    cbv beta in E2, L2. rewrite E2. clear E2.
    destruct (stmt_down_last env DATE (load_date p) (store_date p)
                (fun _ => True) date_tick date_clear date_store
                (PB1pressed env fuel) (fun d => year_long d =? 2000)
                (fun d => set_year_short 99 (set_year_long 2099 d))
                s2 D1 I) as (s3 & E3 & _ & L3).
    cbv beta in E3, L3. rewrite E3. clear E3.
    exists s3. split; [reflexivity |].
    rewrite L3, L2. clear - Hy Hs.
    destruct (Z.ltb_spec 2000 (year_long (load_date p s))) as [Lt | Ge].
    + rewrite year_down by (try assumption; lia).
      change (year_long (with_year ?y ?d)) with y.
      destruct (Z.eqb_spec (year_long (load_date p s) - 1) 2000),
        (Z.ltb_spec 2001 (year_long (load_date p s))); try lia; reflexivity.
    + destruct (Z.eqb_spec (year_long (load_date p s)) 2000),
        (Z.ltb_spec 2001 (year_long (load_date p s))); try lia; reflexivity.
Qed.

End YearEditor.

Lemma SetYear_held_witness :
  exists s',
    SetYear PB2_down 25 ref_MainDate new_years_eve_2017 = Ok (tt, s')
    /\ MainDate s' = mkDATE 31 12 18 2018.
Proof.
  assert (F : (Z.to_nat DEBOUNCE_DELAY <= 25)%nat) by (cbn; lia).
  assert (V : 2000 <= year_long (load_date ref_MainDate new_years_eve_2017)
              <= 2099) by (cbn; lia).
  destruct (SetYear_held PB2_down 25 F ref_MainDate new_years_eve_2017 V
              eq_refl) as [H _].
  apply H; reflexivity.
Defined.
(** ** The display block of the main loop *)

Lemma preserves_bind {A B} (P : State -> Prop) (m : M A) (k : A -> M B) :
  preserves P m -> (forall a, preserves P (k a)) -> preserves P (bind m k).
Proof.
  intros Hm Hk s W. destruct (Hm s W) as (a & s1 & E1 & W1).
  destruct (Hk a s1 W1) as (b & s2 & E2 & W2).
  exists b, s2. split; [| exact W2]. rewrite (bind_Ok _ _ _ _ _ E1). exact E2.
Qed.

Lemma preserves_modify (P : State -> Prop) (f : State -> State) :
  (forall s, P s -> P (f s)) -> preserves P (modify f).
Proof. intros Hf s W. exists tt, (f s). split; [reflexivity | auto]. Qed.

Lemma preserves_when (P : State -> Prop) (c : bool) (m : M unit) :
  preserves P m -> preserves P (when c m).
Proof.
  intros H. destruct c; [exact H |].
  intros s W. exists tt, s. split; [reflexivity | exact W].
Qed.

Lemma preserves_rd {A} (P : State -> Prop) (f : State -> A) :
  preserves P (rd f).
Proof. intros s W. exists (f s), s. split; [reflexivity | exact W]. Qed.

Lemma CurrentDisplay_returns (i : Z) (s : State) :
  0 <= i <= 5 -> wf s ->
  exists s',
    CurrentDisplay i s = Ok (tt, s')
    /\ disp_LEDS s' = field_marker i
    /\ disp_index s' = disp_index s
    /\ ms_count0 s' = ms_count0 s
    /\ now s' = now s.
Proof.
  intros Hi [Wt Wd].
  pose proof (Wt ref_MainTime) as (Th & Tm & Ts).
  pose proof (Wd ref_MainDate) as (Dd & Dm & Dy).
  unfold is_char in *. cbn [load_time load_date] in *.
  assert (C : i = 0 \/ i = 1 \/ i = 2 \/ i = 3 \/ i = 4 \/ i = 5) by lia.
  destruct C as [E | [E | [E | [E | [E | E]]]]]; subst i;
    unfold CurrentDisplay, field_marker;
    cbn [Z.eqb Pos.eqb]; rewrite bind_rd;
    match goal with
    | |- context [ Num2Disp ?v ] =>
        destruct (Z.ltb_spec 99 v) as [L | L];
        [ rewrite (bind_Ok _ _ _ _ _ (Num2Disp_error v s L))
        | rewrite (bind_Ok _ _ _ _ _ (Num2Disp_digits v s ltac:(lia))) ]
    end;
    (eexists; split; [reflexivity |]; repeat split).
Qed.

Section MainDisplay.

Variable env : nat -> Pins.
Variable fuel : nat.
Hypothesis enough_fuel : (Z.to_nat DEBOUNCE_DELAY <= fuel)%nat.

Lemma tick_disp_index (s : State) : disp_index (tick env s) = disp_index s.
Proof.
  apply tick_frame; intros; try reflexivity;
    [unfold Timer1_isr; destruct (_ <? 59); reflexivity
    | unfold Timer0_isr;
      destruct (_ =? 1); [| destruct (_ =? 2); [| destruct (_ =? 3)]];
      reflexivity].
Qed.

Lemma ready_ticks (n : nat) (s : State) :
  display_ready s -> display_ready (Nat.iter n (tick env) s).
Proof.
  intros [W R]. split; [apply (wf_ticks env fuel enough_fuel), W |].
  rewrite (ticks_frame env disp_index) by apply tick_disp_index. exact R.
Qed.

Lemma ready_debounced (s : State) :
  display_ready s -> display_ready (debounced env s).
Proof.
  intros [W R]. unfold debounced. apply ready_ticks.
  split; [| exact R].
  apply (wf_same s); [intros p; destruct p | intros p; destruct p | exact W];
    reflexivity.
Qed.

Lemma ready_PB1pressed : preserves display_ready (PB1pressed env fuel).
Proof.
  intros s W. rewrite (PB1pressed_eval env fuel enough_fuel).
  destruct (RJ5 _); eexists _, _; (split; [reflexivity |]);
    [exact W | apply ready_debounced, W].
Qed.

Lemma ready_PB2pressed : preserves display_ready (PB2pressed env fuel).
Proof.
  intros s W. rewrite (PB2pressed_eval env fuel enough_fuel).
  destruct (RB0 _); eexists _, _; (split; [reflexivity |]);
    [exact W | apply ready_debounced, W].
Qed.

Lemma ready_Delay10KTCYx (n : Z) : preserves display_ready (Delay10KTCYx env n).
Proof. apply preserves_modify. intros s. apply ready_ticks. Qed.

Lemma ready_cleared (s : State) :
  display_ready s -> display_ready (set_ms_count0 0 s).
Proof.
  intros [W R]. split; [| exact R].
  apply (wf_same s); [intros p; destruct p | intros p; destruct p | exact W];
    reflexivity.
Qed.

Lemma ready_clear : preserves display_ready (modify (set_ms_count0 0)).
Proof. apply preserves_modify. exact ready_cleared. Qed.

Lemma ready_index (v : Z) (s : State) :
  0 <= v <= 5 -> display_ready s -> display_ready (set_disp_index v s).
Proof.
  intros Hv [W R]. split; [| exact Hv].
  apply (wf_same s); [intros p; destruct p | intros p; destruct p | exact W];
    reflexivity.
Qed.

Lemma next_field_eval (s : State) :
  0 <= disp_index s <= 5 ->
  next_field s = Ok (tt, set_disp_index ((disp_index s + 1) mod 6) s).
Proof.
  intros R. unfold next_field. rewrite bind_rd.
  destruct (Z.ltb_spec (disp_index s) 5).
  - rewrite wrap8_small, Z.mod_small by lia. reflexivity.
  - replace (disp_index s) with 5 by lia. reflexivity.
Qed.

Lemma prev_field_eval (s : State) :
  0 <= disp_index s <= 5 ->
  prev_field s = Ok (tt, set_disp_index ((disp_index s + 5) mod 6) s).
Proof.
  intros R. unfold prev_field. rewrite bind_rd.
  destruct (Z.ltb_spec 0 (disp_index s)).
  - rewrite wrap8_small by lia.
    replace (disp_index s + 5) with (disp_index s - 1 + 1 * 6) by lia.
    rewrite Z.mod_add, Z.mod_small by lia. reflexivity.
  - replace (disp_index s) with 0 by lia. reflexivity.
Qed.

Lemma ready_next_field : preserves display_ready next_field.
Proof.
  intros s W. exists tt. eexists. split; [apply next_field_eval, W |].
  apply ready_index; [| exact W].
  pose proof (Z.mod_pos_bound (disp_index s + 1) 6). lia.
Qed.

Lemma ready_prev_field : preserves display_ready prev_field.
Proof.
  intros s W. exists tt. eexists. split; [apply prev_field_eval, W |].
  apply ready_index; [| exact W].
  pose proof (Z.mod_pos_bound (disp_index s + 5) 6). lia.
Qed.

Lemma ready_button (btn : M Z) (move : M unit) :
  preserves display_ready btn -> preserves display_ready move ->
  preserves display_ready
    (Delay10KTCYx env KEY_REPEAT_DELAY ;;
     p' <- btn ;;
     when (p' =? 1) (modify (set_ms_count0 0) ;; move)).
Proof.
  intros Hb Hm.
  apply preserves_bind; [apply ready_Delay10KTCYx | intros _].
  apply preserves_bind; [exact Hb | intros p'].
  apply preserves_when.
  apply preserves_bind; [apply ready_clear | intros _; exact Hm].
Qed.

(** X17. The display block of the main loop, started with char fields
    and a display index in 0..5, returns for every behaviour of the two
    buttons with the index again in 0..5 and the LEDs showing the marker
    of the field that index selects, never the error code 3 of
    [CurrentDisplay].  With both buttons up when the block starts it
    takes no time; the index moves on by one, from 5 to 0, and the cycle
    counter is cleared exactly when the counter has reached
    DISPLAY_CYCLE_DELAY, and otherwise both are kept. *)
Theorem main_display_cycles (s : State) :
  wf s ->
  0 <= disp_index s <= 5 ->
  exists s',
    main_display env fuel s = Ok (tt, s')
    /\ 0 <= disp_index s' <= 5
    /\ disp_LEDS s' = field_marker (disp_index s')
    /\ (RJ5 (env (now s)) = true -> RB0 (env (now s)) = true ->
        now s' = now s
        /\ disp_index s' =
           (if DISPLAY_CYCLE_DELAY <=? ms_count0 s
            then (disp_index s + 1) mod 6 else disp_index s)
        /\ ms_count0 s' =
           (if DISPLAY_CYCLE_DELAY <=? ms_count0 s then 0 else ms_count0 s)).
Proof.
  intros W R. unfold main_display. rewrite bind_rd.
  set (s1 := if DISPLAY_CYCLE_DELAY <=? ms_count0 s
             then set_disp_index ((disp_index s + 1) mod 6) (set_ms_count0 0 s)
             else s).
  assert (E1 : forall k : unit -> M unit,
             bind (when (DISPLAY_CYCLE_DELAY <=? ms_count0 s)
                     (modify (set_ms_count0 0) ;; next_field)) k s = k tt s1).
  { intros k. unfold s1. destruct (DISPLAY_CYCLE_DELAY <=? ms_count0 s);
      [| reflexivity].
    apply bind_Ok. unfold when.
    rewrite (bind_Ok _ _ s (set_ms_count0 0 s) tt) by reflexivity.
    apply (next_field_eval (set_ms_count0 0 s)). exact R. }
  rewrite E1. clear E1.
  assert (R1 : display_ready s1).
  { unfold s1. destruct (DISPLAY_CYCLE_DELAY <=? ms_count0 s);
      [| split; assumption].
    apply ready_index;
      [pose proof (Z.mod_pos_bound (disp_index s + 1) 6); lia |].
    apply ready_cleared. split; assumption. }
  assert (I1 : disp_index s1 =
               (if DISPLAY_CYCLE_DELAY <=? ms_count0 s
                then (disp_index s + 1) mod 6 else disp_index s)
               /\ ms_count0 s1 =
                  (if DISPLAY_CYCLE_DELAY <=? ms_count0 s
                   then 0 else ms_count0 s)
               /\ now s1 = now s).
  { unfold s1. destruct (DISPLAY_CYCLE_DELAY <=? ms_count0 s); repeat split. }
  clearbody s1.
  destruct (ready_PB1pressed s1 R1) as (p1 & s2 & E2 & R2).
  rewrite (bind_Ok _ _ _ _ _ E2).
  destruct (preserves_when display_ready (p1 =? 1) _
              (ready_button _ _ ready_PB1pressed ready_next_field) s2 R2)
    as ([] & s3 & E3 & R3).
  rewrite (bind_Ok _ _ _ _ _ E3).
  destruct (ready_PB2pressed s3 R3) as (p2 & s4 & E4 & R4).
  rewrite (bind_Ok _ _ _ _ _ E4).
  destruct (preserves_when display_ready (p2 =? 1) _
              (ready_button _ _ ready_PB2pressed ready_prev_field) s4 R4)
    as ([] & s5 & E5 & R5).
  rewrite (bind_Ok _ _ _ _ _ E5). rewrite bind_rd.
  destruct (CurrentDisplay_returns (disp_index s5) s5 (proj2 R5) (proj1 R5))
    as (s' & E & L & Ix & C0 & N).
  exists s'. split; [exact E |]. rewrite Ix.
  split; [exact (proj2 R5) |]. split; [exact L |].
  intros U1 U2. destruct I1 as (I1 & I0 & In).
  rewrite (PB1pressed_eval env fuel enough_fuel), In, U1 in E2.
  injection E2 as <- <-.
  cbn [Z.eqb when ret] in E3. injection E3 as <-.
  rewrite (PB2pressed_eval env fuel enough_fuel), In, U2 in E4.
  injection E4 as <- <-.
  cbn [Z.eqb when ret] in E5. injection E5 as <-.
  rewrite C0, N. split; [exact In |]. split; [exact I1 | exact I0].
Qed.

End MainDisplay.

Lemma main_display_cycles_witness :
  exists s',
    main_display overflowing 25 cycle_due = Ok (tt, s')
    /\ disp_index s' = 1
    /\ disp_LEDS s' = MONTH
    /\ ms_count0 s' = 0.
Proof.
  assert (F : (Z.to_nat DEBOUNCE_DELAY <= 25)%nat) by (cbn; lia).
  assert (W : wf cycle_due)
    by (split; intros p; destruct p; cbn; unfold wf_time, wf_date, is_char;
        cbn; lia).
  assert (R : 0 <= disp_index cycle_due <= 5) by (cbn; lia).
  destruct (main_display_cycles overflowing 25 F cycle_due W R)
    as (s' & E & _ & L & H).
  destruct (H eq_refl eq_refl) as (_ & I & C).
  exists s'. split; [exact E |].
  split; [exact I |]. split; [rewrite L, I; reflexivity | exact C].
Defined.
(** ** The settings machine keeps every field in its range *)

Lemma valid_wf_time (t : TIME) : valid_time t -> wf_time t.
Proof. unfold valid_time, wf_time, is_char. lia. Qed.

Lemma valid_wf_date (d : DATE) : valid_date d -> wf_date d.
Proof. unfold valid_date, wf_date, is_char. lia. Qed.

Lemma in_range_same (s s' : State) :
  (forall p, load_time p s' = load_time p s) ->
  (forall p, load_date p s' = load_date p s) ->
  in_range s -> in_range s'.
Proof.
  intros Ht Hd (W & T & D). split; [apply (wf_same s); assumption |].
  split; intros p; [rewrite Ht; apply T | rewrite Hd; apply D].
Qed.

Lemma in_range_store_time (p : TimeRef) (t : TIME) (s : State) :
  in_range s -> valid_time t -> in_range (store_time p t s).
Proof.
  intros (W & T & D) Ht.
  split; [apply wf_store_time; [exact W | apply valid_wf_time, Ht] |].
  split.
  - intros q. specialize (T q). destruct p, q; cbn in *; assumption.
  - intros q Hq. specialize (D q Hq). destruct p, q; cbn in *; assumption.
Qed.

Lemma in_range_store_date (p : DateRef) (d : DATE) (s : State) :
  in_range s -> valid_date d -> in_range (store_date p d s).
Proof.
  intros (W & T & D) Hd.
  split; [apply wf_store_date; [exact W | apply valid_wf_date, Hd] |].
  split.
  - intros q. specialize (T q). destruct p, q; cbn in *; assumption.
  - intros q Hq. destruct p, q; cbn;
      try exact Hd; try (exact (D _ Hq)); try contradiction;
      first [ exact (D ref_MainDate ltac:(discriminate))
            | exact (D ref_Alarm2Date ltac:(discriminate)) ].
Qed.

Lemma in_range_Timer1_isr (s : State) : in_range s -> in_range (Timer1_isr s).
Proof.
  intros R. pose proof R as (_ & T & _).
  destruct (T ref_MainTime) as (Hh & Hm & Hs). cbn [load_time] in *.
  unfold Timer1_isr. destruct (Z.ltb_spec (secs (MainTime s)) 59).
  - apply (in_range_same
             (store_time ref_MainTime
                (set_secs (wrap8 (secs (MainTime s) + 1)) (MainTime s)) s));
      [intros p; destruct p; reflexivity
      | intros p; destruct p; reflexivity |].
    apply in_range_store_time; [exact R |].
    unfold valid_time. cbn. rewrite wrap8_small by lia. lia.
  - apply (in_range_same
             (store_time ref_MainTime (set_secs 0 (MainTime s)) s));
      [intros p; destruct p; reflexivity
      | intros p; destruct p; reflexivity |].
    apply in_range_store_time; [exact R |].
    unfold valid_time. cbn. lia.
Qed.

Lemma set_day_valid (v : Z) (d : DATE) :
  valid_date d -> 1 <= v <= 31 -> valid_date (set_day v d).
Proof. unfold valid_date. cbn. lia. Qed.

Lemma set_month_valid (v : Z) (d : DATE) :
  valid_date d -> 1 <= v <= 12 -> valid_date (set_month v d).
Proof. unfold valid_date. cbn. lia. Qed.

Lemma with_year_valid (y : Z) (d : DATE) :
  valid_date d -> 2000 <= y <= 2099 -> valid_date (with_year y d).
Proof. unfold valid_date, with_year. cbn. lia. Qed.

Lemma time_set_valid (f : TimeField) (v : Z) (t : TIME) :
  valid_time t -> 0 <= v <= time_top f -> valid_time (time_set f v t).
Proof. unfold valid_time. destruct f; cbn; lia. Qed.

Lemma time_get_valid (f : TimeField) (t : TIME) :
  valid_time t -> 0 <= time_get f t <= time_top f.
Proof. unfold valid_time. destruct f; cbn; lia. Qed.

Lemma preserves_ret {A} (P : State -> Prop) (a : A) : preserves P (ret a).
Proof. intros s W. exists a, s. split; [reflexivity | exact W]. Qed.

Lemma guard_rd (f : State -> bool) (s : State) :
  exists v, rd f s = Ok (v, s) /\ (v = true -> f s = true).
Proof. exists (f s). split; [reflexivity | auto]. Qed.

Section Ranges.

Variable env : nat -> Pins.
Variable fuel : nat.
Hypothesis enough_fuel : (Z.to_nat DEBOUNCE_DELAY <= fuel)%nat.

Lemma in_range_tick (s : State) : in_range s -> in_range (tick env s).
Proof.
  intros W. unfold tick. cbv zeta.
  assert (Hnow : forall n x, in_range x -> in_range (set_now n x))
    by (intros n x; apply in_range_same; intros p; destruct p; reflexivity).
  assert (Hif : forall v x, in_range x -> in_range (set_TMR1IF v x))
    by (intros v x; apply in_range_same; intros p; destruct p; reflexivity).
  assert (H0 : forall x, in_range x -> in_range (Timer0_isr x))
    by (intros x; apply in_range_same; intros p;
        [apply Timer0_isr_times | apply Timer0_isr_dates]).
  assert (Hhp : forall x, in_range x -> in_range (hp_secs_count_isr x)).
  { intros x Wx. unfold hp_secs_count_isr.
    destruct (TMR1IF x); [apply in_range_Timer1_isr, Hif |]; exact Wx. }
  apply Hnow, H0.
  destruct (TMR1_overflow _);
    match goal with
    | |- context [ if ?c then _ else _ ] => destruct c
    end; auto.
Qed.

Lemma in_range_ticks (n : nat) (s : State) :
  in_range s -> in_range (Nat.iter n (tick env) s).
Proof.
  intros W. induction n as [| n IH]; [exact W |].
  rewrite Nat.iter_succ. apply in_range_tick, IH.
Qed.

Lemma in_range_debounced (s : State) :
  in_range s -> in_range (debounced env s).
Proof.
  intros W. unfold debounced. apply in_range_ticks.
  revert W. apply in_range_same; intros p; destruct p; reflexivity.
Qed.

Lemma ranged_Delay10KTCYx (n : Z) : preserves in_range (Delay10KTCYx env n).
Proof. apply preserves_modify. intros s. apply in_range_ticks. Qed.

Lemma ranged_PB1pressed : preserves in_range (PB1pressed env fuel).
Proof.
  intros s W. rewrite (PB1pressed_eval env fuel enough_fuel).
  destruct (RJ5 _); eexists _, _; (split; [reflexivity |]);
    [exact W | apply in_range_debounced, W].
Qed.

Lemma ranged_PB2pressed : preserves in_range (PB2pressed env fuel).
Proof.
  intros s W. rewrite (PB2pressed_eval env fuel enough_fuel).
  destruct (RB0 _); eexists _, _; (split; [reflexivity |]);
    [exact W | apply in_range_debounced, W].
Qed.

Lemma ranged_Switches : preserves in_range (Switches env).
Proof. intros s W. eexists _, s. split; [reflexivity | exact W]. Qed.

Lemma ranged_index (tbl : list Z) (i : Z) :
  0 <= i < Z.of_nat (length tbl) -> preserves in_range (index tbl i).
Proof.
  intros Hi s W. exists (nth (Z.to_nat i) tbl 0), s.
  split; [apply index_in_range; exact Hi | exact W].
Qed.

(** A guarded statement of an editor, followed by the rest of the editor
    or standing last: the body runs only in states where the guard held. *)
Lemma ranged_guarded (btn : M Z) (b : M bool) (G : State -> Prop)
    (body rest : M unit) :
  preserves in_range btn ->
  (forall s, in_range s -> exists v, b s = Ok (v, s) /\ (v = true -> G s)) ->
  (forall s, in_range s -> G s ->
     exists s', body s = Ok (tt, s') /\ in_range s') ->
  preserves in_range rest ->
  preserves in_range (c <- and_then btn b ;; when c body ;; rest).
Proof.
  intros Hb Hg Hbody Hrest s W. destruct (Hb s W) as (x & s1 & E & W1).
  destruct (Hg s1 W1) as (v & Ev & Gv).
  assert (Ea : and_then btn b s = Ok (truthy x && v, s1)).
  { unfold and_then. rewrite (bind_Ok _ _ _ _ _ E).
    destruct (truthy x); [exact Ev | reflexivity]. }
  rewrite (bind_Ok _ _ _ _ _ Ea).
  destruct (truthy x && v) eqn:C.
  - apply andb_true_iff in C. destruct C as [_ C].
    destruct (Hbody s1 W1 (Gv C)) as (s2 & E2 & W2).
    unfold when. rewrite (bind_Ok _ _ _ _ _ E2). apply Hrest, W2.
  - rewrite bind_skip. apply Hrest, W1.
Qed.

Lemma ranged_guarded_last (btn : M Z) (b : M bool) (G : State -> Prop)
    (body : M unit) :
  preserves in_range btn ->
  (forall s, in_range s -> exists v, b s = Ok (v, s) /\ (v = true -> G s)) ->
  (forall s, in_range s -> G s ->
     exists s', body s = Ok (tt, s') /\ in_range s') ->
  preserves in_range (c <- and_then btn b ;; when c body).
Proof.
  intros Hb Hg Hbody s W. destruct (Hb s W) as (x & s1 & E & W1).
  destruct (Hg s1 W1) as (v & Ev & Gv).
  assert (Ea : and_then btn b s = Ok (truthy x && v, s1)).
  { unfold and_then. rewrite (bind_Ok _ _ _ _ _ E).
    destruct (truthy x); [exact Ev | reflexivity]. }
  rewrite (bind_Ok _ _ _ _ _ Ea).
  destruct (truthy x && v) eqn:C.
  - apply andb_true_iff in C. destruct C as [_ C].
    destruct (Hbody s1 W1 (Gv C)) as (s2 & E2 & W2).
    exists tt, s2. split; assumption.
  - exists tt, s1. split; [reflexivity | exact W1].
Qed.

(** The body of a guarded statement: one store and the key-repeat delay. *)
Lemma stored_then_delayed (g : State -> State) (s : State) :
  in_range (g s) ->
  exists s',
    (modify g ;; Delay10KTCYx env KEY_REPEAT_DELAY) s = Ok (tt, s')
    /\ in_range s'.
Proof.
  intros H. eexists. split; [reflexivity |]. apply in_range_ticks, H.
Qed.

Lemma ranged_edit_shape {T : Type} (load : State -> T)
    (store : T -> State -> State) (get : T -> Z) (set : Z -> T -> T)
    (lo hi : Z) :
  0 <= lo -> lo < hi -> hi <= 255 ->
  (forall s, in_range s -> lo <= get (load s) <= hi) ->
  (forall s v, in_range s -> lo <= v <= hi ->
     in_range (store (set v (load s)) s)) ->
  preserves in_range (edit_shape env fuel load store get set lo hi).
Proof.
  intros B0 B1 B2 Hget Hset. unfold edit_shape.
  apply (ranged_guarded _ _ (fun s => (get (load s) <? hi) = true));
    [apply ranged_PB2pressed | intros; apply guard_rd | |].
  { intros s W G. apply stored_then_delayed. apply Z.ltb_lt in G.
    pose proof (Hget s W). apply Hset; [exact W |].
    rewrite wrap8_small; lia. }
  apply (ranged_guarded _ _ (fun s => (get (load s) =? hi) = true));
    [apply ranged_PB2pressed | intros; apply guard_rd | |].
  { intros s W G. apply stored_then_delayed. apply Hset; [exact W | lia]. }
  apply (ranged_guarded _ _ (fun s => (lo <? get (load s)) = true));
    [apply ranged_PB1pressed | intros; apply guard_rd | |].
  { intros s W G. apply stored_then_delayed. apply Z.ltb_lt in G.
    pose proof (Hget s W). apply Hset; [exact W |].
    rewrite wrap8_small; lia. }
  apply (ranged_guarded_last _ _ (fun s => (get (load s) =? lo) = true));
    [apply ranged_PB1pressed | intros; apply guard_rd |].
  intros s W G. apply stored_then_delayed. apply Hset; [exact W | lia].
Qed.

Lemma ranged_SetTime (f : TimeField) (p : TimeRef) :
  preserves in_range (SetTime env fuel f p).
Proof.
  rewrite SetTime_shape.
  apply ranged_edit_shape; try (destruct f; cbn; lia).
  - intros s (_ & T & _). apply time_get_valid, T.
  - intros s v W Hv. apply in_range_store_time; [exact W |].
    apply time_set_valid; [apply W | exact Hv].
Qed.

Lemma ranged_SetMonth (p : DateRef) :
  p <> ref_Alarm1Date -> preserves in_range (SetMonth env fuel p).
Proof.
  intros Hp. rewrite SetMonth_shape.
  apply ranged_edit_shape; try lia.
  - intros s (_ & _ & D). destruct (D p Hp) as (_ & ? & _). assumption.
  - intros s v W Hv. apply in_range_store_date; [exact W |].
    apply set_month_valid; [apply W, Hp | exact Hv].
Qed.

Lemma ranged_SetYear (p : DateRef) :
  p <> ref_Alarm1Date -> preserves in_range (SetYear env fuel p).
Proof.
  intros Hp. unfold SetYear, upd_date.
  apply (ranged_guarded _ _
           (fun s => (year_long (load_date p s) <? 2099) = true));
    [apply ranged_PB2pressed | intros; apply guard_rd | |].
  { intros s W G. apply stored_then_delayed. apply Z.ltb_lt in G.
    pose proof W as (_ & _ & D). pose proof (D p Hp) as V.
    apply in_range_store_date; [exact W |].
    destruct V as (? & ? & ? & ?).
    rewrite year_up by (try assumption; lia).
    apply with_year_valid; [apply D, Hp | lia]. }
  apply (ranged_guarded _ _
           (fun s => (year_long (load_date p s) =? 2099) = true));
    [apply ranged_PB2pressed | intros; apply guard_rd | |].
  { intros s W G. apply stored_then_delayed.
    pose proof W as (_ & _ & D).
    apply in_range_store_date; [exact W |].
    apply (with_year_valid 2000); [apply D, Hp | lia]. }
  apply (ranged_guarded _ _
           (fun s => (2000 <? year_long (load_date p s)) = true));
    [apply ranged_PB1pressed | intros; apply guard_rd | |].
  { intros s W G. apply stored_then_delayed. apply Z.ltb_lt in G.
    pose proof W as (_ & _ & D). pose proof (D p Hp) as V.
    apply in_range_store_date; [exact W |].
    destruct V as (? & ? & ? & ?).
    rewrite year_down by (try assumption; lia).
    apply with_year_valid; [apply D, Hp | lia]. }
  apply (ranged_guarded_last _ _
           (fun s => (year_long (load_date p s) =? 2000) = true));
    [apply ranged_PB1pressed | intros; apply guard_rd |].
  intros s W G. apply stored_then_delayed.
  pose proof W as (_ & _ & D).
  apply in_range_store_date; [exact W |].
  apply (with_year_valid 2099); [apply D, Hp | lia].
Qed.

Lemma guard_day_below (p : DateRef) (tbl : list Z) (s : State) :
  length tbl = 13%nat -> in_range s ->
  exists v,
    day_below p tbl s = Ok (v, s)
    /\ (v = true ->
        day (load_date p s) < nth (Z.to_nat (month (load_date p s))) tbl 0).
Proof.
  intros L ([_ Wd] & _). destruct (Wd p) as (_ & Hm & _).
  eexists. split; [apply day_below_eval; rewrite L; lia |].
  intros G. apply Z.ltb_lt in G. exact G.
Qed.

Lemma guard_day_equals (p : DateRef) (tbl : list Z) (s : State) :
  length tbl = 13%nat -> in_range s ->
  exists v, day_equals p tbl s = Ok (v, s) /\ (v = true -> True).
Proof.
  intros L ([_ Wd] & _). destruct (Wd p) as (_ & Hm & _).
  eexists. split; [apply day_equals_eval; rewrite L; lia | auto].
Qed.

Lemma day_up_ranged (p : DateRef) (s : State) :
  p <> ref_Alarm1Date -> in_range s ->
  day (load_date p s)
    < nth (Z.to_nat (month (load_date p s))) DaysInMonthLeap 0 ->
  exists s',
    (upd_date p (fun d => set_day (wrap8 (day d + 1)) d) ;;
     Delay10KTCYx env KEY_REPEAT_DELAY) s = Ok (tt, s')
    /\ in_range s'.
Proof.
  intros Hp W G. apply stored_then_delayed.
  pose proof W as (_ & _ & D). pose proof (D p Hp) as V.
  apply in_range_store_date; [exact W |].
  apply set_day_valid; [exact V |].
  destruct V as (? & Hm & _).
  destruct (month_lengths _ Hm) as [_ ?].
  rewrite wrap8_small; lia.
Qed.

Lemma day_first_ranged (p : DateRef) (s : State) :
  p <> ref_Alarm1Date -> in_range s ->
  exists s',
    (upd_date p (set_day 1) ;; Delay10KTCYx env KEY_REPEAT_DELAY) s
    = Ok (tt, s')
    /\ in_range s'.
Proof.
  intros Hp W. apply stored_then_delayed.
  apply in_range_store_date; [exact W |].
  apply set_day_valid; [apply W, Hp | lia].
Qed.

Lemma day_down_ranged (p : DateRef) (s : State) :
  p <> ref_Alarm1Date -> in_range s ->
  (1 <? day (load_date p s)) = true ->
  exists s',
    (upd_date p (fun d => set_day (wrap8 (day d - 1)) d) ;;
     Delay10KTCYx env KEY_REPEAT_DELAY) s = Ok (tt, s')
    /\ in_range s'.
Proof.
  intros Hp W G. apply stored_then_delayed. apply Z.ltb_lt in G.
  pose proof W as (_ & _ & D). pose proof (D p Hp) as V.
  apply in_range_store_date; [exact W |].
  apply set_day_valid; [exact V |].
  destruct V as (? & _). rewrite wrap8_small; lia.
Qed.

Lemma day_last_ranged (p : DateRef) (s : State) :
  p <> ref_Alarm1Date -> in_range s ->
  exists s',
    (day_wrap_back p ;; Delay10KTCYx env KEY_REPEAT_DELAY) s = Ok (tt, s')
    /\ in_range s'.
Proof.
  intros Hp W. pose proof W as (_ & _ & D).
  assert (Hm : 1 <= month (MainDate s) <= 12)
    by (destruct (D ref_MainDate ltac:(discriminate)) as (_ & ? & _);
        assumption).
  assert (E : day_wrap_back p s =
              Ok (tt, store_date p
                        (set_day (nth (Z.to_nat (month (MainDate s)))
                                    DaysInMonth 0) (load_date p s)) s))
    by (apply day_wrap_back_eval; lia).
  rewrite (bind_Ok _ _ _ _ _ E).
  eexists. split; [reflexivity |]. apply in_range_ticks.
  apply in_range_store_date; [exact W |].
  apply set_day_valid; [apply D, Hp |].
  destruct (month_lengths _ Hm) as [? _]. lia.
Qed.

Lemma ranged_SetDay (p : DateRef) :
  p <> ref_Alarm1Date -> preserves in_range (SetDay env fuel p).
Proof.
  intros Hp. unfold SetDay.
  apply preserves_bind; [apply preserves_rd | intros y].
  destruct (CalcLeapYear y =? 1).
  - apply (ranged_guarded _ _
             (fun s => day (load_date p s)
                       < nth (Z.to_nat (month (load_date p s)))
                           DaysInMonthLeap 0));
      [apply ranged_PB2pressed
      | intros; apply guard_day_below; [reflexivity | assumption]
      | intros; apply day_up_ranged; assumption |].
    apply (ranged_guarded _ _ (fun _ => True));
      [apply ranged_PB2pressed
      | intros; apply guard_day_equals; [reflexivity | assumption]
      | intros; apply day_first_ranged; assumption |].
    apply (ranged_guarded _ _
             (fun s => (1 <? day (load_date p s)) = true));
      [apply ranged_PB1pressed | intros; apply guard_rd
      | intros; apply day_down_ranged; assumption |].
    apply (ranged_guarded_last _ _
             (fun s => (day (load_date p s) =? 1) = true));
      [apply ranged_PB1pressed | intros; apply guard_rd
      | intros; apply day_last_ranged; assumption].
  - apply (ranged_guarded _ _
             (fun s => day (load_date p s)
                       < nth (Z.to_nat (month (load_date p s)))
                           DaysInMonthLeap 0));
      [apply ranged_PB2pressed
      | intros; apply guard_day_below; [reflexivity | assumption]
      | intros; apply day_up_ranged; assumption |].
    apply (ranged_guarded _ _ (fun _ => True));
      [apply ranged_PB2pressed
      | intros; apply guard_day_equals; [reflexivity | assumption]
      | intros; apply day_first_ranged; assumption |].
    apply (ranged_guarded _ _
             (fun s => (1 <? day (load_date p s)) = true));
      [apply ranged_PB1pressed | intros; apply guard_rd
      | intros; apply day_down_ranged; assumption |].
    apply (ranged_guarded_last _ _
             (fun s => (day (load_date p s) =? 1) = true));
      [apply ranged_PB1pressed | intros; apply guard_rd
      | intros; apply day_last_ranged; assumption].
Qed.

Lemma ranged_SetDate (f : DateField) (p : DateRef) :
  p <> ref_Alarm1Date -> preserves in_range (SetDate env fuel f p).
Proof.
  intros Hp.
  destruct f; [apply ranged_SetDay | apply ranged_SetMonth
              | apply ranged_SetYear]; exact Hp.
Qed.

Lemma ranged_Num2Disp (v : Z) : 0 <= v -> preserves in_range (Num2Disp v).
Proof.
  intros Hv s W. destruct (Z.ltb_spec 99 v).
  - rewrite Num2Disp_error by assumption. eexists _, _.
    split; [reflexivity |]. revert W.
    apply in_range_same; intros p; destruct p; reflexivity.
  - rewrite Num2Disp_digits by lia. eexists _, _.
    split; [reflexivity |]. revert W.
    apply in_range_same; intros p; destruct p; reflexivity.
Qed.

Lemma ranged_ShowTime (f : TimeField) (p : TimeRef) :
  preserves in_range (ShowTime f p).
Proof.
  intros s W. unfold ShowTime. rewrite bind_rd.
  apply ranged_Num2Disp; [| exact W].
  destruct W as (_ & T & _). destruct (T p) as (? & ? & ?).
  destruct f; lia.
Qed.

Lemma ranged_ShowDate (f : DateField) (p : DateRef) :
  preserves in_range (ShowDate f p).
Proof.
  intros s W. unfold ShowDate. rewrite bind_rd.
  apply ranged_Num2Disp; [| exact W].
  destruct W as ([_ Wd] & _). destruct (Wd p) as (? & ? & ?).
  unfold is_char in *. destruct f; lia.
Qed.

Ltac ranged :=
  repeat match goal with
  | |- preserves in_range (bind _ _) => apply preserves_bind; [| intros ? ]
  | |- preserves in_range (ret _) => apply preserves_ret
  | |- preserves in_range (rd _) => apply preserves_rd
  | |- preserves in_range (index _ _) => apply ranged_index; cbn; lia
  | |- preserves in_range (Switches _) => apply ranged_Switches
  | |- preserves in_range (Delay10KTCYx _ _) => apply ranged_Delay10KTCYx
  | |- preserves in_range (PB1pressed _ _) => apply ranged_PB1pressed
  | |- preserves in_range (PB2pressed _ _) => apply ranged_PB2pressed
  | |- preserves in_range (SetTime _ _ _ _) => apply ranged_SetTime
  | |- preserves in_range (SetDate _ _ _ _) =>
      apply ranged_SetDate; discriminate
  | |- preserves in_range (ShowTime _ _) => apply ranged_ShowTime
  | |- preserves in_range (ShowDate _ _) => apply ranged_ShowDate
  | |- preserves in_range (when _ _) => apply preserves_when
  | |- preserves in_range (modify _) =>
      apply preserves_modify; intros ?; apply in_range_same; intros p;
      destruct p; reflexivity
  | |- preserves in_range (if ?c then _ else _) => destruct c
  | |- preserves in_range (match ?f with _ => _ end) => destruct f
  | |- preserves in_range _ => solve [auto 2]
  end.

Lemma ranged_flashes :
  preserves in_range (SecsFlash env) /\ preserves in_range (MinsFlash env)
  /\ preserves in_range (HrsFlash env) /\ preserves in_range (DayFlash env)
  /\ preserves in_range (MonthFlash env) /\ preserves in_range (YearFlash env)
  /\ preserves in_range (Alarm1Flash env)
  /\ preserves in_range (Alarm2Flash env).
Proof.
  unfold SecsFlash, MinsFlash, HrsFlash, DayFlash, MonthFlash, YearFlash,
    Alarm1Flash, Alarm2Flash, leds_and, leds_or, dp_on, blink.
  repeat split; ranged.
Qed.

Lemma ranged_toggles :
  preserves in_range (Alarm1_toggle env fuel)
  /\ preserves in_range (Alarm2_toggle env fuel).
Proof. unfold Alarm1_toggle, Alarm2_toggle. split; ranged. Qed.

Lemma ranged_show_Er (code : Z) : preserves in_range (show_Er code).
Proof. unfold show_Er. ranged. Qed.

Lemma ranged_step (l : Loc) : preserves in_range (step env fuel l).
Proof.
  pose proof ranged_show_Er.
  destruct ranged_flashes as (? & ? & ? & ? & ? & ? & ? & ?).
  destruct ranged_toggles as (? & ?).
  destruct l;
    unfold step, SetMenu_dispatch, SetAlarm1_dispatch, SetAlarm2_dispatch;
    ranged.
Qed.

(** X18. Started with the three times valid times of day and the two
    editable dates in range (day 1..31, month 1..12, year 2000..2099 with
    the two-digit year in step), the settings machine executes every
    schedule of periods and program moves, whatever the switches and
    buttons do, and arrives at a loop head with all of that true again: no
    editor, flash routine or interrupt takes a field out of its range or
    lets the two year fields drift apart. *)
Theorem settings_keep_ranges (es : list event) (l : Loc) (s : State) :
  in_range s ->
  exists l' s', run env fuel es l s = Ok (l', s') /\ in_range s'.
Proof.
  revert l s. induction es as [| e es IH]; intros l s W.
  - exists l, s. split; [reflexivity | exact W].
  - destruct e; cbn [run].
    + apply IH, in_range_tick, W.
    + destruct (ranged_step l s W) as (l1 & s1 & E & W1). rewrite E.
      apply IH, W1.
Qed.

End Ranges.

Lemma settings_keep_ranges_witness :
  exists l' s',
    run seconds_switch 25 [Advance; Elapse; Advance] AtSetMenu
      new_years_eve_2016 = Ok (l', s')
    /\ in_range s'.
Proof.
  assert (F : (Z.to_nat DEBOUNCE_DELAY <= 25)%nat) by (cbn; lia).
  apply (settings_keep_ranges seconds_switch 25 F).
  split; [| split].
  - split; intros p; destruct p; cbn; unfold wf_time, wf_date, is_char;
      cbn; lia.
  - intros p; destruct p; unfold valid_time; cbn; lia.
  - intros p Hp; destruct p; unfold valid_date; cbn;
      solve [lia | contradiction].
Defined.
